(** * Channel manager and direct-booking engine: a shallow embedding

    The development follows the Python sources
      - [channel-manager/rate-limiter.py]
      - [channel-manager/circuit-breaker.py]
      - [channel-manager/webhook-handlers.py]
      - [channel-manager/sync-engine.py]
      - [channel-manager/platform-adapters/base_adapter.py]
      - [direct-booking-engine/backend-api-routes.py]
    Every module below first transcribes the functions it needs and then
    states and proves the properties of the specification about them. *)

From Stdlib Require Import ZArith String Ascii List Bool Lia.
From stdpp Require Import gmap strings list fin_maps pretty.

Set Warnings "-register-all".

Open Scope string_scope.
Open Scope list_scope.
Open Scope Z_scope.

(** * SHA-256 ([hashlib.sha256]), used by the idempotency keys *)

Module Sha256.

(** 32-bit words are integers in [0, 2^32); every sum is reduced. *)
Definition w32 (x : Z) : Z := x mod 4294967296.

Definition add32 (x y : Z) : Z := w32 (x + y).

Definition rotr (n x : Z) : Z :=
  Z.lor (Z.shiftr x n) (w32 (Z.shiftl x (32 - n))).

Definition not32 (x : Z) : Z := Z.lxor x 4294967295.

Definition Ch (x y z : Z) : Z := Z.lxor (Z.land x y) (Z.land (not32 x) z).

Definition Maj (x y z : Z) : Z :=
  Z.lxor (Z.lxor (Z.land x y) (Z.land x z)) (Z.land y z).

Definition Sigma0 (x : Z) : Z := Z.lxor (Z.lxor (rotr 2 x) (rotr 13 x)) (rotr 22 x).
Definition Sigma1 (x : Z) : Z := Z.lxor (Z.lxor (rotr 6 x) (rotr 11 x)) (rotr 25 x).
Definition sigma0 (x : Z) : Z := Z.lxor (Z.lxor (rotr 7 x) (rotr 18 x)) (Z.shiftr x 3).
Definition sigma1 (x : Z) : Z := Z.lxor (Z.lxor (rotr 17 x) (rotr 19 x)) (Z.shiftr x 10).

(** The round constants are the first 32 bits of the fractional parts of
    the cube roots of the first 64 primes, the initial hash value those of
    the square roots of the first eight (FIPS 180-4, sections 4.2.2 and
    5.3.3). *)
Definition is_prime (n : Z) : bool :=
  forallb (fun d => negb (n mod d =? 0)%Z) (map Z.of_nat (seq 2 (Z.to_nat n - 2))).

Definition primes_below (n : nat) : list Z :=
  List.filter is_prime (map Z.of_nat (seq 2 (n - 2))).

(** The integer cube root: the greatest [r] below [2 ^ bits] with [r ^ 3 <= n]. *)
Fixpoint icbrt_from (bits : nat) (n r : Z) : Z :=
  match bits with
  | O => r
  | S b =>
      let candidate := r + 2 ^ Z.of_nat b in
      icbrt_from b n (if candidate * candidate * candidate <=? n then candidate else r)
  end.

Definition fractional_cbrt (p : Z) : Z := w32 (icbrt_from 40 (p * 2 ^ 96) 0).

Definition fractional_sqrt (p : Z) : Z := w32 (Z.sqrt (p * 2 ^ 64)).

Definition K : list Z := Eval vm_compute in map fractional_cbrt (primes_below 312).

Definition H0 : list Z := Eval vm_compute in map fractional_sqrt (primes_below 20).

Definition bytes_of_string (s : string) : list Z :=
  map (fun c => Z.of_N (N_of_ascii c)) (list_ascii_of_string s).

(** Big-endian encoding of [x] on [n] bytes. *)
Fixpoint be_bytes (n : nat) (x : Z) : list Z :=
  match n with
  | O => []
  | S n' => be_bytes n' (Z.shiftr x 8) ++ [x mod 256]
  end.

(** Message padding: a 1 bit, zeros up to 56 mod 64, the bit length on 8 bytes. *)
Definition pad (msg : list Z) : list Z :=
  let len := Z.of_nat (length msg) in
  let zeros := Z.to_nat ((55 - len) mod 64) in
  msg ++ [128] ++ repeat 0 zeros ++ be_bytes 8 (8 * len).

Fixpoint words_of_bytes (fuel : nat) (bs : list Z) : list Z :=
  match fuel, bs with
  | S fuel', b0 :: b1 :: b2 :: b3 :: rest =>
      (b0 * 16777216 + b1 * 65536 + b2 * 256 + b3) :: words_of_bytes fuel' rest
  | _, _ => []
  end.

(** The message schedule, kept newest word first while it is extended. *)
Fixpoint extend (n : nat) (rev_w : list Z) : list Z :=
  match n with
  | O => rev_w
  | S n' =>
      let nth_back i := nth i rev_w 0 in
      let w := add32 (add32 (sigma1 (nth_back 1%nat)) (nth_back 6%nat))
                     (add32 (sigma0 (nth_back 14%nat)) (nth_back 15%nat)) in
      extend n' (w :: rev_w)
  end.

Definition schedule (block : list Z) : list Z := rev (extend 48 (rev block)).

Record regs := Regs { ra : Z; rb : Z; rc : Z; rd : Z; re : Z; rf : Z; rg : Z; rh : Z }.

Definition round (r : regs) (kw : Z * Z) : regs :=
  let '(k, w) := kw in
  let t1 := add32 (add32 (add32 (rh r) (Sigma1 (re r))) (add32 (Ch (re r) (rf r) (rg r)) k)) w in
  let t2 := add32 (Sigma0 (ra r)) (Maj (ra r) (rb r) (rc r)) in
  Regs (add32 t1 t2) (ra r) (rb r) (rc r) (add32 (rd r) t1) (re r) (rf r) (rg r).

Definition regs_of_list (h : list Z) : regs :=
  Regs (nth 0 h 0) (nth 1 h 0) (nth 2 h 0) (nth 3 h 0)
       (nth 4 h 0) (nth 5 h 0) (nth 6 h 0) (nth 7 h 0).

Definition list_of_regs (r : regs) : list Z :=
  [ra r; rb r; rc r; rd r; re r; rf r; rg r; rh r].

Definition compress (h : list Z) (block : list Z) : list Z :=
  let r := fold_left round (combine K (schedule block)) (regs_of_list h) in
  map (fun p => add32 (fst p) (snd p)) (combine h (list_of_regs r)).

Fixpoint blocks (fuel : nat) (ws : list Z) : list (list Z) :=
  match fuel, ws with
  | S fuel', _ :: _ => firstn 16 ws :: blocks fuel' (skipn 16 ws)
  | _, _ => []
  end.

Definition digest_words (msg : list Z) : list Z :=
  let bs := pad msg in
  let ws := words_of_bytes (length bs) bs in
  fold_left compress (blocks (length ws) ws) H0.

Definition hex_digit (d : Z) : ascii :=
  if (d <? 10)%Z then ascii_of_N (Z.to_N (48 + d)) else ascii_of_N (Z.to_N (87 + d)).

Definition hex_of_byte (b : Z) : list ascii := [hex_digit (b / 16); hex_digit (b mod 16)].

Definition digest (msg : list Z) : list Z := flat_map (be_bytes 4) (digest_words msg).

Definition hex (bs : list Z) : string := string_of_list_ascii (flat_map hex_of_byte bs).

(** [hashlib.sha256(s.encode()).hexdigest()]; a Rocq string is its own
    byte sequence, which is the UTF-8 encoding for ASCII text. *)
Definition hexdigest (s : string) : string := hex (digest (bytes_of_string s)).

(** [hmac.new(key, msg, hashlib.sha256).hexdigest()]. *)
Definition hmac_hexdigest (key msg : string) : string :=
  let k := bytes_of_string key in
  let k1 := if (64 <? Z.of_nat (length k))%Z then digest k else k in
  let k2 := k1 ++ repeat 0 (64 - length k1) in
  let ipad := map (Z.lxor 54) k2 in
  let opad := map (Z.lxor 92) k2 in
  hex (digest (opad ++ digest (ipad ++ bytes_of_string msg))).

End Sha256.

(** * Python values as they arrive from [json.loads] *)

Module Py.

Inductive json : Type :=
| JNull
| JBool (b : bool)
| JNum (n : Z)
| JStr (s : string)
| JArr (items : list json)
| JObj (fields : list (string * json)).

(** Truth value of a Python object ([if x], [filter(None, ...)], [x or y]). *)
Definition truthy (v : json) : bool :=
  match v with
  | JNull => false
  | JBool b => b
  | JNum n => negb (n =? 0)%Z
  | JStr s => negb (String.eqb s "")
  | JArr items => match items with [] => false | _ => true end
  | JObj fields => match fields with [] => false | _ => true end
  end.

Fixpoint assoc {A : Type} (k : string) (l : list (string * A)) : option A :=
  match l with
  | [] => None
  | (k', v) :: l' => if String.eqb k k' then Some v else assoc k l'
  end.

(** [d.get(k, default)] on a dict. *)
Definition dict_get (k : string) (default : json) (d : list (string * json)) : json :=
  match assoc k d with
  | Some v => v
  | None => default
  end.

(** The dictionary behind a value; a [.get] on anything else raises. *)
Definition as_dict (v : json) : option (list (string * json)) :=
  match v with
  | JObj fields => Some fields
  | _ => None
  end.

(** What [json.loads] makes of the bytes of a body: the value, the
    [JSONDecodeError] of text that is not JSON, or another exception (the
    [UnicodeDecodeError] of bytes that are not UTF-8 is a [ValueError] but
    not a [JSONDecodeError]). *)
Inductive loads :=
| loaded (v : json)
| JSONDecodeError
| UnicodeDecodeError.

(** [s.isascii()]. *)
Definition isascii (s : string) : bool :=
  forallb (fun c => (N_of_ascii c <? 128)%N) (list_ascii_of_string s).

(** [sep.join(parts)]. *)
Fixpoint join (sep : string) (parts : list string) : string :=
  match parts with
  | [] => ""
  | [p] => p
  | p :: rest => p +:+ sep +:+ join sep rest
  end.

(** [s[:n]]. *)
Definition prefix (n : nat) (s : string) : string := String.substring 0 n s.

(** [s.split(sep)[-1]] for a one-character separator. *)
Fixpoint last_segment_from (sep : ascii) (s acc : string) : string :=
  match s with
  | EmptyString => acc
  | String c rest =>
      if Ascii.eqb c sep then last_segment_from sep rest ""
      else last_segment_from sep rest (acc +:+ String c "")
  end.

Definition last_segment (sep : ascii) (s : string) : string := last_segment_from sep s "".

Definition digit_value (c : ascii) : option Z :=
  let n := Z.of_N (N_of_ascii c) in
  if (48 <=? n)%Z && (n <=? 57)%Z then Some (n - 48)%Z else None.

Fixpoint parse_digits (s : string) (acc : Z) : option Z :=
  match s with
  | EmptyString => Some acc
  | String c rest =>
      match digit_value c with
      | Some d => parse_digits rest (10 * acc + d)%Z
      | None => None
      end
  end.

(** [int(s)] for a run of decimal digits; [None] is the [ValueError] of
    any other text. *)
Definition parse_int (s : string) : option Z :=
  match s with
  | EmptyString => None
  | _ => parse_digits s 0%Z
  end.

(** [f"{n:06d}"] for a natural number. *)
Definition format_06d (n : Z) : string :=
  let digits := pretty n in
  string_of_list_ascii (repeat "0"%char (6 - String.length digits)) +:+ digits.

End Py.

(** * Decimal amounts ([decimal.Decimal])

    A decimal is a coefficient and a number of fractional digits. Sums and
    products are exact: the amounts of the booking engine stay far below the
    28 significant digits of the default context, where Python starts to
    round them. [quantize] rounds half to even, the rounding of the default
    context, which the engine never changes. *)

Module Decimal.

Record decimal := Dec { coefficient : Z; scale : nat }.

#[global] Instance decimal_eq_dec : EqDecision decimal.
Proof. solve_decision. Defined.

Definition pow10 (n : nat) : Z := 10 ^ Z.of_nat n.

(** The coefficient of [d] on [s] fractional digits, for [scale d <= s]. *)
Definition rescale (s : nat) (d : decimal) : Z := coefficient d * pow10 (s - scale d).

Definition zero : decimal := Dec 0 0.

Definition add (a b : decimal) : decimal :=
  let s := Nat.max (scale a) (scale b) in
  Dec (rescale s a + rescale s b) s.

Definition mul (a b : decimal) : decimal :=
  Dec (coefficient a * coefficient b) (scale a + scale b).

(** [d / 100]: the same digits, two places further right. *)
Definition div100 (d : decimal) : decimal := Dec (coefficient d) (scale d + 2).

(** [d / n] is kept as the quotient it denotes; no function of the engine
    computes with it. *)
Record quotient := Quot { numerator : decimal; denominator : Z }.

(** Truth value: a decimal is falsy exactly when it is zero. *)
Definition truthy (d : decimal) : bool := negb (coefficient d =? 0).

Definition is_positive (d : decimal) : bool := 0 <? coefficient d.

(** Equality of values, as [==] compares decimals. *)
Definition eqb (a b : decimal) : bool :=
  let s := Nat.max (scale a) (scale b) in
  rescale s a =? rescale s b.

(** [n / d] rounded to the nearest integer, ties to the even one ([0 < d]). *)
Definition round_half_even (n d : Z) : Z :=
  let q := n / d in
  let r := n mod d in
  if 2 * r <? d then q
  else if d <? 2 * r then q + 1
  else if Z.even q then q else q + 1.

(** [n / d] rounded to the nearest integer, ties away from zero ([0 < d]). *)
Definition round_half_up (n d : Z) : Z :=
  if 0 <=? n then (2 * n + d) / (2 * d) else - ((2 * (- n) + d) / (2 * d)).

Definition quantize_with (round : Z -> Z -> Z) (d : decimal) : decimal :=
  if (scale d <=? 2)%nat then Dec (rescale 2 d) 2
  else Dec (round (coefficient d) (pow10 (scale d - 2))) 2.

(** [d.quantize(Decimal("0.01"))]. *)
Definition quantize (d : decimal) : decimal := quantize_with round_half_even d.

(** [int(d * 100)]: the cents of [d], truncated towards zero. *)
Definition to_cents (d : decimal) : Z :=
  if (scale d <=? 2)%nat then rescale 2 d
  else Z.quot (coefficient d) (pow10 (scale d - 2)).

(** [Decimal(n) / 100] for an integer number of cents. *)
Definition of_cents (n : Z) : decimal := Dec n 2.

Definition sum (l : list decimal) : decimal := fold_left add l zero.

End Decimal.

(** * The coordination store: sorted sets with scores, keys with a TTL

    Timestamps ([time.time()]) are counted in microseconds; a duration given
    in seconds is converted with [seconds]. *)

Module Redis.

Definition seconds (n : Z) : Z := n * 1000000.

Section zset.
Context {M : Type} `{Countable M}.

(** A sorted set maps each member to its score. *)
Definition zremrangebyscore (lo hi : Z) (z : gmap M Z) : gmap M Z :=
  filter (fun e => ¬ (lo ≤ e.2 ∧ e.2 ≤ hi)) z.

Definition zcard (z : gmap M Z) : Z := Z.of_nat (size z).

Definition zadd (m : M) (score : Z) (z : gmap M Z) : gmap M Z := <[m := score]> z.

Definition zcount (lo hi : Z) (z : gmap M Z) : Z :=
  Z.of_nat (size (filter (fun e => lo ≤ e.2 ∧ e.2 ≤ hi) z)).

(** A sorted-set key: its members and the instant at which it expires. *)
Record zkey := ZKey { zmembers : gmap M Z; zexpire_at : option Z }.

Definition alive (now : Z) (k : zkey) : bool :=
  match zexpire_at k with
  | Some t => now <? t
  | None => true
  end.

(** What a command issued at [now] sees under a key. *)
Definition zread (now : Z) (k : option zkey) : gmap M Z :=
  match k with
  | Some k' => if alive now k' then zmembers k' else ∅
  | None => ∅
  end.

Definition zttl (now : Z) (k : option zkey) : option Z :=
  match k with
  | Some k' => if alive now k' then zexpire_at k' else None
  | None => None
  end.

(** A sorted set that becomes empty is removed with its key. *)
Definition zwrite (z : gmap M Z) (ttl : option Z) : option zkey :=
  if decide (z = ∅) then None else Some (ZKey z ttl).

Definition ZREMRANGEBYSCORE (now lo hi : Z) (k : option zkey) : option zkey :=
  zwrite (zremrangebyscore lo hi (zread now k)) (zttl now k).

Definition ZCARD (now : Z) (k : option zkey) : Z := zcard (zread now k).

Definition ZADD (now : Z) (m : M) (score : Z) (k : option zkey) : option zkey :=
  zwrite (zadd m score (zread now k)) (zttl now k).

Definition EXPIRE (now ttl : Z) (k : option zkey) : option zkey :=
  match k with
  | Some k' => if alive now k' then Some (ZKey (zmembers k') (Some (now + ttl))) else None
  | None => None
  end.
End zset.

Arguments zkey M {_ _}.

Section zrange.
Context {M : Type} `{Countable M}.

Definition lowest (scores : list Z) : option Z :=
  match scores with
  | [] => None
  | s :: rest => Some (fold_left Z.min rest s)
  end.

(** [zrange(key, 0, 0, withscores=True)], read for the score of its one
    entry: the lowest score of the set, [None] when the set is empty. *)
Definition zrange_first_score (z : gmap M Z) : option Z :=
  lowest (snd <$> map_to_list z).
End zrange.

(** Instants that follow one another, each later than the one before. *)
Fixpoint increasing (after : Z) (instants : list Z) : bool :=
  match instants with
  | [] => true
  | t :: rest => (after <? t) && increasing t rest
  end.

End Redis.

(** * The sliding-window rate limiter ([rate-limiter.py]) *)

Module RateLimiter.
Import Redis.

Record RateLimitConfig := {
  max_requests : Z;
  window_seconds : Z;
  burst_limit : option Z
}.

Definition RATE_LIMITS : list (string * RateLimitConfig) :=
  [ ("airbnb", {| max_requests := 10; window_seconds := 1; burst_limit := Some 15 |});
    ("booking_com", {| max_requests := 20; window_seconds := 60; burst_limit := Some 30 |});
    ("expedia", {| max_requests := 50; window_seconds := 1; burst_limit := Some 75 |});
    ("fewo_direkt", {| max_requests := 30; window_seconds := 1; burst_limit := Some 45 |});
    ("google", {| max_requests := 100; window_seconds := 1; burst_limit := Some 150 |}) ].

Definition _get_config (channel_type : string) : RateLimitConfig :=
  match Py.assoc channel_type RATE_LIMITS with
  | Some c => c
  | None => {| max_requests := 10; window_seconds := 1; burst_limit := None |}
  end.

Definition _get_rate_limit_key (key_prefix channel_type connection_id : string) : string :=
  key_prefix +:+ ":" +:+ channel_type +:+ ":" +:+ connection_id.

(** [config.burst_limit or config.max_requests]: a burst limit of zero is
    falsy and falls back to [max_requests], like an absent one. *)
Definition effective_limit (config : RateLimitConfig) : Z :=
  match burst_limit config with
  | Some b => if b =? 0 then max_requests config else b
  | None => max_requests config
  end.

(** A member is the text [f"{now}:{weight}"], kept as the pair it prints. *)
Abbreviation member := (Z * Z)%type.

Abbreviation store := (gmap string (zkey member)).

(** The counters and the gauge the limiter reports. *)
Record metrics := {
  requests_allowed : Z;
  requests_denied : Z;
  current_gauge : option Z
}.

Record limiter := { kv : store; stats : metrics }.

(** The pipeline of [acquire]: drop the entries outside the window and count
    the rest; one step of the store. *)
Definition acquire_pipeline (now : Z) (config : RateLimitConfig) (key : string)
    (st : store) : Z * store :=
  let window_start := now - seconds (window_seconds config) in
  let st1 := partial_alter (ZREMRANGEBYSCORE now 0 window_start) key st in
  (ZCARD now (st1 !! key), st1).

(** The second round trip of [acquire]: [zadd] of the one member, then [expire]. *)
Definition acquire_record (now : Z) (config : RateLimitConfig) (key : string)
    (weight : Z) (st : store) : store :=
  let st2 := partial_alter (ZADD now (now, weight) now) key st in
  partial_alter (EXPIRE now (seconds (window_seconds config * 2))) key st2.

Definition acquire (key_prefix : string) (now : Z) (channel_type connection_id : string)
    (weight : Z) (l : limiter) : bool * limiter :=
  let config := _get_config channel_type in
  let key := _get_rate_limit_key key_prefix channel_type connection_id in
  let '(current_count, st1) := acquire_pipeline now config key (kv l) in
  if current_count + weight >? effective_limit config then
    (false, {| kv := st1;
               stats := {| requests_allowed := requests_allowed (stats l);
                           requests_denied := requests_denied (stats l) + 1;
                           current_gauge := current_gauge (stats l) |} |})
  else
    (true, {| kv := acquire_record now config key weight st1;
              stats := {| requests_allowed := requests_allowed (stats l) + 1;
                          requests_denied := requests_denied (stats l);
                          current_gauge := Some (current_count + weight) |} |}).

(** [get_current_count]: [zcount] over the closed window [now - W, now]. *)
Definition get_current_count (key_prefix : string) (now : Z)
    (channel_type connection_id : string) (l : limiter) : Z :=
  let config := _get_config channel_type in
  let key := _get_rate_limit_key key_prefix channel_type connection_id in
  let window_start := now - seconds (window_seconds config) in
  zcount window_start now (zread now (kv l !! key)).

(** [get_remaining]. *)
Definition get_remaining (key_prefix : string) (now : Z)
    (channel_type connection_id : string) (l : limiter) : Z :=
  let config := _get_config channel_type in
  let current := get_current_count key_prefix now channel_type connection_id l in
  Z.max 0 (effective_limit config - current).

Definition empty_limiter : limiter :=
  {| kv := ∅;
     stats := {| requests_allowed := 0; requests_denied := 0; current_gauge := None |} |}.

(** The entries of a key that [acquire] still counts at [now]: those scored
    strictly after the start of the window. *)
Definition live_entries (key_prefix : string) (now : Z)
    (channel_type connection_id : string) (l : limiter) : gmap member Z :=
  let config := _get_config channel_type in
  let key := _get_rate_limit_key key_prefix channel_type connection_id in
  zremrangebyscore 0 (now - seconds (window_seconds config)) (zread now (kv l !! key)).

(** [n] calls of weight [weight] in a row, [step] microseconds apart. *)
Fixpoint acquire_many (n : nat) (now step weight : Z) (l : limiter) : list bool * limiter :=
  match n with
  | O => ([], l)
  | S n' =>
      let '(ok, l1) := acquire "rate_limit" now "airbnb" "conn-1" weight l in
      let '(oks, l2) := acquire_many n' (now + step) step weight l1 in
      (ok :: oks, l2)
  end.

(** [get_retry_after]: the time until the oldest entry leaves the window. *)
Definition get_retry_after (key_prefix : string) (now : Z)
    (channel_type connection_id : string) (l : limiter) : Z :=
  let config := _get_config channel_type in
  let key := _get_rate_limit_key key_prefix channel_type connection_id in
  match zrange_first_score (zread now (kv l !! key)) with
  | None => 0
  | Some oldest_time => Z.max 0 (oldest_time + seconds (window_seconds config) - now)
  end.

(** What [acquire_or_raise] does: it returns, or raises [RateLimitExceeded]
    with the fields of the exception. *)
Inductive acquired :=
| slot_acquired
| RateLimitExceeded (channel_type : string) (current_count limit retry_after : Z).

(** [acquire_or_raise]: [acquire] at [now]; when it refuses,
    [get_current_count] at [after] and [get_retry_after] at [later], each
    with its own reading of the clock. *)
Definition acquire_or_raise (key_prefix : string) (now after later : Z)
    (channel_type connection_id : string) (weight : Z) (l : limiter) : acquired * limiter :=
  let '(granted, l1) := acquire key_prefix now channel_type connection_id weight l in
  if granted then (slot_acquired, l1)
  else
    let config := _get_config channel_type in
    let current := get_current_count key_prefix after channel_type connection_id l1 in
    let retry_after := get_retry_after key_prefix later channel_type connection_id l1 in
    (RateLimitExceeded channel_type current (max_requests config) retry_after, l1).

(** [reset]: [redis.delete(key)]. *)
Definition reset (key_prefix channel_type connection_id : string) (l : limiter) : limiter :=
  {| kv := delete (_get_rate_limit_key key_prefix channel_type connection_id) (kv l);
     stats := stats l |}.

(** The calls of one caller, one after the other, each with its instant and
    its weight: the calls that were granted, in their order. *)
Fixpoint acquire_each (key_prefix channel_type connection_id : string) (calls : list (Z * Z))
    (l : limiter) : list (Z * Z) * limiter :=
  match calls with
  | [] => ([], l)
  | (now, weight) :: rest =>
      let '(granted, l1) := acquire key_prefix now channel_type connection_id weight l in
      let '(others, l2) := acquire_each key_prefix channel_type connection_id rest l1 in
      (if granted then (now, weight) :: others else others, l2)
  end.

End RateLimiter.

(** * The circuit breaker ([circuit-breaker.py]) *)

Module CircuitBreaker.
Import Redis.

Inductive CircuitState := CLOSED | OPEN | HALF_OPEN.

#[global] Instance CircuitState_eq_dec : EqDecision CircuitState.
Proof. solve_decision. Defined.

Record CircuitBreakerConfig := {
  failure_threshold : Z;
  success_threshold : Z;
  timeout : Z;
  half_open_max_calls : Z;
  window_size : Z;
  excluded_exceptions : list string
}.

Definition default_config : CircuitBreakerConfig :=
  {| failure_threshold := 5; success_threshold := 2; timeout := 60;
     half_open_max_calls := 3; window_size := 60; excluded_exceptions := [] |}.

Definition with_thresholds (f s t : Z) : CircuitBreakerConfig :=
  {| failure_threshold := f; success_threshold := s; timeout := t;
     half_open_max_calls := 3; window_size := 60; excluded_exceptions := [] |}.

Definition CIRCUIT_CONFIGS : list (string * CircuitBreakerConfig) :=
  [ ("airbnb", with_thresholds 5 2 60);
    ("booking_com", with_thresholds 5 2 120);
    ("expedia", with_thresholds 10 3 60);
    ("fewo_direkt", with_thresholds 5 2 60);
    ("google", with_thresholds 10 3 30) ].

Definition config_for (channel_type : string) : CircuitBreakerConfig :=
  match Py.assoc channel_type CIRCUIT_CONFIGS with
  | Some c => c
  | None => default_config
  end.

(** The five keys of one channel's breaker. The state key holds one of the
    three state names; the failures key is a sorted set whose members are
    the failure instants. *)
Record keys := {
  state_key : option CircuitState;
  failures_key : option (zkey Z);
  successes_key : option Z;
  opened_at_key : option Z;
  half_open_calls_key : option Z
}.

Definition no_keys : keys :=
  {| state_key := None; failures_key := None; successes_key := None;
     opened_at_key := None; half_open_calls_key := None |}.

(** The state a missing state key stands for. *)
Definition stored_state (k : keys) : CircuitState :=
  match state_key k with
  | Some s => s
  | None => CLOSED
  end.

(** An exception is given by its class name; [None] is a call without one. *)
Definition error := option string.

Definition is_excluded (config : CircuitBreakerConfig) (e : error) : bool :=
  match e with
  | Some name => existsb (String.eqb name) (excluded_exceptions config)
  | None => false
  end.

Inductive call :=
| GetState
| CanExecute
| BeforeExecute
| RecordSuccess
| RecordFailure (e : error).

(** One write of the state key, as [_set_state] reports it: the instant, the
    call that caused it, the keys just before [_transition_to] ran and the
    keys just after. *)
Record change := {
  at_time : Z;
  caused_by : call;
  before : keys;
  after : keys
}.

(** [_transition_to] followed by [_set_state]. *)
Definition _transition_to (now : Z) (state : CircuitState) (k : keys) : keys :=
  match state with
  | CLOSED =>
      {| state_key := Some CLOSED; failures_key := None; successes_key := None;
         opened_at_key := None; half_open_calls_key := None |}
  | OPEN =>
      {| state_key := Some OPEN; failures_key := failures_key k; successes_key := None;
         opened_at_key := Some now; half_open_calls_key := None |}
  | HALF_OPEN =>
      {| state_key := Some HALF_OPEN; failures_key := failures_key k; successes_key := None;
         opened_at_key := opened_at_key k; half_open_calls_key := Some 0 |}
  end.

Definition transition (now : Z) (c : call) (state : CircuitState) (k : keys)
    : keys * list change :=
  let k' := _transition_to now state k in
  (k', [ {| at_time := now; caused_by := c; before := k; after := k' |} ]).

Section breaker.
Variable config : CircuitBreakerConfig.

(** [get_state], on behalf of the call [c]. *)
Definition get_state (now : Z) (c : call) (k : keys) : CircuitState * keys * list change :=
  match state_key k with
  | None => (CLOSED, k, [])
  | Some OPEN =>
      match opened_at_key k with
      | Some opened_at =>
          if now - opened_at >=? seconds (timeout config) then
            let '(k', log) := transition now c HALF_OPEN k in
            (HALF_OPEN, k', log)
          else (OPEN, k, [])
      | None => (OPEN, k, [])
      end
  | Some state => (state, k, [])
  end.

Definition incr (v : option Z) : Z :=
  match v with
  | Some n => n + 1
  | None => 1
  end.

Definition int_or_0 (v : option Z) : Z :=
  match v with
  | Some n => n
  | None => 0
  end.

Definition can_execute (now : Z) (k : keys) : bool * keys * list change :=
  let '(state, k1, log) := get_state now CanExecute k in
  match state with
  | CLOSED => (true, k1, log)
  | OPEN => (false, k1, log)
  | HALF_OPEN =>
      let calls := int_or_0 (half_open_calls_key k1) in
      if calls >=? half_open_max_calls config then (false, k1, log)
      else
        (true,
         {| state_key := state_key k1; failures_key := failures_key k1;
            successes_key := successes_key k1; opened_at_key := opened_at_key k1;
            half_open_calls_key := Some (incr (half_open_calls_key k1)) |},
         log)
  end.

Inductive admission :=
| Proceed
| CircuitBreakerOpen (retry_after : Z)
| CircuitBreakerHalfOpen.

Definition before_execute (now : Z) (k : keys) : admission * keys * list change :=
  let '(state, k1, log) := get_state now BeforeExecute k in
  match state with
  | OPEN =>
      let opened_at := int_or_0 (opened_at_key k1) in
      let retry_after := seconds (timeout config) - (now - opened_at) in
      (CircuitBreakerOpen (Z.max 0 retry_after), k1, log)
  | HALF_OPEN =>
      let calls := int_or_0 (half_open_calls_key k1) in
      if calls >=? half_open_max_calls config then (CircuitBreakerHalfOpen, k1, log)
      else
        (Proceed,
         {| state_key := state_key k1; failures_key := failures_key k1;
            successes_key := successes_key k1; opened_at_key := opened_at_key k1;
            half_open_calls_key := Some (incr (half_open_calls_key k1)) |},
         log)
  | CLOSED => (Proceed, k1, log)
  end.

Definition record_success (now : Z) (k : keys) : keys * list change :=
  let '(state, k1, log) := get_state now RecordSuccess k in
  match state with
  | HALF_OPEN =>
      let successes := incr (successes_key k1) in
      let k2 := {| state_key := state_key k1; failures_key := failures_key k1;
                   successes_key := Some successes; opened_at_key := opened_at_key k1;
                   half_open_calls_key := half_open_calls_key k1 |} in
      if successes >=? success_threshold config then
        let '(k3, log') := transition now RecordSuccess CLOSED k2 in
        (k3, log ++ log')
      else (k2, log)
  | _ => (k1, log)
  end.

(** The pipeline of [record_failure] in the closed state. *)
Definition failure_pipeline (now : Z) (f : option (zkey Z)) : Z * option (zkey Z) :=
  let window_start := now - seconds (window_size config) in
  let f1 := ZREMRANGEBYSCORE now 0 window_start f in
  let f2 := ZADD now now now f1 in
  let failure_count := ZCARD now f2 in
  (failure_count, EXPIRE now (seconds (window_size config * 2)) f2).

Definition record_failure (now : Z) (e : error) (k : keys) : keys * list change :=
  if is_excluded config e then (k, [])
  else
    let '(state, k1, log) := get_state now (RecordFailure e) k in
    match state with
    | CLOSED =>
        let '(failure_count, f) := failure_pipeline now (failures_key k1) in
        let k2 := {| state_key := state_key k1; failures_key := f;
                     successes_key := successes_key k1; opened_at_key := opened_at_key k1;
                     half_open_calls_key := half_open_calls_key k1 |} in
        if failure_count >=? failure_threshold config then
          let '(k3, log') := transition now (RecordFailure e) OPEN k2 in
          (k3, log ++ log')
        else (k2, log)
    | HALF_OPEN =>
        let '(k2, log') := transition now (RecordFailure e) OPEN k1 in
        (k2, log ++ log')
    | OPEN => (k1, log)
    end.

(** One call of the public interface (the operator calls [force_open],
    [force_close] and [reset] apart). *)
Definition exec (now : Z) (c : call) (k : keys) : keys * list change :=
  match c with
  | GetState => let '(_, k', log) := get_state now GetState k in (k', log)
  | CanExecute => let '(_, k', log) := can_execute now k in (k', log)
  | BeforeExecute => let '(_, k', log) := before_execute now k in (k', log)
  | RecordSuccess => record_success now k
  | RecordFailure e => record_failure now e k
  end.

(** A sequence of calls, each at its own instant. *)
Fixpoint run (calls : list (Z * call)) (k : keys) : keys * list change :=
  match calls with
  | [] => (k, [])
  | (now, c) :: rest =>
      let '(k1, log1) := exec now c k in
      let '(k2, log2) := run rest k1 in
      (k2, log1 ++ log2)
  end.

(** The failures counted at [now]: the failures key as a command issued
    at [now] reads it. *)
Definition failures_in_window (now : Z) (k : keys) : Z := ZCARD now (failures_key k).

(** The four edges of the state machine, each with its guard read on the
    keys just before the state key is written. *)
Inductive edge : change -> Prop :=
| edge_trip ch e :
    stored_state (before ch) = CLOSED ->
    stored_state (after ch) = OPEN ->
    caused_by ch = RecordFailure e ->
    is_excluded config e = false ->
    failure_threshold config <= failures_in_window (at_time ch) (before ch) ->
    edge ch
| edge_probe ch opened_at :
    stored_state (before ch) = OPEN ->
    stored_state (after ch) = HALF_OPEN ->
    opened_at_key (before ch) = Some opened_at ->
    seconds (timeout config) <= at_time ch - opened_at ->
    edge ch
| edge_recover ch successes :
    stored_state (before ch) = HALF_OPEN ->
    stored_state (after ch) = CLOSED ->
    caused_by ch = RecordSuccess ->
    successes_key (before ch) = Some successes ->
    success_threshold config <= successes ->
    edge ch
| edge_reopen ch e :
    stored_state (before ch) = HALF_OPEN ->
    stored_state (after ch) = OPEN ->
    caused_by ch = RecordFailure e ->
    is_excluded config e = false ->
    edge ch.

(** The reported changes account for the whole path of the state: they
    lead from [s] to [s'] one after the other. *)
Inductive path : CircuitState -> list change -> CircuitState -> Prop :=
| path_nil s : path s [] s
| path_cons s ch log s' :
    stored_state (before ch) = s ->
    path (stored_state (after ch)) log s' ->
    path s (ch :: log) s'.
End breaker.

Section operations.
Variable config : CircuitBreakerConfig.

(** How the protected function ends: it returns, or it raises an exception
    of the named class. *)
Inductive func_outcome :=
| func_returns
| func_raises (name : string).

(** How [execute] ends: with the result of the function, with the exception
    of the function raised again, or with the refusal of [before_execute],
    the function not having been called. *)
Inductive execution :=
| executed
| reraised (name : string)
| refused (a : admission).

(** [execute]: [before_execute] at one instant, then the function, then
    [record_success] or [record_failure] at a later one. *)
Definition execute (now after : Z) (func : func_outcome) (k : keys)
    : execution * keys * list change :=
  let '(a, k1, log1) := before_execute config now k in
  match a with
  | Proceed =>
      match func with
      | func_returns =>
          let '(k2, log2) := record_success config after k1 in
          (executed, k2, log1 ++ log2)
      | func_raises name =>
          let '(k2, log2) := record_failure config after (Some name) k1 in
          (reraised name, k2, log1 ++ log2)
      end
  | _ => (refused a, k1, log1)
  end.

(** [reset]: the five keys are deleted. *)
Definition reset (k : keys) : keys := no_keys.

(** [force_open]: [_transition_to(OPEN)] at [now], then, for a duration
    that is not zero, [opened_at] is set again at [after] so that the timeout
    ends when the duration does. *)
Definition force_open (now after : Z) (duration : option Z) (k : keys) : keys :=
  let k1 := _transition_to now OPEN k in
  match duration with
  | Some d =>
      if d =? 0 then k1
      else
        {| state_key := state_key k1; failures_key := failures_key k1;
           successes_key := successes_key k1;
           opened_at_key := Some (after - seconds (timeout config) + seconds d);
           half_open_calls_key := half_open_calls_key k1 |}
  | None => k1
  end.

(** [force_close]. *)
Definition force_close (now : Z) (k : keys) : keys := _transition_to now CLOSED k.

(** The part of the dictionary of [get_status] that depends on the state. *)
Inductive status_detail :=
| closed_detail (failures_in_window : Z)
| open_detail (opened_at elapsed_seconds retry_after : Z)
| half_open_detail (successes calls_in_half_open remaining_calls : Z).

Definition get_status (now : Z) (k : keys) : CircuitState * status_detail * keys :=
  let '(state, k1, _) := get_state config now GetState k in
  match state with
  | CLOSED => (state, closed_detail (ZCARD now (failures_key k1)), k1)
  | OPEN =>
      let opened_at := int_or_0 (opened_at_key k1) in
      let elapsed := now - opened_at in
      (state, open_detail opened_at elapsed (Z.max 0 (seconds (timeout config) - elapsed)), k1)
  | HALF_OPEN =>
      let successes := int_or_0 (successes_key k1) in
      let calls := int_or_0 (half_open_calls_key k1) in
      (state, half_open_detail successes calls (half_open_max_calls config - calls), k1)
  end.

(** Calls of [execute] one after the other, each with its two instants and
    the way its function ends. *)
Fixpoint execute_each (calls : list (Z * Z * func_outcome)) (k : keys)
    : list execution * keys :=
  match calls with
  | [] => ([], k)
  | (now, after, func) :: rest =>
      let '(r, k1, _) := execute now after func k in
      let '(rs, k2) := execute_each rest k1 in
      (r :: rs, k2)
  end.

(** Calls of [can_execute] one after the other. *)
Fixpoint can_execute_each (instants : list Z) (k : keys) : list bool * keys :=
  match instants with
  | [] => ([], k)
  | now :: rest =>
      let '(ok, k1, _) := can_execute config now k in
      let '(oks, k2) := can_execute_each rest k1 in
      (ok :: oks, k2)
  end.

(** Failures recorded one after the other. *)
Definition record_failures (instants : list Z) (e : error) (k : keys) : keys :=
  fold_left (fun k now => fst (record_failure config now e k)) instants k.
End operations.

End CircuitBreaker.

(** * The adapters of the platforms ([platform-adapters/base_adapter.py]) *)

Module BaseAdapter.

(** [PlatformBooking], the dataclass in which the [get_bookings] of each of
    the five adapters returns a booking; a date is its day number, an
    instant is in microseconds. *)
Record PlatformBooking := {
  channel_booking_id : string;
  listing_id : string;
  status : string;
  check_in : Z;
  check_out : Z;
  guest_first_name : string;
  guest_last_name : string;
  guest_email : string;
  guest_phone : option string;
  num_guests : Z;
  num_adults : Z;
  num_children : Z;
  num_infants : Z;
  total_price : Decimal.decimal;
  currency : string;
  booked_at : Z;
  updated_at : Z;
  special_requests : option string;
  channel_guest_id : option string;
  channel_data : list (string * Py.json)
}.

(** [booking[key]]: the dataclass defines no [__getitem__], so the
    subscript raises [TypeError] whatever the instance holds. *)
Definition getitem (booking : PlatformBooking) (key : string) : option string := None.

(** [booking.get(key, default)]: the dataclass has no attribute [get], so
    the call raises [AttributeError]. *)
Definition get (booking : PlatformBooking) (key default : string) : option string := None.

End BaseAdapter.

(** * The sync engine ([sync-engine.py]): fan-out, polling, idempotency keys *)

Module SyncEngine.

(** A row of [channel_connections] (the columns the tasks below read). *)
Record ChannelConnection := {
  id : string;
  property_id : string;
  channel_type : string;
  channel_property_id : string;
  sync_enabled : bool;
  status : string;
  sync_availability : bool;
  sync_bookings : bool;
  sync_direction : string;
  last_sync_at : option Z
}.

(** [PMSEvent]. *)
Record PMSEvent := {
  event_type : string;
  event_tenant_id : string;
  event_property_id : string;
  payload : list (string * Py.json);
  timestamp : Z
}.

(** The Celery tasks that [.delay] puts on the broker. *)
Inductive task :=
| update_channel_availability (connection_id : string) (check_in check_out : Py.json)
    (available : bool)
| import_channel_booking (channel_type connection_id : string)
    (booking_data : BaseAdapter.PlatformBooking) (idempotency_key : string)
| sync_to_other_channels (booking_id property_id exclude_channel : string).

(** The dictionary a handler returns. *)
Record results := {
  success : list string;
  failed : list string;
  skipped : list string
}.

Definition no_results : results := {| success := []; failed := []; skipped := [] |}.

Section fan_out.
(** Whether the broker takes a task; [.delay] raises when it does not. *)
Variable broker_accepts : task -> bool.

(** The [where] clause shared by the outbound handlers. *)
Definition outbound_availability_filter (property : string) (conn : ChannelConnection)
    : bool :=
  String.eqb (property_id conn) property
  && sync_enabled conn
  && String.eqb (status conn) "active"
  && sync_availability conn
  && (String.eqb (sync_direction conn) "bidirectional"
      || String.eqb (sync_direction conn) "outbound_only").

(** [source_channel and conn.channel_type == source_channel]. *)
Definition is_source_channel (source_channel : Py.json) (conn : ChannelConnection)
    : bool :=
  Py.truthy source_channel
  && match source_channel with
     | Py.JStr s => String.eqb (channel_type conn) s
     | _ => false
     end.

(** The body of the loop of [_handle_booking_confirmed_event] for one
    connection: the task it enqueues, if any, and the entry it records. *)
Definition confirmed_step (event : PMSEvent) (conn : ChannelConnection)
    (acc : list task * results) : list task * results :=
  let '(queue, r) := acc in
  if is_source_channel (Py.dict_get "source" Py.JNull (payload event)) conn then
    (queue, {| success := success r; failed := failed r;
               skipped := skipped r ++ [channel_type conn] |})
  else
    match Py.assoc "check_in" (payload event), Py.assoc "check_out" (payload event) with
    | Some check_in, Some check_out =>
        let t := update_channel_availability (id conn) check_in check_out false in
        if broker_accepts t then
          (queue ++ [t], {| success := success r ++ [channel_type conn];
                            failed := failed r; skipped := skipped r |})
        else
          (queue, {| success := success r; failed := failed r ++ [channel_type conn];
                     skipped := skipped r |})
    | _, _ =>
        (queue, {| success := success r; failed := failed r ++ [channel_type conn];
                   skipped := skipped r |})
    end.

(** [_handle_booking_confirmed_event]: the tasks enqueued, in order, and
    the returned dictionary. *)
Definition _handle_booking_confirmed_event (table : list ChannelConnection)
    (event : PMSEvent) : list task * results :=
  let connections := List.filter (outbound_availability_filter (event_property_id event)) table in
  fold_left (fun acc conn => confirmed_step event conn acc) connections ([], no_results).

(** A row of [bookings], with the two dates in ISO format. *)
Record booking_row := {
  booking_id : string;
  check_in_iso : string;
  check_out_iso : string
}.

Definition other_channels_step (booking : option booking_row) (conn : ChannelConnection)
    (acc : list task * results) : list task * results :=
  let '(queue, r) := acc in
  match booking with
  | Some b =>
      let t := update_channel_availability (id conn) (Py.JStr (check_in_iso b))
                 (Py.JStr (check_out_iso b)) false in
      if broker_accepts t then
        (queue ++ [t], {| success := success r ++ [channel_type conn];
                          failed := failed r; skipped := skipped r |})
      else
        (queue, {| success := success r; failed := failed r ++ [channel_type conn];
                   skipped := skipped r |})
  | None =>
      (queue, {| success := success r; failed := failed r ++ [channel_type conn];
                 skipped := skipped r |})
  end.

(** [_sync_to_other_channels]. *)
Definition _sync_to_other_channels (bookings : list booking_row)
    (table : list ChannelConnection) (bid property exclude_channel : string)
    : list task * results :=
  let booking := List.find (fun b => String.eqb (booking_id b) bid) bookings in
  let connections :=
    List.filter (fun conn => outbound_availability_filter property conn
                             && negb (String.eqb (channel_type conn) exclude_channel))
                table in
  fold_left (fun acc conn => other_channels_step booking conn acc) connections
            ([], no_results).
End fan_out.

(** [generate_idempotency_key] for a webhook payload; [None] when [join]
    meets a part that is not text and raises [TypeError]. *)
Definition as_text (v : Py.json) : option string :=
  match v with
  | Py.JStr s => Some s
  | _ => None
  end.

Fixpoint all_text (parts : list Py.json) : option (list string) :=
  match parts with
  | [] => Some []
  | v :: rest =>
      match as_text v, all_text rest with
      | Some s, Some l => Some (s :: l)
      | _, _ => None
      end
  end.

Definition generate_idempotency_key (channel : string) (payload : list (string * Py.json))
    : option string :=
  let unique_parts :=
    [ Py.JStr channel;
      Py.dict_get "reservation_id" (Py.JStr "") payload;
      Py.dict_get "booking_id" (Py.JStr "") payload;
      Py.dict_get "updated_at" (Py.JStr "") payload;
      Py.dict_get "event_id" (Py.JStr "") payload ] in
  match all_text (List.filter Py.truthy unique_parts) with
  | Some parts => Some (Py.prefix 32 (Sha256.hexdigest (Py.join ":" parts)))
  | None => None
  end.

(** The key the poller builds for one booking:
    [f"{conn.channel_type}:{booking['channel_booking_id']}:{booking.get('updated_at', '')}"];
    [None] when one of the two reads of the booking raises. *)
Definition poll_idempotency_key (conn : ChannelConnection)
    (booking : BaseAdapter.PlatformBooking) : option string :=
  channel_booking_id ← BaseAdapter.getitem booking "channel_booking_id";
  updated_at ← BaseAdapter.get booking "updated_at" "";
  Some (channel_type conn +:+ ":" +:+ channel_booking_id +:+ ":" +:+ updated_at).

(** What the workers share while a poll runs. *)
Record world := {
  connections : list ChannelConnection;
  limiter : RateLimiter.limiter;
  breakers : gmap string CircuitBreaker.keys;
  queue : list task
}.

Inductive poll_outcome :=
| poll_error (message : string)
| poll_skipped (reason : string)
| poll_success (bookings_found queued_for_import : Z)
| poll_retry.

Definition breaker_keys (w : world) (channel : string) : CircuitBreaker.keys :=
  match breakers w !! channel with
  | Some k => k
  | None => CircuitBreaker.no_keys
  end.

Definition set_breaker (w : world) (channel : string) (k : CircuitBreaker.keys) : world :=
  {| connections := connections w; limiter := limiter w;
     breakers := <[channel := k]> (breakers w); queue := queue w |}.

(** The [except Exception] branch: one failure for the breaker, then retry. *)
Definition poll_failed (now : Z) (w : world) (channel : string) : poll_outcome * world :=
  let config := CircuitBreaker.config_for channel in
  let '(k, _) := CircuitBreaker.record_failure config now None (breaker_keys w channel) in
  (poll_retry, set_breaker w channel k).

(** The loop over the polled bookings: [inl] when it ran to its end with the
    number of imports queued, [inr] when a booking or the broker raised. *)
Fixpoint queue_imports (broker_accepts : task -> bool) (conn : ChannelConnection)
    (connection_id : string) (channel_bookings : list BaseAdapter.PlatformBooking)
    (imported : Z) (q : list task) : (Z + unit) * list task :=
  match channel_bookings with
  | [] => (inl imported, q)
  | booking :: rest =>
      match poll_idempotency_key conn booking with
      | Some idempotency_key =>
          let t := import_channel_booking (channel_type conn) connection_id
                     booking idempotency_key in
          if broker_accepts t then
            queue_imports broker_accepts conn connection_id rest (imported + 1) (q ++ [t])
          else (inr tt, q)
      | None => (inr tt, q)
      end
  end.

Definition known_adapter (channel : string) : bool :=
  existsb (String.eqb channel) ["airbnb"; "booking_com"; "expedia"; "fewo_direkt"; "google"].

Definition touch (now : Z) (connection_id : string) (conn : ChannelConnection)
    : ChannelConnection :=
  if String.eqb (id conn) connection_id then
    {| id := id conn; property_id := property_id conn; channel_type := channel_type conn;
       channel_property_id := channel_property_id conn; sync_enabled := sync_enabled conn;
       status := status conn; sync_availability := sync_availability conn;
       sync_bookings := sync_bookings conn; sync_direction := sync_direction conn;
       last_sync_at := Some now |}
  else conn.

(** [_poll_single_channel]. [get_bookings] is the adapter's answer, [None]
    when the remote call raises. *)
Definition _poll_single_channel (broker_accepts : task -> bool) (now : Z)
    (connection_id : string) (get_bookings : option (list BaseAdapter.PlatformBooking))
    (w : world)
    : poll_outcome * world :=
  match List.find (fun c => String.eqb (id c) connection_id) (connections w) with
  | None => (poll_error "Connection not found", w)
  | Some conn =>
      let channel := channel_type conn in
      let config := CircuitBreaker.config_for channel in
      let '(acquired, lim) :=
        RateLimiter.acquire "rate_limit" now channel connection_id 1 (limiter w) in
      let w1 := {| connections := connections w; limiter := lim;
                   breakers := breakers w; queue := queue w |} in
      if negb acquired then poll_failed now w1 channel
      else
        let '(admitted, k, _) := CircuitBreaker.can_execute config now (breaker_keys w1 channel) in
        let w2 := set_breaker w1 channel k in
        if negb admitted then (poll_skipped "circuit_breaker_open", w2)
        else if negb (known_adapter channel) then poll_failed now w2 channel
        else
          match get_bookings with
          | None => poll_failed now w2 channel
          | Some channel_bookings =>
              let '(k', _) := CircuitBreaker.record_success config now (breaker_keys w2 channel) in
              let w3 := set_breaker w2 channel k' in
              let '(r, q) := queue_imports broker_accepts conn connection_id
                               channel_bookings 0 (queue w3) in
              let w4 := {| connections := connections w3; limiter := limiter w3;
                           breakers := breakers w3; queue := q |} in
              match r with
              | inr _ => poll_failed now w4 channel
              | inl imported =>
                  (poll_success (Z.of_nat (length channel_bookings)) imported,
                   {| connections := map (touch now connection_id) (connections w4);
                      limiter := limiter w4; breakers := breakers w4; queue := queue w4 |})
              end
          end
  end.

(** ** The other handlers and the polling schedule *)

Section cancelled.
Variable broker_accepts : task -> bool.

(** The body of the loop of [_handle_booking_cancelled_event] for one
    connection. *)
Definition cancelled_step (event : PMSEvent) (conn : ChannelConnection)
    (acc : list task * results) : list task * results :=
  let '(queue, r) := acc in
  match Py.assoc "check_in" (payload event), Py.assoc "check_out" (payload event) with
  | Some check_in, Some check_out =>
      let t := update_channel_availability (id conn) check_in check_out true in
      if broker_accepts t then
        (queue ++ [t], {| success := success r ++ [channel_type conn];
                          failed := failed r; skipped := skipped r |})
      else
        (queue, {| success := success r; failed := failed r ++ [channel_type conn];
                   skipped := skipped r |})
  | _, _ =>
      (queue, {| success := success r; failed := failed r ++ [channel_type conn];
                 skipped := skipped r |})
  end.

(** [_handle_booking_cancelled_event]: the tasks enqueued, in order, and
    the returned dictionary. *)
Definition _handle_booking_cancelled_event (table : list ChannelConnection)
    (event : PMSEvent) : list task * results :=
  let connections := List.filter (outbound_availability_filter (event_property_id event)) table in
  fold_left (fun acc conn => cancelled_step event conn acc) connections ([], no_results).
End cancelled.

(** [map_channel_status_to_pms]. *)
Definition status_maps : list (string * list (string * string)) :=
  [ ("airbnb",
     [ ("pending", "pending"); ("accepted", "confirmed"); ("denied", "declined");
       ("cancelled", "cancelled"); ("cancelled_by_host", "cancelled");
       ("cancelled_by_guest", "cancelled") ]);
    ("booking_com",
     [ ("new", "pending"); ("modified", "confirmed"); ("cancelled", "cancelled");
       ("no_show", "no_show") ]);
    ("expedia",
     [ ("PENDING", "pending"); ("CONFIRMED", "confirmed"); ("CANCELLED", "cancelled");
       ("COMPLETED", "checked_out") ]);
    ("fewo_direkt",
     [ ("booked", "confirmed"); ("tentative", "pending"); ("cancelled", "cancelled") ]);
    ("google",
     [ ("CONFIRMED", "confirmed"); ("CANCELLED", "cancelled") ]) ].

Definition map_channel_status_to_pms (channel_type channel_status : string) : string :=
  let channel_map :=
    match Py.assoc channel_type status_maps with
    | Some m => m
    | None => []
    end in
  match Py.assoc channel_status channel_map with
  | Some s => s
  | None => "pending"
  end.

(** The two columns [_import_channel_booking] derives from the status of
    the channel booking: [status], and [confirmed_at], which is set to the
    instant of the import when
    [channel_booking.status in ["confirmed", "accepted"]]. *)
Definition imported_status (channel_type channel_status : string) (now : Z)
    : string * option Z :=
  (map_channel_status_to_pms channel_type channel_status,
   if existsb (String.eqb channel_status) ["confirmed"; "accepted"] then Some now else None).

(** The task [_poll_all_channel_bookings] enqueues. *)
Inductive poll_task :=
| poll_single_channel (connection_id : string).

(** The [where] clause of [_poll_all_channel_bookings], read at [now]. *)
Definition due_for_polling (now : Z) (conn : ChannelConnection) : bool :=
  let cutoff_time := now - Redis.seconds (5 * 60) in
  sync_enabled conn
  && String.eqb (status conn) "active"
  && sync_bookings conn
  && (String.eqb (sync_direction conn) "bidirectional"
      || String.eqb (sync_direction conn) "inbound_only")
  && match last_sync_at conn with
     | Some t => t <? cutoff_time
     | None => true
     end.

(** The loop of [_poll_all_channel_bookings]: [inl] with the queued entries
    of the returned dictionary, [inr] when the broker raised. *)
Fixpoint queue_polls (broker_accepts : poll_task -> bool)
    (connections : list ChannelConnection) (queued : list (string * string))
    (q : list poll_task) : (list (string * string) + unit) * list poll_task :=
  match connections with
  | [] => (inl queued, q)
  | conn :: rest =>
      let t := poll_single_channel (id conn) in
      if broker_accepts t then
        queue_polls broker_accepts rest (queued ++ [(id conn, channel_type conn)]) (q ++ [t])
      else (inr tt, q)
  end.

Definition _poll_all_channel_bookings (broker_accepts : poll_task -> bool) (now : Z)
    (table : list ChannelConnection) : (list (string * string) + unit) * list poll_task :=
  queue_polls broker_accepts (List.filter (due_for_polling now) table) [] [].

End SyncEngine.

(** * The webhook ingress ([webhook-handlers.py]) *)

Module Webhook.
Import SyncEngine.

Record request := {
  body : string;
  x_airbnb_signature : option string
}.

(** [WebhookResponse] with status 200, or the [HTTPException] raised; an
    exception that nothing handles is answered with status 500. *)
Inductive response :=
| WebhookResponse (status : string) (message : option string) (event_id : option string)
| HTTPException (status_code : Z) (detail : string).

(** The field [event_id: Optional[str]] of [WebhookResponse]: the model
    admits a string or [None]; [None] here is the [ValidationError] that
    the constructor raises on a list or a dictionary, and on a number or a
    boolean, which the validation does not turn into text. *)
Definition validate_event_id (v : Py.json) : option (option string) :=
  match v with
  | Py.JStr s => Some (Some s)
  | Py.JNull => Some None
  | _ => None
  end.

(** What [background_tasks.add_task] schedules. *)
Inductive background_task :=
| run_import (channel_type connection_id : string) (booking_data : Py.json)
    (idempotency_key : string)
| _process_airbnb_cancellation (reservation : Py.json) (idempotency_key : string)
| _process_airbnb_update (reservation : Py.json) (idempotency_key : string).

(** The labelled counters of the endpoint, one entry per increment. *)
Record metrics := {
  WEBHOOK_RECEIVED : list (string * Py.json);
  WEBHOOK_PROCESSED : list (string * string);
  WEBHOOK_LATENCY : list string
}.

(** The coordination store holds each processed key with the instant at
    which it expires; the relational store holds the connections. *)
Record world := {
  processed_keys : gmap string Z;
  channel_connections : list ChannelConnection;
  background_tasks : list background_task;
  counters : metrics
}.

(** [is_already_processed]: [redis.exists] of a key that has not expired. *)
Definition is_already_processed (now : Z) (idempotency_key : string) (w : world) : bool :=
  match processed_keys w !! ("webhook:" +:+ idempotency_key) with
  | Some expires_at => now <? expires_at
  | None => false
  end.

(** [mark_as_processed]: [setex] with a TTL of 86400 seconds. *)
Definition mark_as_processed (now : Z) (idempotency_key : string) (w : world) : world :=
  {| processed_keys :=
       <["webhook:" +:+ idempotency_key := now + Redis.seconds 86400]> (processed_keys w);
     channel_connections := channel_connections w;
     background_tasks := background_tasks w;
     counters := counters w |}.

(** [get_connection_by_channel_property]. *)
Definition get_connection_by_channel_property (channel channel_property : string)
    (w : world) : option ChannelConnection :=
  List.find (fun c => String.eqb (channel_type c) channel
                      && String.eqb (channel_property_id c) channel_property
                      && String.eqb (SyncEngine.status c) "active")
            (channel_connections w).

(** [hmac.compare_digest] on two [str]: [None] is the [TypeError] raised
    when one of them holds a character outside ASCII. The header reaches the
    endpoint with one character per byte, so such a character is a byte
    from 128 on. *)
Definition compare_digest (a b : string) : option bool :=
  if Py.isascii a && Py.isascii b then Some (String.eqb a b) else None.

(** [verify_hmac_signature] with the default algorithm. *)
Definition verify_hmac_signature (payload signature secret : string) : option bool :=
  compare_digest (Sha256.hmac_hexdigest secret payload) signature.

(** The guard [if x_signature: if not verify_hmac_signature(...)] that
    opens every endpoint; the [TypeError] of the comparison is not handled. *)
Inductive signature_check :=
| signature_passes
| signature_refused
| signature_raises.

Definition check_signature (payload : string) (x_signature : option string)
    (secret : string) : signature_check :=
  match x_signature with
  | None => signature_passes
  | Some signature =>
      if String.eqb signature "" then signature_passes
      else
        match verify_hmac_signature payload signature secret with
        | Some true => signature_passes
        | Some false => signature_refused
        | None => signature_raises
        end
  end.

Definition count_received (event_type : Py.json) (w : world) : world :=
  {| processed_keys := processed_keys w;
     channel_connections := channel_connections w;
     background_tasks := background_tasks w;
     counters := {| WEBHOOK_RECEIVED := WEBHOOK_RECEIVED (counters w) ++ [("airbnb", event_type)];
                    WEBHOOK_PROCESSED := WEBHOOK_PROCESSED (counters w);
                    WEBHOOK_LATENCY := WEBHOOK_LATENCY (counters w) |} |}.

Definition count_processed (status : string) (w : world) : world :=
  {| processed_keys := processed_keys w;
     channel_connections := channel_connections w;
     background_tasks := background_tasks w;
     counters := {| WEBHOOK_RECEIVED := WEBHOOK_RECEIVED (counters w);
                    WEBHOOK_PROCESSED := WEBHOOK_PROCESSED (counters w) ++ [("airbnb", status)];
                    WEBHOOK_LATENCY := WEBHOOK_LATENCY (counters w) |} |}.

Definition observe_latency (w : world) : world :=
  {| processed_keys := processed_keys w;
     channel_connections := channel_connections w;
     background_tasks := background_tasks w;
     counters := {| WEBHOOK_RECEIVED := WEBHOOK_RECEIVED (counters w);
                    WEBHOOK_PROCESSED := WEBHOOK_PROCESSED (counters w);
                    WEBHOOK_LATENCY := WEBHOOK_LATENCY (counters w) ++ ["airbnb"] |} |}.

Definition add_task (t : background_task) (w : world) : world :=
  {| processed_keys := processed_keys w;
     channel_connections := channel_connections w;
     background_tasks := background_tasks w ++ [t];
     counters := counters w |}.

Definition is_one_of (v : Py.json) (names : list string) : bool :=
  match v with
  | Py.JStr s => existsb (String.eqb s) names
  | _ => false
  end.

Section endpoint.
(** The standard library and the settings the endpoint relies on. *)
Variable json_loads : string -> Py.loads.
Variable str : Py.json -> string.
Variable AIRBNB_WEBHOOK_SECRET : string.

(** [_map_airbnb_reservation]; [None] when a [.get] meets a value that is
    not a dictionary. *)
Definition _map_airbnb_reservation (reservation : list (string * Py.json))
    : option Py.json :=
  guest ← Py.as_dict (Py.dict_get "guest" (Py.JObj []) reservation);
  pricing ← Py.as_dict (Py.dict_get "pricing_quote" (Py.JObj []) reservation);
  total ← Py.as_dict (Py.dict_get "total" (Py.JObj []) pricing);
  Some (Py.JObj
    [ ("channel_booking_id", Py.JStr (str (Py.dict_get "confirmation_code" Py.JNull reservation)));
      ("channel_guest_id", Py.JStr (str (Py.dict_get "id" (Py.JStr "") guest)));
      ("listing_id", Py.JStr (str (Py.dict_get "listing_id" Py.JNull reservation)));
      ("guest_first_name", Py.dict_get "first_name" (Py.JStr "") guest);
      ("guest_last_name", Py.dict_get "last_name" (Py.JStr "") guest);
      ("guest_email", Py.dict_get "email" (Py.JStr "") guest);
      ("guest_phone", Py.dict_get "phone" Py.JNull guest);
      ("check_in", Py.dict_get "start_date" Py.JNull reservation);
      ("check_out", Py.dict_get "end_date" Py.JNull reservation);
      ("num_guests", Py.dict_get "number_of_guests" (Py.JNum 1) reservation);
      ("num_adults", Py.dict_get "number_of_adults" (Py.JNum 1) reservation);
      ("num_children", Py.dict_get "number_of_children" (Py.JNum 0) reservation);
      ("num_infants", Py.dict_get "number_of_infants" (Py.JNum 0) reservation);
      ("total_price", Py.dict_get "amount" (Py.JNum 0) total);
      ("currency", Py.dict_get "currency" (Py.JStr "EUR") total);
      ("status", Py.dict_get "status" Py.JNull reservation);
      ("booked_at", Py.dict_get "created_at" Py.JNull reservation);
      ("special_requests", Py.dict_get "guest_message" Py.JNull reservation);
      ("channel_data", Py.JObj reservation) ]).

(** The outcome of the [try] block of [airbnb_webhook]. *)
Inductive dispatch :=
| dispatched (w : world)
| skipped_not_connected
| raised.

Definition process_event (event_type : Py.json) (data : list (string * Py.json))
    (idempotency_key : string) (w : world) : dispatch :=
  if is_one_of event_type ["reservation.created"; "reservation.accepted"] then
    match Py.as_dict (Py.dict_get "reservation" (Py.JObj []) data) with
    | None => raised
    | Some reservation =>
        let listing_id := str (Py.dict_get "listing_id" (Py.JStr "") reservation) in
        match get_connection_by_channel_property "airbnb" listing_id w with
        | None => skipped_not_connected
        | Some connection =>
            match _map_airbnb_reservation reservation with
            | None => raised
            | Some booking_data =>
                dispatched (add_task (run_import "airbnb" (id connection) booking_data
                                        idempotency_key) w)
            end
        end
    end
  else if is_one_of event_type ["reservation.cancelled"; "reservation.cancelled_by_host";
                                "reservation.cancelled_by_guest"] then
    dispatched (add_task (_process_airbnb_cancellation
                            (Py.dict_get "reservation" (Py.JObj []) data) idempotency_key) w)
  else if is_one_of event_type ["reservation.updated"] then
    dispatched (add_task (_process_airbnb_update
                            (Py.dict_get "reservation" (Py.JObj []) data) idempotency_key) w)
  else dispatched w.

(** [airbnb_webhook], called at [now]. The tasks added to
    [background_tasks] run after the response that the endpoint returns; a
    request that ends in an exception leaves none behind. *)
Definition airbnb_webhook (now : Z) (req : request) (w : world) : response * world :=
  match check_signature (body req) (x_airbnb_signature req) AIRBNB_WEBHOOK_SECRET with
  | signature_raises => (HTTPException 500 "Internal Server Error", w)
  | signature_refused =>
      (HTTPException 401 "Invalid signature", count_processed "invalid_signature" w)
  | signature_passes =>
      match json_loads (body req) with
      | Py.JSONDecodeError => (HTTPException 400 "Invalid JSON payload", w)
      | Py.UnicodeDecodeError => (HTTPException 500 "Internal Server Error", w)
      | Py.loaded (Py.JObj data) =>
          let event_type := Py.dict_get "event_type" (Py.JStr "unknown") data in
          let w1 := count_received event_type w in
          match generate_idempotency_key "airbnb" data with
          | None => (HTTPException 500 "Internal Server Error", w1)
          | Some idempotency_key =>
              if is_already_processed now idempotency_key w1 then
                let w2 := count_processed "duplicate" w1 in
                match validate_event_id (Py.dict_get "event_id" Py.JNull data) with
                | Some event_id => (WebhookResponse "already_processed" None event_id, w2)
                | None => (HTTPException 500 "Internal Server Error", w2)
                end
              else
                match process_event event_type data idempotency_key w1 with
                | skipped_not_connected =>
                    (WebhookResponse "skipped" (Some "Listing not connected") None, w1)
                | raised =>
                    (HTTPException 500 "Processing error", count_processed "error" w1)
                | dispatched w2 =>
                    let w3 := mark_as_processed now idempotency_key w2 in
                    let w4 := observe_latency (count_processed "success" w3) in
                    match validate_event_id (Py.dict_get "event_id" Py.JNull data) with
                    | Some event_id => (WebhookResponse "accepted" None event_id, w4)
                    | None =>
                        (HTTPException 500 "Processing error",
                         count_processed "error"
                           {| processed_keys := processed_keys w4;
                              channel_connections := channel_connections w4;
                              background_tasks := background_tasks w1;
                              counters := counters w4 |})
                    end
                end
          end
      | Py.loaded _ => (HTTPException 500 "Internal Server Error", w)
      end
  end.
End endpoint.

(** ** The Expedia endpoint *)

Record expedia_request := {
  expedia_body : string;
  x_expedia_signature : option string
}.

(** What [background_tasks.add_task] schedules for Expedia. *)
Inductive expedia_task :=
| expedia_import (connection_id : string) (booking_data : Py.json)
    (idempotency_key : string)
| _process_expedia_cancellation (booking : Py.json) (idempotency_key : string)
| _process_expedia_modification (booking : Py.json) (idempotency_key : string).

(** The stores and the counters, which the endpoints share, and the tasks
    of this endpoint. *)
Record expedia_world := {
  shared : world;
  expedia_tasks : list expedia_task
}.

Definition count_received_for (channel : string) (event_type : Py.json) (w : world) : world :=
  {| processed_keys := processed_keys w;
     channel_connections := channel_connections w;
     background_tasks := background_tasks w;
     counters := {| WEBHOOK_RECEIVED := WEBHOOK_RECEIVED (counters w) ++ [(channel, event_type)];
                    WEBHOOK_PROCESSED := WEBHOOK_PROCESSED (counters w);
                    WEBHOOK_LATENCY := WEBHOOK_LATENCY (counters w) |} |}.

Definition count_processed_for (channel status : string) (w : world) : world :=
  {| processed_keys := processed_keys w;
     channel_connections := channel_connections w;
     background_tasks := background_tasks w;
     counters := {| WEBHOOK_RECEIVED := WEBHOOK_RECEIVED (counters w);
                    WEBHOOK_PROCESSED := WEBHOOK_PROCESSED (counters w) ++ [(channel, status)];
                    WEBHOOK_LATENCY := WEBHOOK_LATENCY (counters w) |} |}.

Definition observe_latency_for (channel : string) (w : world) : world :=
  {| processed_keys := processed_keys w;
     channel_connections := channel_connections w;
     background_tasks := background_tasks w;
     counters := {| WEBHOOK_RECEIVED := WEBHOOK_RECEIVED (counters w);
                    WEBHOOK_PROCESSED := WEBHOOK_PROCESSED (counters w);
                    WEBHOOK_LATENCY := WEBHOOK_LATENCY (counters w) ++ [channel] |} |}.

Definition on_shared (f : world -> world) (w : expedia_world) : expedia_world :=
  {| shared := f (shared w); expedia_tasks := expedia_tasks w |}.

Definition add_expedia_task (t : expedia_task) (w : expedia_world) : expedia_world :=
  {| shared := shared w; expedia_tasks := expedia_tasks w ++ [t] |}.

(** [a + b] on two values of a payload; [None] is the [TypeError]. *)
Definition as_int (v : Py.json) : option Z :=
  match v with
  | Py.JNum n => Some n
  | Py.JBool b => Some (if b then 1 else 0)
  | _ => None
  end.

Definition py_add (a b : Py.json) : option Py.json :=
  match as_int a, as_int b with
  | Some m, Some n => Some (Py.JNum (m + n))
  | _, _ =>
      match a, b with
      | Py.JStr s, Py.JStr t => Some (Py.JStr (s +:+ t))
      | Py.JArr l, Py.JArr r => Some (Py.JArr (l ++ r))
      | _, _ => None
      end
  end.

Section expedia.
Variable json_loads : string -> Py.loads.
Variable str : Py.json -> string.
Variable EXPEDIA_WEBHOOK_SECRET : string.

(** [_map_expedia_booking]; [None] when a [.get] meets a value that is not
    a dictionary or the guest counts cannot be added. *)
Definition _map_expedia_booking (booking : list (string * Py.json)) : option Py.json :=
  guest ← Py.as_dict (Py.dict_get "primaryGuest" (Py.JObj []) booking);
  stay ← Py.as_dict (Py.dict_get "stayDates" (Py.JObj []) booking);
  payment ← Py.as_dict (Py.dict_get "payment" (Py.JObj []) booking);
  guest_counts ← Py.as_dict (Py.dict_get "guestCounts" (Py.JObj []) booking);
  phone ← Py.as_dict (Py.dict_get "phone" (Py.JObj []) guest);
  num_guests ← py_add (Py.dict_get "adults" (Py.JNum 1) guest_counts)
                      (Py.dict_get "children" (Py.JNum 0) guest_counts);
  total ← Py.as_dict (Py.dict_get "totalAmount" (Py.JObj []) payment);
  Some (Py.JObj
    [ ("channel_booking_id", Py.JStr (str (Py.dict_get "bookingId" Py.JNull booking)));
      ("channel_guest_id", Py.JStr (str (Py.dict_get "guestId" (Py.JStr "") guest)));
      ("listing_id", Py.JStr (str (Py.dict_get "propertyId" Py.JNull booking)));
      ("guest_first_name", Py.dict_get "firstName" (Py.JStr "") guest);
      ("guest_last_name", Py.dict_get "lastName" (Py.JStr "") guest);
      ("guest_email", Py.dict_get "email" (Py.JStr "") guest);
      ("guest_phone", Py.dict_get "number" Py.JNull phone);
      ("check_in", Py.dict_get "checkIn" Py.JNull stay);
      ("check_out", Py.dict_get "checkOut" Py.JNull stay);
      ("num_guests", num_guests);
      ("num_adults", Py.dict_get "adults" (Py.JNum 1) guest_counts);
      ("num_children", Py.dict_get "children" (Py.JNum 0) guest_counts);
      ("num_infants", Py.dict_get "infants" (Py.JNum 0) guest_counts);
      ("total_price", Py.dict_get "amount" (Py.JNum 0) total);
      ("currency", Py.dict_get "currency" (Py.JStr "EUR") total);
      ("status", Py.dict_get "status" Py.JNull booking);
      ("booked_at", Py.dict_get "createdDateTime" Py.JNull booking);
      ("special_requests", Py.dict_get "specialRequests" Py.JNull booking);
      ("channel_data", Py.JObj booking) ]).

(** The outcome of the [try] block of [expedia_webhook]. *)
Inductive expedia_dispatch :=
| expedia_dispatched (w : expedia_world)
| expedia_not_connected
| expedia_raised.

Definition process_expedia_event (event_type : Py.json) (data : list (string * Py.json))
    (idempotency_key : string) (w : expedia_world) : expedia_dispatch :=
  let property_id := str (Py.dict_get "propertyId" (Py.JStr "") data) in
  match get_connection_by_channel_property "expedia" property_id (shared w) with
  | None => expedia_not_connected
  | Some connection =>
      if is_one_of event_type ["BOOKING_CREATED"] then
        match _map_expedia_booking data with
        | None => expedia_raised
        | Some booking_data =>
            expedia_dispatched
              (add_expedia_task (expedia_import (id connection) booking_data idempotency_key) w)
        end
      else if is_one_of event_type ["BOOKING_CANCELLED"] then
        expedia_dispatched
          (add_expedia_task (_process_expedia_cancellation (Py.JObj data) idempotency_key) w)
      else if is_one_of event_type ["BOOKING_MODIFIED"] then
        expedia_dispatched
          (add_expedia_task (_process_expedia_modification (Py.JObj data) idempotency_key) w)
      else expedia_dispatched w
  end.

(** [expedia_webhook], called at [now]. *)
Definition expedia_webhook (now : Z) (req : expedia_request) (w : expedia_world)
    : response * expedia_world :=
  match check_signature (expedia_body req) (x_expedia_signature req)
          EXPEDIA_WEBHOOK_SECRET with
  | signature_raises => (HTTPException 500 "Internal Server Error", w)
  | signature_refused =>
      (HTTPException 401 "Invalid signature",
       on_shared (count_processed_for "expedia" "invalid_signature") w)
  | signature_passes =>
      match json_loads (expedia_body req) with
      | Py.JSONDecodeError => (HTTPException 400 "Invalid JSON payload", w)
      | Py.UnicodeDecodeError => (HTTPException 500 "Internal Server Error", w)
      | Py.loaded (Py.JObj data) =>
          let event_type := Py.dict_get "eventType" (Py.JStr "unknown") data in
          let w1 := on_shared (count_received_for "expedia" event_type) w in
          match generate_idempotency_key "expedia" data with
          | None => (HTTPException 500 "Internal Server Error", w1)
          | Some idempotency_key =>
              if is_already_processed now idempotency_key (shared w1) then
                (WebhookResponse "already_processed" None None,
                 on_shared (count_processed_for "expedia" "duplicate") w1)
              else
                match process_expedia_event event_type data idempotency_key w1 with
                | expedia_not_connected =>
                    (WebhookResponse "skipped" (Some "Property not connected") None, w1)
                | expedia_raised =>
                    (HTTPException 500 "Processing error",
                     on_shared (count_processed_for "expedia" "error") w1)
                | expedia_dispatched w2 =>
                    (WebhookResponse "accepted" None None,
                     on_shared (fun s => observe_latency_for "expedia"
                                           (count_processed_for "expedia" "success"
                                              (mark_as_processed now idempotency_key s)))
                       w2)
                end
          end
      | Py.loaded _ => (HTTPException 500 "Internal Server Error", w)
      end
  end.
End expedia.

End Webhook.

(** * The direct-booking engine ([backend-api-routes.py]) *)

Module Booking.
Import Decimal.

(** ** Rows and tables

    Dates are counted in days ([date.toordinal]), instants in microseconds.
    A table maps the columns of its primary key or unique index to the
    other columns of the row. *)

Definition SERVICE_FEE_PERCENTAGE : decimal := Dec 5 2.
Definition BOOKING_RESERVATION_TIMEOUT_MINUTES : Z := 30.

Definition INQUIRY := "inquiry".
Definition RESERVED := "reserved".
Definition CONFIRMED := "confirmed".
Definition CHECKED_IN := "checked_in".
Definition CHECKED_OUT := "checked_out".
Definition CANCELLED := "cancelled".

Definition PENDING := "pending".
Definition PROCESSING := "processing".
Definition PAID := "paid".
Definition FAILED := "failed".
Definition REFUNDED := "refunded".
Definition EXPIRED := "expired".

Record Property := {
  tenant_id : string;
  status : string;
  base_price : decimal;
  cleaning_fee : option decimal;
  tax_rate : option decimal;
  tax_included : bool;
  currency : string
}.

(** A row of [calendar_availability], under its key (property, date). *)
Record CalendarAvailability := {
  available : bool;
  availability_status : string;
  cell_booking_id : option string;
  price : option decimal;
  cell_updated_at : Z
}.

Record NightlyRate := { rate_date : Z; rate_price : decimal }.

Record PriceBreakdown := {
  nightly_rates : list NightlyRate;
  subtotal : decimal;
  pb_cleaning_fee : decimal;
  service_fee : decimal;
  taxes : decimal;
  total : decimal;
  pb_currency : string
}.

(** [[check_in + timedelta(days=i) for i in range(num_nights)]]. *)
Definition date_range (check_in check_out : Z) : list Z :=
  map (fun i => check_in + Z.of_nat i) (seq 0 (Z.to_nat (check_out - check_in))).

Section pricing.
Variable properties : gmap string Property.
Variable calendar : gmap (string * Z) CalendarAvailability.

(** The rows of the property whose date is in the range. *)
Definition select_calendar (property_id : string) (dates : list Z)
    : list (Z * CalendarAvailability) :=
  omap (fun d => pair d <$> calendar !! (property_id, d)) dates.

(** [{day.date: day for day in rows}]: a later row replaces an earlier one. *)
Definition by_date (rows : list (Z * CalendarAvailability)) : gmap Z CalendarAvailability :=
  fold_left (fun m row => <[fst row := snd row]> m) rows ∅.

(** [calendar_day.price if calendar_day and calendar_day.price else property.base_price]. *)
Definition nightly_price (property : Property) (calendar_day : option CalendarAvailability)
    : decimal :=
  match calendar_day with
  | Some day =>
      match price day with
      | Some p => if truthy p then p else base_price property
      | None => base_price property
      end
  | None => base_price property
  end.

(** The loop that builds the nightly rates and the subtotal. *)
Definition rates_loop (property : Property) (calendar_days : gmap Z CalendarAvailability)
    (dates : list Z) : list NightlyRate * decimal :=
  fold_left
    (fun acc d =>
       let price := nightly_price property (calendar_days !! d) in
       (fst acc ++ [ {| rate_date := d; rate_price := price |} ], add (snd acc) price))
    dates ([], Dec 0 0).

(** [calculate_price_breakdown]; [None] when the property does not exist
    and [scalar_one] raises. *)
Definition calculate_price_breakdown (property_id : string) (check_in check_out : Z)
    : option PriceBreakdown :=
  property ← properties !! property_id;
  let dates := date_range check_in check_out in
  let calendar_days := by_date (select_calendar property_id dates) in
  let '(nightly_rates, subtotal) := rates_loop property calendar_days dates in
  let cleaning_fee :=
    match cleaning_fee property with
    | Some c => if truthy c then c else Dec 0 0
    | None => Dec 0 0
    end in
  let service_fee := mul (add subtotal cleaning_fee) SERVICE_FEE_PERCENTAGE in
  let taxes :=
    match tax_rate property with
    | Some rate =>
        if truthy rate && negb (tax_included property) then
          mul (add (add subtotal cleaning_fee) service_fee) (div100 rate)
        else Dec 0 0
    | None => Dec 0 0
    end in
  let total := add (add (add subtotal cleaning_fee) service_fee) taxes in
  Some {| nightly_rates := nightly_rates;
          subtotal := subtotal;
          pb_cleaning_fee := cleaning_fee;
          service_fee := quantize service_fee;
          taxes := quantize taxes;
          total := quantize total;
          pb_currency := currency property |}.

(** The price breakdown in the words of the specification: the override
    whenever one is present, the fee rounded half up, the taxes on the
    rounded fee at [tax_rate], the total as the sum of the four parts. *)
Definition spec_nightly_price (property : Property) (d : Z) (property_id : string) : decimal :=
  match calendar !! (property_id, d) with
  | Some day =>
      match price day with
      | Some p => p
      | None => base_price property
      end
  | None => base_price property
  end.

Definition spec_price_breakdown (property_id : string) (check_in check_out : Z)
    : option PriceBreakdown :=
  property ← properties !! property_id;
  let dates := date_range check_in check_out in
  let rates := map (fun d => {| rate_date := d;
                                rate_price := spec_nightly_price property d property_id |})
                   dates in
  let subtotal := sum (map rate_price rates) in
  let cleaning_fee := default (Dec 0 0) (cleaning_fee property) in
  let service_fee :=
    quantize_with round_half_up (mul (add subtotal cleaning_fee) (Dec 5 2)) in
  let taxes :=
    if tax_included property then Dec 0 0
    else mul (add (add subtotal cleaning_fee) service_fee)
             (default (Dec 0 0) (tax_rate property)) in
  Some {| nightly_rates := rates;
          subtotal := subtotal;
          pb_cleaning_fee := cleaning_fee;
          service_fee := service_fee;
          taxes := taxes;
          total := add (add (add subtotal cleaning_fee) service_fee) taxes;
          pb_currency := currency property |}.
End pricing.

(** Two breakdowns that agree on every amount, compared by value. *)
Definition same_rates (a b : list NightlyRate) : bool :=
  (length a =? length b)%nat
  && forallb (fun p => (rate_date (fst p) =? rate_date (snd p))
                       && eqb (rate_price (fst p)) (rate_price (snd p)))
             (combine a b).

Definition same_breakdown (a b : PriceBreakdown) : bool :=
  same_rates (nightly_rates a) (nightly_rates b)
  && eqb (subtotal a) (subtotal b)
  && eqb (pb_cleaning_fee a) (pb_cleaning_fee b)
  && eqb (service_fee a) (service_fee b)
  && eqb (taxes a) (taxes b)
  && eqb (total a) (total b).

(** ** The relational store, the payment processor and the world *)

Record BookingRow := {
  b_tenant_id : string;
  b_property_id : string;
  b_guest_id : string;
  booking_reference : string;
  check_in : Z;
  check_out : Z;
  num_adults : Z;
  source : string;
  b_status : string;
  payment_status : string;
  nightly_rate : quotient;
  b_subtotal : decimal;
  b_cleaning_fee : decimal;
  b_service_fee : decimal;
  tax_amount : decimal;
  total_price : decimal;
  b_currency : string;
  stripe_payment_intent_id : option string;
  special_requests : option string;
  expires_at : option Z;
  created_at : Z;
  updated_at : Z;
  paid_amount : option decimal;
  paid_at : option Z;
  confirmed_at : option Z;
  cancelled_at : option Z;
  cancellation_reason : option string;
  refund_amount : option decimal
}.

Record Guest := {
  g_tenant_id : string;
  first_name : string;
  last_name : string;
  email : string;
  phone : option string;
  g_source : string;
  total_bookings : Z;
  g_created_at : Z;
  g_updated_at : Z
}.

Record PaymentTransaction := {
  pt_id : string;
  pt_tenant_id : string;
  pt_booking_id : string;
  transaction_type : string;
  pt_amount : decimal;
  pt_currency : string;
  payment_method : option string;
  pt_status : string;
  pt_stripe_payment_intent_id : option string;
  stripe_charge_id : option string;
  stripe_refund_id : option string;
  description : option string;
  pt_created_at : Z;
  completed_at : Z
}.

(** Modelled from the spec: the tables of [app.models], which the file
    imports but does not define. [bookings] and [guests] are keyed by their
    primary key, [calendar_availability] by its unique index on
    (property_id, date); [bookings(booking_reference)] is unique as well. *)
Record database := {
  properties : gmap string Property;
  bookings : gmap string BookingRow;
  calendar_availability : gmap (string * Z) CalendarAvailability;
  guests : gmap string Guest;
  payment_transactions : list PaymentTransaction
}.

(** A payment intent and a refund as the payment processor holds them. *)
Record PaymentIntent := {
  pi_status : string;
  pi_amount : Z;
  pi_currency : string;
  amount_received : Z;
  latest_charge : option string;
  client_secret : string;
  metadata : list (string * string)
}.

Record Refund := {
  refund_id : string;
  refund_payment_intent : string;
  refund_cents : Z;
  refund_status : string
}.

Record processor := {
  intents : gmap string PaymentIntent;
  refunds : list Refund
}.

Inductive background_task :=
| schedule_booking_expiration (booking_id : string) (delay_seconds : Z)
| send_booking_confirmation_email (booking_id : string)
| send_cancellation_email (booking_id : string)
| publish_booking_event (booking_id : string) (event_type : string).

Record world := {
  db : database;
  stripe : processor;
  locks : gset (string * Z * Z);
  background_tasks : list background_task
}.

(** What one call takes from its surroundings: the clock, the identifiers
    [uuid4] draws, and how the payment processor answers its one request. *)
Record env := {
  now : Z;
  today : Z;
  year : Z;
  new_booking_id : string;
  new_guest_id : string;
  new_transaction_id : string;
  stripe_error : bool;
  new_intent_id : string;
  new_client_secret : string;
  new_refund_id : string;
  new_refund_status : string
}.

Definition set_db (w : world) (d : database) : world :=
  {| db := d; stripe := stripe w; locks := locks w; background_tasks := background_tasks w |}.

Definition set_stripe (w : world) (p : processor) : world :=
  {| db := db w; stripe := p; locks := locks w; background_tasks := background_tasks w |}.

Definition add_tasks (w : world) (ts : list background_task) : world :=
  {| db := db w; stripe := stripe w; locks := locks w;
     background_tasks := background_tasks w ++ ts |}.

(** [UPDATE calendar_availability SET ... WHERE property_id = p AND date IN
    dates AND cond]. *)
Definition update_calendar (cond : CalendarAvailability -> bool)
    (f : CalendarAvailability -> CalendarAvailability) (property_id : string)
    (dates : list Z) (cal : gmap (string * Z) CalendarAvailability)
    : gmap (string * Z) CalendarAvailability :=
  fold_left (fun m d => alter (fun c => if cond c then f c else c) (property_id, d) m)
            dates cal.

Definition mark_booked (at_ : Z) (c : CalendarAvailability) : CalendarAvailability :=
  {| available := available c; availability_status := "booked";
     cell_booking_id := cell_booking_id c; price := price c; cell_updated_at := at_ |}.

Definition release_cell (at_ : Z) (c : CalendarAvailability) : CalendarAvailability :=
  {| available := true; availability_status := "available";
     cell_booking_id := None; price := price c; cell_updated_at := at_ |}.

Definition held_by (booking_id : string) (c : CalendarAvailability) : bool :=
  match cell_booking_id c with
  | Some b => String.eqb b booking_id
  | None => false
  end.

(** ** [confirm_booking]

    The detail of a refusal that quotes an exception of Stripe ends where
    the text of the exception would begin. *)

Inductive confirm_response :=
| BookingConfirmedResponse (booking_id booking_reference status payment_status : string)
    (confirmed_at : option Z)
| confirm_refused (status_code : Z) (detail : string).

Definition confirmed_row (at_ : Z) (intent : PaymentIntent) (b : BookingRow) : BookingRow :=
  {| b_tenant_id := b_tenant_id b; b_property_id := b_property_id b;
     b_guest_id := b_guest_id b; booking_reference := booking_reference b;
     check_in := check_in b; check_out := check_out b; num_adults := num_adults b;
     source := source b;
     b_status := CONFIRMED;
     payment_status := PAID;
     nightly_rate := nightly_rate b; b_subtotal := b_subtotal b;
     b_cleaning_fee := b_cleaning_fee b; b_service_fee := b_service_fee b;
     tax_amount := tax_amount b; total_price := total_price b; b_currency := b_currency b;
     stripe_payment_intent_id := stripe_payment_intent_id b;
     special_requests := special_requests b; expires_at := expires_at b;
     created_at := created_at b;
     updated_at := at_;
     paid_amount := Some (of_cents (amount_received intent));
     paid_at := Some at_;
     confirmed_at := Some at_;
     cancelled_at := cancelled_at b; cancellation_reason := cancellation_reason b;
     refund_amount := refund_amount b |}.

Definition confirm_booking (e : env) (booking_id payment_intent_id : string) (w : world)
    : confirm_response * world :=
  match bookings (db w) !! booking_id with
  | None => (confirm_refused 404 "Booking not found", w)
  | Some booking =>
      if String.eqb (b_status booking) CONFIRMED && String.eqb (payment_status booking) PAID
      then
        (BookingConfirmedResponse booking_id (booking_reference booking) CONFIRMED PAID
           (confirmed_at booking), w)
      else if negb (String.eqb (b_status booking) RESERVED) then
        (confirm_refused 400
           ("Booking cannot be confirmed from status: " +:+ b_status booking), w)
      else if negb (bool_decide (stripe_payment_intent_id booking = Some payment_intent_id))
      then
        (confirm_refused 400 "Payment intent does not match booking", w)
      else
        match (if stripe_error e then None else intents (stripe w) !! payment_intent_id) with
        | None => (confirm_refused 400 "Failed to verify payment: ", w)
        | Some payment_intent =>
            if negb (String.eqb (pi_status payment_intent) "succeeded") then
              (confirm_refused 400
                 ("Payment not completed. Status: " +:+ pi_status payment_intent), w)
            else
              let booking' := confirmed_row (now e) payment_intent booking in
              let transaction :=
                {| pt_id := new_transaction_id e;
                   pt_tenant_id := b_tenant_id booking;
                   pt_booking_id := booking_id;
                   transaction_type := "payment";
                   pt_amount := total_price booking;
                   pt_currency := b_currency booking;
                   payment_method := Some "card";
                   pt_status := "completed";
                   pt_stripe_payment_intent_id := Some payment_intent_id;
                   stripe_charge_id := latest_charge payment_intent;
                   stripe_refund_id := None;
                   description := None;
                   pt_created_at := now e;
                   completed_at := now e |} in
              let d :=
                {| properties := properties (db w);
                   bookings := <[booking_id := booking']> (bookings (db w));
                   calendar_availability :=
                     update_calendar (fun _ => true) (mark_booked (now e))
                       (b_property_id booking)
                       (date_range (check_in booking) (check_out booking))
                       (calendar_availability (db w));
                   guests := guests (db w);
                   payment_transactions := payment_transactions (db w) ++ [transaction] |} in
              (BookingConfirmedResponse booking_id (booking_reference booking) CONFIRMED PAID
                 (Some (now e)),
               add_tasks (set_db w d)
                 [ send_booking_confirmation_email booking_id;
                   publish_booking_event booking_id "booking.confirmed" ])
        end
  end.

(** ** [cancel_booking] *)

Inductive cancel_response :=
| BookingCancelResponse (booking_id status : string) (refund_status : option string)
    (refund_amount : option decimal)
| cancel_refused (status_code : Z) (detail : string).

(** [calculate_refund_amount], the moderate policy. *)
Definition calculate_refund_amount (today_ : Z) (booking : BookingRow) : decimal :=
  let days_until_checkin := check_in booking - today_ in
  if days_until_checkin >=? 7 then total_price booking
  else if days_until_checkin >=? 3 then mul (total_price booking) (Dec 5 1)
  else Dec 0 0.

Definition cancelled_row (at_ : Z) (reason : option string) (refund : option decimal)
    (b : BookingRow) : BookingRow :=
  {| b_tenant_id := b_tenant_id b; b_property_id := b_property_id b;
     b_guest_id := b_guest_id b; booking_reference := booking_reference b;
     check_in := check_in b; check_out := check_out b; num_adults := num_adults b;
     source := source b;
     b_status := CANCELLED;
     payment_status :=
       match refund with
       | Some r => if truthy r then REFUNDED else payment_status b
       | None => payment_status b
       end;
     nightly_rate := nightly_rate b; b_subtotal := b_subtotal b;
     b_cleaning_fee := b_cleaning_fee b; b_service_fee := b_service_fee b;
     tax_amount := tax_amount b; total_price := total_price b; b_currency := b_currency b;
     stripe_payment_intent_id := stripe_payment_intent_id b;
     special_requests := special_requests b; expires_at := expires_at b;
     created_at := created_at b;
     updated_at := at_;
     paid_amount := paid_amount b; paid_at := paid_at b; confirmed_at := confirmed_at b;
     cancelled_at := Some at_;
     cancellation_reason := reason;
     refund_amount := refund |}.

Definition text_truthy (s : option string) : bool :=
  match s with
  | Some t => negb (String.eqb t "")
  | None => false
  end.

(** The refund part of [cancel_booking]: the amount, the status reported,
    the transaction row it adds and the refund the processor records. *)
Definition process_refund (e : env) (booking_id : string) (reason : option string)
    (booking : BookingRow)
    : option decimal * option string * list PaymentTransaction * list Refund :=
  if String.eqb (payment_status booking) PAID
     && text_truthy (stripe_payment_intent_id booking) then
    let amount := calculate_refund_amount (today e) booking in
    if is_positive amount then
      if stripe_error e then (Some amount, Some "failed", [], [])
      else
        let refund :=
          {| refund_id := new_refund_id e;
             refund_payment_intent := default "" (stripe_payment_intent_id booking);
             refund_cents := to_cents amount;
             refund_status := new_refund_status e |} in
        let transaction :=
          {| pt_id := new_transaction_id e;
             pt_tenant_id := b_tenant_id booking;
             pt_booking_id := booking_id;
             transaction_type := "refund";
             pt_amount := amount;
             pt_currency := b_currency booking;
             payment_method := None;
             pt_status := "completed";
             pt_stripe_payment_intent_id := None;
             stripe_charge_id := None;
             stripe_refund_id := Some (new_refund_id e);
             description := Some (if text_truthy reason then default "" reason
                                  else "Guest cancellation");
             pt_created_at := now e;
             completed_at := now e |} in
        (Some amount,
         Some (if String.eqb (new_refund_status e) "pending" then "processing" else "completed"),
         [transaction], [refund])
    else (Some amount, None, [], [])
  else (None, None, [], []).

Definition cancel_booking (e : env) (booking_id : string) (reason : option string)
    (w : world) : cancel_response * world :=
  match bookings (db w) !! booking_id with
  | None => (cancel_refused 404 "Booking not found", w)
  | Some booking =>
      if String.eqb (b_status booking) CHECKED_IN || String.eqb (b_status booking) CHECKED_OUT
      then (cancel_refused 400 "Cannot cancel a booking that has already started or completed", w)
      else if String.eqb (b_status booking) CANCELLED then
        (cancel_refused 400 "Booking is already cancelled", w)
      else
        let '(refund_amount, refund_status, transactions, new_refunds) :=
          process_refund e booking_id reason booking in
        let d :=
          {| properties := properties (db w);
             bookings :=
               <[booking_id := cancelled_row (now e) reason refund_amount booking]>
                 (bookings (db w));
             calendar_availability :=
               update_calendar (held_by booking_id) (release_cell (now e))
                 (b_property_id booking)
                 (date_range (check_in booking) (check_out booking))
                 (calendar_availability (db w));
             guests := guests (db w);
             payment_transactions := payment_transactions (db w) ++ transactions |} in
        let p := {| intents := intents (stripe w);
                    refunds := refunds (stripe w) ++ new_refunds |} in
        (BookingCancelResponse booking_id CANCELLED refund_status refund_amount,
         add_tasks (set_stripe (set_db w d) p)
           [ send_cancellation_email booking_id;
             publish_booking_event booking_id "booking.cancelled" ])
  end.

(** ** [cancel_expired_booking_task] *)

Definition expired_row (at_ : Z) (b : BookingRow) : BookingRow :=
  {| b_tenant_id := b_tenant_id b; b_property_id := b_property_id b;
     b_guest_id := b_guest_id b; booking_reference := booking_reference b;
     check_in := check_in b; check_out := check_out b; num_adults := num_adults b;
     source := source b;
     b_status := CANCELLED;
     payment_status := EXPIRED;
     nightly_rate := nightly_rate b; b_subtotal := b_subtotal b;
     b_cleaning_fee := b_cleaning_fee b; b_service_fee := b_service_fee b;
     tax_amount := tax_amount b; total_price := total_price b; b_currency := b_currency b;
     stripe_payment_intent_id := stripe_payment_intent_id b;
     special_requests := special_requests b; expires_at := expires_at b;
     created_at := created_at b;
     updated_at := at_;
     paid_amount := paid_amount b; paid_at := paid_at b; confirmed_at := confirmed_at b;
     cancelled_at := Some at_;
     cancellation_reason := Some "Payment timeout";
     refund_amount := refund_amount b |}.

(** [stripe.PaymentIntent.cancel]. *)
Definition cancel_intent (intent_id : string) (p : processor) : processor :=
  {| intents :=
       alter (fun i => {| pi_status := "canceled"; pi_amount := pi_amount i;
                          pi_currency := pi_currency i;
                          amount_received := amount_received i;
                          latest_charge := latest_charge i;
                          client_secret := client_secret i;
                          metadata := metadata i |})
             intent_id (intents p);
     refunds := refunds p |}.

Definition cancel_expired_booking_task (e : env) (booking_id : string) (w : world) : world :=
  match bookings (db w) !! booking_id with
  | None => w
  | Some booking =>
      if negb (String.eqb (b_status booking) RESERVED) then w
      else if negb (String.eqb (payment_status booking) PENDING) then w
      else
        let d :=
          {| properties := properties (db w);
             bookings := <[booking_id := expired_row (now e) booking]> (bookings (db w));
             calendar_availability :=
               update_calendar (held_by booking_id) (release_cell (now e))
                 (b_property_id booking)
                 (date_range (check_in booking) (check_out booking))
                 (calendar_availability (db w));
             guests := guests (db w);
             payment_transactions := payment_transactions (db w) |} in
        let p :=
          match stripe_payment_intent_id booking with
          | Some intent_id =>
              if String.eqb intent_id "" || stripe_error e then stripe w
              else cancel_intent intent_id (stripe w)
          | None => stripe w
          end in
        set_stripe (set_db w d) p
  end.

(** ** [create_booking], one suspension point at a time *)

Record GuestDetails := {
  gd_first_name : string;
  gd_last_name : string;
  gd_email : string;
  gd_phone : option string
}.

Record BookingCreateRequest := {
  r_property_id : string;
  r_check_in : Z;
  r_check_out : Z;
  num_guests : Z;
  guest : GuestDetails;
  r_special_requests : option string;
  create_account : bool
}.

Inductive create_response :=
| BookingReservedResponse (booking_id booking_reference status payment_status : string)
    (total_price : decimal) (currency : string) (expires_at : Z)
    (stripe_client_secret : string)
| create_refused (status_code : Z) (detail : string)
| lock_timeout
| unhandled (exception : string).

Definition active_status (s : string) : bool :=
  String.eqb s RESERVED || String.eqb s CONFIRMED.

(** The [where] clause of the booking query of [check_availability_internal]. *)
Definition conflicts_with (property_id : string) (check_in_ check_out_ : Z)
    (b : BookingRow) : bool :=
  String.eqb (b_property_id b) property_id
  && active_status (b_status b)
  && (check_in b <? check_out_)
  && (check_out b >? check_in_).

Inductive availability :=
| is_available
| not_available (reason : string)
| multiple_results_found.

(** [check_availability_internal]; [scalar_one_or_none] raises when the
    query finds more than one row. *)
Definition check_availability_internal (d : database) (property_id : string)
    (check_in_ check_out_ : Z) : availability :=
  let conflicting :=
    filter (fun kv => conflicts_with property_id check_in_ check_out_ kv.2 = true)
           (bookings d) in
  match map_to_list conflicting with
  | [] =>
      let blocked_days :=
        List.filter (fun row => negb (available (snd row)))
          (select_calendar (calendar_availability d) property_id
             (date_range check_in_ check_out_)) in
      match blocked_days with
      | [] => is_available
      | _ => not_available "dates_blocked"
      end
  | [_] => not_available "dates_booked"
  | _ => multiple_results_found
  end.

(** [create_or_get_guest]: the guest row the session will write, under its
    identifier; [None] when the e-mail is found more than once. *)
Definition create_or_get_guest (e : env) (d : database) (tenant : string)
    (details : GuestDetails) : option (string * Guest * bool) :=
  let found :=
    filter (fun kv => String.eqb (g_tenant_id kv.2) tenant
                      && String.eqb (email kv.2) (gd_email details) = true)
           (guests d) in
  match map_to_list found with
  | [] =>
      Some (new_guest_id e,
            {| g_tenant_id := tenant; first_name := gd_first_name details;
               last_name := gd_last_name details; email := gd_email details;
               phone := gd_phone details; g_source := "direct"; total_bookings := 1;
               g_created_at := now e; g_updated_at := now e |},
            true)
  | [(gid, existing)] =>
      Some (gid,
            {| g_tenant_id := g_tenant_id existing;
               first_name := gd_first_name details;
               last_name := gd_last_name details;
               email := email existing;
               phone := if text_truthy (gd_phone details) then gd_phone details
                        else phone existing;
               g_source := g_source existing;
               total_bookings := total_bookings existing + 1;
               g_created_at := g_created_at existing;
               g_updated_at := now e |},
            false)
  | _ => None
  end.

Definition max_text (a : option string) (b : string) : option string :=
  match a with
  | Some x => if String.ltb x b then Some b else Some x
  | None => Some b
  end.

(** [generate_booking_reference]: one more than the number at the end of
    the greatest reference of the year, greatest as text. *)
Definition generate_booking_reference (e : env) (d : database) : option string :=
  let stem := "PMS-" +:+ pretty (year e) +:+ "-" in
  let of_year :=
    List.filter (String.prefix stem) (map (fun kv => booking_reference (snd kv))
                                          (map_to_list (bookings d))) in
  match fold_left max_text of_year None with
  | Some last_ref =>
      last_num ← Py.parse_int (Py.last_segment "-" last_ref);
      Some (stem +:+ Py.format_06d (last_num + 1))
  | None => Some (stem +:+ Py.format_06d 1)
  end.

(** The calendar upsert of step 9 for one date: insert the tentative cell,
    or on conflict update everything but its price. *)
Definition upsert_cell (at_ : Z) (booking_id : string) (insert_price : decimal)
    (existing : option CalendarAvailability) : option CalendarAvailability :=
  match existing with
  | None =>
      Some {| available := false; availability_status := "tentative";
              cell_booking_id := Some booking_id; price := Some insert_price;
              cell_updated_at := at_ |}
  | Some c =>
      Some {| available := false; availability_status := "tentative";
              cell_booking_id := Some booking_id; price := price c;
              cell_updated_at := at_ |}
  end.

Definition block_calendar (at_ : Z) (booking_id : string) (property : Property)
    (pb : PriceBreakdown) (property_id : string) (check_in_ check_out_ : Z)
    (cal : gmap (string * Z) CalendarAvailability)
    : gmap (string * Z) CalendarAvailability :=
  fold_left
    (fun m d =>
       let i := Z.to_nat (d - check_in_) in
       let insert_price :=
         match nth_error (nightly_rates pb) i with
         | Some r => rate_price r
         | None => base_price property
         end in
       partial_alter (upsert_cell at_ booking_id insert_price) (property_id, d) m)
    (date_range check_in_ check_out_) cal.

(** Where a request stands: the step it runs next, with what the earlier
    steps left in its local variables. *)
Inductive stage :=
| load_property
| acquire_lock (property : Property)
| verify_availability (property : Property)
| calculate_pricing (property : Property)
| upsert_guest (property : Property) (pb : PriceBreakdown)
| generate_reference (property : Property) (pb : PriceBreakdown)
    (g : string * Guest * bool)
| create_payment_intent (property : Property) (pb : PriceBreakdown)
    (g : string * Guest * bool) (reference : string)
| insert_and_commit (property : Property) (pb : PriceBreakdown)
    (g : string * Guest * bool) (reference : string) (intent_id secret : string)
| finished (r : create_response).

Definition lock_key (req : BookingCreateRequest) : string * Z * Z :=
  (r_property_id req, r_check_in req, r_check_out req).

(** Leaving the [try] block: the [finally] clause releases the lock. *)
Definition leave (req : BookingCreateRequest) (r : create_response) (w : world)
    : stage * world :=
  (finished r,
   {| db := db w; stripe := stripe w; locks := locks w ∖ {[lock_key req]};
      background_tasks := background_tasks w |}).

Definition reference_taken (reference : string) (d : database) : bool :=
  bool_decide (filter (fun kv => booking_reference kv.2 = reference) (bookings d) ≠ ∅).

Definition new_booking_row (e : env) (req : BookingCreateRequest) (property : Property)
    (pb : PriceBreakdown) (guest_id reference intent_id : string) : BookingRow :=
  {| b_tenant_id := tenant_id property;
     b_property_id := r_property_id req;
     b_guest_id := guest_id;
     booking_reference := reference;
     check_in := r_check_in req;
     check_out := r_check_out req;
     num_adults := num_guests req;
     source := "direct";
     b_status := RESERVED;
     payment_status := PENDING;
     nightly_rate := Quot (subtotal pb) (Z.of_nat (length (nightly_rates pb)));
     b_subtotal := subtotal pb;
     b_cleaning_fee := pb_cleaning_fee pb;
     b_service_fee := service_fee pb;
     tax_amount := taxes pb;
     total_price := total pb;
     b_currency := pb_currency pb;
     stripe_payment_intent_id := Some intent_id;
     special_requests := r_special_requests req;
     expires_at := Some (now e + Redis.seconds (BOOKING_RESERVATION_TIMEOUT_MINUTES * 60));
     created_at := now e;
     updated_at := now e;
     paid_amount := None; paid_at := None; confirmed_at := None;
     cancelled_at := None; cancellation_reason := None; refund_amount := None |}.

(** One step of [create_booking] between two suspension points. Reads see
    what is committed at that instant; the writes of the session reach the
    store together, at the commit. *)
Definition step (e : env) (req : BookingCreateRequest) (st : stage) (w : world)
    : stage * world :=
  match st with
  | load_property =>
      match properties (db w) !! r_property_id req with
      | Some property =>
          if String.eqb (status property) "active" then (acquire_lock property, w)
          else (finished (create_refused 404 "Property not found or not available"), w)
      | None => (finished (create_refused 404 "Property not found or not available"), w)
      end
  | acquire_lock property =>
      if bool_decide (lock_key req ∈ locks w) then (finished lock_timeout, w)
      else
        (verify_availability property,
         {| db := db w; stripe := stripe w; locks := locks w ∪ {[lock_key req]};
            background_tasks := background_tasks w |})
  | verify_availability property =>
      match check_availability_internal (db w) (r_property_id req) (r_check_in req)
              (r_check_out req) with
      | is_available => (calculate_pricing property, w)
      | not_available _ =>
          leave req (create_refused 409 "Property is not available for selected dates") w
      | multiple_results_found => leave req (unhandled "MultipleResultsFound") w
      end
  | calculate_pricing property =>
      match calculate_price_breakdown (properties (db w)) (calendar_availability (db w))
              (r_property_id req) (r_check_in req) (r_check_out req) with
      | Some pb => (upsert_guest property pb, w)
      | None => leave req (unhandled "NoResultFound") w
      end
  | upsert_guest property pb =>
      match create_or_get_guest e (db w) (tenant_id property) (guest req) with
      | Some g => (generate_reference property pb g, w)
      | None => leave req (unhandled "MultipleResultsFound") w
      end
  | generate_reference property pb g =>
      match generate_booking_reference e (db w) with
      | Some reference => (create_payment_intent property pb g reference, w)
      | None => leave req (unhandled "ValueError") w
      end
  | create_payment_intent property pb g reference =>
      if stripe_error e then
        leave req (create_refused 500 "Payment initialization failed: ") w
      else
        let intent :=
          {| pi_status := "requires_payment_method";
             pi_amount := to_cents (total pb);
             pi_currency := pb_currency pb;
             amount_received := 0;
             latest_charge := None;
             client_secret := new_client_secret e;
             metadata := [ ("property_id", r_property_id req);
                           ("booking_reference", reference);
                           ("guest_email", gd_email (guest req));
                           ("check_in", pretty (r_check_in req));
                           ("check_out", pretty (r_check_out req)) ] |} in
        (insert_and_commit property pb g reference (new_intent_id e) (new_client_secret e),
         set_stripe w {| intents := <[new_intent_id e := intent]> (intents (stripe w));
                         refunds := refunds (stripe w) |})
  | insert_and_commit property pb g reference intent_id secret =>
      let '(guest_id, guest_row, guest_is_new) := g in
      match nightly_rates pb with
      | [] => leave req (unhandled "DivisionByZero") w
      | _ =>
          let d := db w in
          if bool_decide (is_Some (bookings d !! new_booking_id e))
             || reference_taken reference d
             || (guest_is_new && bool_decide (is_Some (guests d !! guest_id)))
          then
            leave req
              (create_refused 409
                 ("Property is no longer available for selected dates. "
                  +:+ "Please choose different dates.")) w
          else
            let booking := new_booking_row e req property pb guest_id reference intent_id in
            let d' :=
              {| properties := properties d;
                 bookings := <[new_booking_id e := booking]> (bookings d);
                 calendar_availability :=
                   block_calendar (now e) (new_booking_id e) property pb
                     (r_property_id req) (r_check_in req) (r_check_out req)
                     (calendar_availability d);
                 guests := <[guest_id := guest_row]> (guests d);
                 payment_transactions := payment_transactions d |} in
            leave req
              (BookingReservedResponse (new_booking_id e) reference RESERVED PENDING
                 (total pb) (pb_currency pb)
                 (now e + Redis.seconds (BOOKING_RESERVATION_TIMEOUT_MINUTES * 60)) secret)
              (add_tasks (set_db w d')
                 [ schedule_booking_expiration (new_booking_id e)
                     (BOOKING_RESERVATION_TIMEOUT_MINUTES * 60) ])
      end
  | finished r => (finished r, w)
  end.

Fixpoint steps (n : nat) (e : env) (req : BookingCreateRequest) (st : stage) (w : world)
    : stage * world :=
  match n with
  | O => (st, w)
  | S n' => let '(st', w') := step e req st w in steps n' e req st' w'
  end.

(** [create_booking] run without interruption: its eight steps in a row. *)
Definition create_booking (e : env) (req : BookingCreateRequest) (w : world)
    : stage * world :=
  steps 8 e req load_property w.

(** Requests served at the same time: each with its surroundings and the
    stage it has reached, over one world. A schedule names, step by step,
    the request that runs next. *)
Record request_state := {
  rs_env : env;
  rs_request : BookingCreateRequest;
  rs_stage : stage
}.

Definition set_stage (r : request_state) (st : stage) : request_state :=
  {| rs_env := rs_env r; rs_request := rs_request r; rs_stage := st |}.

Definition schedule_one (i : nat) (sys : list request_state * world)
    : list request_state * world :=
  let '(rs, w) := sys in
  match rs !! i with
  | Some r =>
      let '(st', w') := step (rs_env r) (rs_request r) (rs_stage r) w in
      (<[i := set_stage r st']> rs, w')
  | None => sys
  end.

Definition run_schedule (schedule : list nat) (sys : list request_state * world)
    : list request_state * world :=
  fold_left (fun s i => schedule_one i s) schedule sys.

Definition responses (rs : list request_state) : list (option create_response) :=
  map (fun r => match rs_stage r with
                | finished resp => Some resp
                | _ => None
                end) rs.

(** Two bookings of one property whose stays [check_in, check_out) overlap
    while both are reserved or confirmed. *)
Definition double_booked (a b : BookingRow) : bool :=
  String.eqb (b_property_id a) (b_property_id b)
  && active_status (b_status a) && active_status (b_status b)
  && (check_in a <? check_out b) && (check_in b <? check_out a).

(** ** [stripe_webhook] *)

(** The event [stripe.Webhook.construct_event] returns, by its type and
    with the object it carries: a payment intent with its identifier, or a
    charge with its identifier and the amount refunded; [other_event] is an
    event of any other type. *)
Inductive stripe_event_data :=
| payment_intent_succeeded (intent_id : string) (intent : PaymentIntent)
| payment_intent_payment_failed (intent_id : string) (intent : PaymentIntent)
| charge_refunded (charge_id : string) (amount_refunded : Z)
| other_event.

Record stripe_event := {
  stripe_event_id : string;
  stripe_event_data_object : stripe_event_data
}.

(** What [construct_event] makes of the request. *)
Inductive constructed :=
| invalid_payload
| invalid_signature
| verified (event : stripe_event).

Inductive stripe_webhook_response :=
| JSONResponse (status : string)
| webhook_refused (status_code : Z) (detail : string)
| webhook_unhandled (exception : string).

(** The world of the endpoint: the world of the booking routes, and the
    [stripe_event:] keys of the coordination store with the instants at
    which they expire. *)
Record hooked_world := {
  site : world;
  stripe_events : gmap string Z
}.

(** [redis.exists(f"stripe_event:{event_id}")]. *)
Definition stripe_event_seen (now : Z) (event_id : string) (w : hooked_world) : bool :=
  match stripe_events w !! ("stripe_event:" +:+ event_id) with
  | Some expires_at => now <? expires_at
  | None => false
  end.

(** [redis.setex(f"stripe_event:{event_id}", 86400, "processed")]. *)
Definition mark_stripe_event (now : Z) (event_id : string) (w : hooked_world)
    : hooked_world :=
  {| site := site w;
     stripe_events :=
       <["stripe_event:" +:+ event_id := now + Redis.seconds 86400]> (stripe_events w) |}.

(** [select(Booking).where(Booking.stripe_payment_intent_id == id)] with
    [scalar_one_or_none]: [None] when more than one row is found. *)
Definition booking_of_intent (d : database) (intent_id : string)
    : option (option (string * BookingRow)) :=
  match map_to_list (filter (fun kv => stripe_payment_intent_id kv.2 = Some intent_id)
                            (bookings d)) with
  | [] => Some None
  | [kv] => Some (Some kv)
  | _ => None
  end.

Definition payment_failed_row (at_ : Z) (b : BookingRow) : BookingRow :=
  {| b_tenant_id := b_tenant_id b; b_property_id := b_property_id b;
     b_guest_id := b_guest_id b; booking_reference := booking_reference b;
     check_in := check_in b; check_out := check_out b; num_adults := num_adults b;
     source := source b;
     b_status := b_status b;
     payment_status := FAILED;
     nightly_rate := nightly_rate b; b_subtotal := b_subtotal b;
     b_cleaning_fee := b_cleaning_fee b; b_service_fee := b_service_fee b;
     tax_amount := tax_amount b; total_price := total_price b; b_currency := b_currency b;
     stripe_payment_intent_id := stripe_payment_intent_id b;
     special_requests := special_requests b; expires_at := expires_at b;
     created_at := created_at b;
     updated_at := at_;
     paid_amount := paid_amount b; paid_at := paid_at b; confirmed_at := confirmed_at b;
     cancelled_at := cancelled_at b; cancellation_reason := cancellation_reason b;
     refund_amount := refund_amount b |}.

Definition charge_refunded_row (at_ : Z) (amount_refunded : Z) (b : BookingRow)
    : BookingRow :=
  {| b_tenant_id := b_tenant_id b; b_property_id := b_property_id b;
     b_guest_id := b_guest_id b; booking_reference := booking_reference b;
     check_in := check_in b; check_out := check_out b; num_adults := num_adults b;
     source := source b;
     b_status := b_status b;
     payment_status := REFUNDED;
     nightly_rate := nightly_rate b; b_subtotal := b_subtotal b;
     b_cleaning_fee := b_cleaning_fee b; b_service_fee := b_service_fee b;
     tax_amount := tax_amount b; total_price := total_price b; b_currency := b_currency b;
     stripe_payment_intent_id := stripe_payment_intent_id b;
     special_requests := special_requests b; expires_at := expires_at b;
     created_at := created_at b;
     updated_at := at_;
     paid_amount := paid_amount b; paid_at := paid_at b; confirmed_at := confirmed_at b;
     cancelled_at := cancelled_at b; cancellation_reason := cancellation_reason b;
     refund_amount := Some (of_cents amount_refunded) |}.

Definition set_booking (booking_id : string) (b : BookingRow) (d : database) : database :=
  {| properties := properties d;
     bookings := <[booking_id := b]> (bookings d);
     calendar_availability := calendar_availability d;
     guests := guests d;
     payment_transactions := payment_transactions d |}.

Section stripe_webhook.
(** The rows [select(Booking).where(Booking.stripe_charge_id == charge.id)]
    finds. The column belongs to [app.models], which the file imports; no
    route of the file writes it. *)
Variable bookings_of_charge : database -> string -> list (string * BookingRow).

(** The branches of [stripe_webhook] on the type of the event: the world
    they leave, or [None] when [scalar_one_or_none] raises. *)
Definition handle_stripe_event (now : Z) (data : stripe_event_data) (w : world)
    : option world :=
  match data with
  | payment_intent_succeeded intent_id payment_intent =>
      match booking_of_intent (db w) intent_id with
      | None => None
      | Some (Some (booking_id, booking)) =>
          if String.eqb (b_status booking) RESERVED then
            let d :=
              {| properties := properties (db w);
                 bookings :=
                   <[booking_id := confirmed_row now payment_intent booking]>
                     (bookings (db w));
                 calendar_availability :=
                   update_calendar (fun _ => true) (mark_booked now)
                     (b_property_id booking)
                     (date_range (check_in booking) (check_out booking))
                     (calendar_availability (db w));
                 guests := guests (db w);
                 payment_transactions := payment_transactions (db w) |} in
            Some (add_tasks (set_db w d)
                    [ send_booking_confirmation_email booking_id;
                      publish_booking_event booking_id "booking.confirmed" ])
          else Some w
      | Some None => Some w
      end
  | payment_intent_payment_failed intent_id _ =>
      match booking_of_intent (db w) intent_id with
      | None => None
      | Some (Some (booking_id, booking)) =>
          Some (set_db w (set_booking booking_id (payment_failed_row now booking) (db w)))
      | Some None => Some w
      end
  | charge_refunded charge_id amount_refunded =>
      match bookings_of_charge (db w) charge_id with
      | [] => Some w
      | [(booking_id, booking)] =>
          Some (set_db w (set_booking booking_id
                            (charge_refunded_row now amount_refunded booking) (db w)))
      | _ => None
      end
  | other_event => Some w
  end.

(** [stripe_webhook], called at [now]. *)
Definition stripe_webhook (now : Z) (request : constructed) (w : hooked_world)
    : stripe_webhook_response * hooked_world :=
  match request with
  | invalid_payload => (webhook_refused 400 "Invalid payload", w)
  | invalid_signature => (webhook_refused 400 "Invalid signature", w)
  | verified event =>
      if stripe_event_seen now (stripe_event_id event) w then
        (JSONResponse "already_processed", w)
      else
        match handle_stripe_event now (stripe_event_data_object event) (site w) with
        | None => (webhook_unhandled "MultipleResultsFound", w)
        | Some s =>
            (JSONResponse "success",
             mark_stripe_event now (stripe_event_id event)
               {| site := s; stripe_events := stripe_events w |})
        end
  end.
End stripe_webhook.

End Booking.

(** * Properties *)

(** ** SHA-256 and HMAC against the published test vectors *)

Module Sha256Facts.
Import Sha256.

Example sha256_empty :
  hexdigest "" = "e3b0c44298fc1c149afbf4c8996fb92427ae41e4649b934ca495991b7852b855".
Proof. vm_compute. reflexivity. Qed.

Example sha256_abc :
  hexdigest "abc" = "ba7816bf8f01cfea414140de5dae2223b00361a396177a9cb410ff61f20015ad".
Proof. vm_compute. reflexivity. Qed.

Example sha256_two_blocks :
  hexdigest "abcdbcdecdefdefgefghfghighijhijkijkljklmklmnlmnomnopnopq"
  = "248d6a61d20638b8e5c026930c3e6039a33ce45964ff2167f6ecedd419db06c1".
Proof. vm_compute. reflexivity. Qed.

(** RFC 4231, test case 2. *)
Example hmac_sha256_rfc4231 :
  hmac_hexdigest "Jefe" "what do ya want for nothing?"
  = "5bdcc146bf60754e6a042426089575c75a003f089d2739839dec58b964ec3843".
Proof. vm_compute. reflexivity. Qed.

(** The digest is text of hexadecimal digits. *)
Lemma hex_digit_isascii d :
  0 <= d < 16 -> (N_of_ascii (hex_digit d) <? 128)%N = true.
Proof.
  intros Hd.
  assert (d = 0 \/ d = 1 \/ d = 2 \/ d = 3 \/ d = 4 \/ d = 5 \/ d = 6 \/ d = 7 \/ d = 8
          \/ d = 9 \/ d = 10 \/ d = 11 \/ d = 12 \/ d = 13 \/ d = 14 \/ d = 15) as H by lia.
  repeat (destruct H as [->|H]; [reflexivity|]). by subst.
Qed.

Lemma hex_isascii bs :
  Forall (fun b => 0 <= b < 256) bs -> Py.isascii (hex bs) = true.
Proof.
  unfold Py.isascii, hex. rewrite list_ascii_of_string_of_list_ascii.
  induction 1 as [|b bs Hb _ IH]; [done|].
  cbn [flat_map hex_of_byte app forallb]. rewrite IH.
  rewrite !hex_digit_isascii; [done| |].
  - apply Z.mod_pos_bound. lia.
  - split; [apply Z.div_pos; lia|apply Z.div_lt_upper_bound; lia].
Qed.

Lemma be_bytes_range n x : Forall (fun b => 0 <= b < 256) (be_bytes n x).
Proof.
  revert x. induction n as [|n IH]; intros x; simpl; [constructor|].
  apply Forall_app. split; [apply IH|].
  constructor; [|constructor]. apply Z.mod_pos_bound. lia.
Qed.

Lemma digest_range msg : Forall (fun b => 0 <= b < 256) (digest msg).
Proof.
  unfold digest. induction (digest_words msg) as [|word words IH];
    cbn [flat_map]; [constructor|].
  apply Forall_app. split; [apply be_bytes_range|apply IH].
Qed.

Lemma hmac_hexdigest_isascii key msg : Py.isascii (hmac_hexdigest key msg) = true.
Proof. unfold hmac_hexdigest. apply hex_isascii, digest_range. Qed.

End Sha256Facts.

(** ** The coordination store *)

Module RedisFacts.
Import Redis.

Section zset.
Context {M : Type} `{Countable M}.
Implicit Types (z : gmap M Z) (k : option (zkey M)).

Lemma zread_zwrite now z k : zread now (zwrite z (zttl now k)) = z.
Proof.
  unfold zwrite. case_decide as Hz; [by subst|].
  unfold zread, zttl, alive; simpl.
  destruct k as [k'|]; simpl; [|done].
  unfold alive. destruct (zexpire_at k') as [t|] eqn:Ht; simpl.
  - destruct (now <? t) eqn:Hlt; simpl; [by rewrite Hlt|done].
  - done.
Qed.

Lemma zread_ZREMRANGEBYSCORE now lo hi k :
  zread now (ZREMRANGEBYSCORE now lo hi k) = zremrangebyscore lo hi (zread now k).
Proof. apply zread_zwrite. Qed.

Lemma zread_ZADD now m score k :
  zread now (ZADD now m score k) = zadd m score (zread now k).
Proof. apply zread_zwrite. Qed.

Lemma zread_EXPIRE now ttl k :
  0 < ttl -> zread now (EXPIRE now ttl k) = zread now k.
Proof.
  intros Httl. destruct k as [k'|]; simpl; [|done].
  destruct (alive now k') eqn:Ha; simpl; [|done].
  unfold alive at 1; simpl.
  destruct (now <? now + ttl) eqn:Hlt; [done|]. apply Z.ltb_ge in Hlt. lia.
Qed.

Lemma zremrangebyscore_idemp lo hi z :
  zremrangebyscore lo hi (zremrangebyscore lo hi z) = zremrangebyscore lo hi z.
Proof.
  unfold zremrangebyscore. rewrite map_filter_filter.
  apply map_filter_ext. intros i x _. tauto.
Qed.

Lemma zremrangebyscore_zadd_outside lo hi m score z :
  ¬ (lo ≤ score ∧ score ≤ hi) ->
  zremrangebyscore lo hi (zadd m score z) = zadd m score (zremrangebyscore lo hi z).
Proof.
  intros Hout. unfold zremrangebyscore, zadd.
  by rewrite map_filter_insert_True.
Qed.

Lemma zcard_zadd_le m score z : zcard (zadd m score z) <= zcard z + 1.
Proof.
  unfold zcard, zadd. destruct (z !! m) as [old|] eqn:Hm.
  - rewrite map_size_insert_Some by eauto. lia.
  - rewrite map_size_insert_None by done. lia.
Qed.
End zset.

Lemma fold_min_le (rest : list Z) (s : Z) :
  fold_left Z.min rest s <= s /\ Forall (fun x => fold_left Z.min rest s <= x) rest.
Proof.
  revert s. induction rest as [|x rest IH]; intros s; simpl.
  - split; [lia|constructor].
  - destruct (IH (Z.min s x)) as [Hle Hall]. split; [lia|].
    constructor; [lia|done].
Qed.

Lemma fold_min_elem (rest : list Z) (s : Z) : fold_left Z.min rest s ∈ s :: rest.
Proof.
  revert s. induction rest as [|x rest IH]; intros s; simpl; [by left|].
  specialize (IH (Z.min s x)). apply elem_of_cons in IH as [Heq|Hin].
  - rewrite Heq. destruct (Z.min_spec s x) as [[_ ->]|[_ ->]]; [by left|right; by left].
  - right. by right.
Qed.

Lemma lowest_Some (scores : list Z) (m : Z) :
  lowest scores = Some m -> m ∈ scores /\ Forall (fun x => m <= x) scores.
Proof.
  destruct scores as [|s rest]; simpl; [done|]. intros [= <-].
  split; [apply fold_min_elem|].
  destruct (fold_min_le rest s) as [Hle Hall]. by constructor.
Qed.

Section zrange.
Context {M : Type} `{Countable M}.
Implicit Types (z : gmap M Z).

Lemma zrange_first_score_None z : zrange_first_score z = None <-> z = ∅.
Proof.
  unfold zrange_first_score, lowest. rewrite <- map_to_list_empty_iff.
  destruct (map_to_list z); simpl; split; done.
Qed.

(** The score [zrange] returns first is the score of an entry, and no entry
    has a lower one. *)
Lemma zrange_first_score_Some z (m : Z) :
  zrange_first_score z = Some m ->
  (exists k, z !! k = Some m) /\ (forall k s, z !! k = Some s -> m <= s).
Proof.
  unfold zrange_first_score. intros Hm. apply lowest_Some in Hm as [Hin Hall]. split.
  - apply list_elem_of_fmap in Hin as ([k s] & -> & Hks).
    exists k. by apply elem_of_map_to_list.
  - intros k s Hks. rewrite List.Forall_forall in Hall. apply Hall.
    apply list_elem_of_In, list_elem_of_fmap. exists (k, s). split; [done|].
    by apply elem_of_map_to_list.
Qed.

Lemma zremrangebyscore_lookup lo hi z k s :
  zremrangebyscore lo hi z !! k = Some s <-> z !! k = Some s /\ ¬ (lo <= s <= hi).
Proof. unfold zremrangebyscore. rewrite map_lookup_filter_Some. simpl. tauto. Qed.

(** What is left after a trim is counted by no more than a count over a
    range that holds it. *)
Lemma zcard_zremrangebyscore_le_zcount lo hi lo' hi' z :
  (forall k s, z !! k = Some s -> ¬ (lo <= s <= hi) -> lo' <= s <= hi') ->
  zcard (zremrangebyscore lo hi z) <= zcount lo' hi' z.
Proof.
  intros Hin. unfold zcard, zcount, zremrangebyscore.
  apply Nat2Z.inj_le, map_subseteq_size, map_filter_subseteq_ext.
  intros k s Hks. simpl. intros Hout. by apply (Hin k).
Qed.

(** A trim that removes an entry leaves fewer entries. *)
Lemma zcard_zremrangebyscore_lt lo hi z k s :
  z !! k = Some s -> lo <= s <= hi ->
  zcard (zremrangebyscore lo hi z) < zcard z.
Proof.
  intros Hks Hs. unfold zcard, zremrangebyscore.
  assert (filter (fun e : M * Z => ¬ (lo <= e.2 <= hi)) z ⊆ delete k z) as Hsub.
  { apply map_subseteq_spec. intros k' s'. rewrite map_lookup_filter_Some. simpl.
    intros [Hk' Hs']. rewrite lookup_delete_ne; [done|].
    intros <-. rewrite Hks in Hk'. injection Hk' as <-. by apply Hs'. }
  apply map_subseteq_size in Hsub.
  rewrite map_size_delete_Some in Hsub by eauto.
  assert (size z ≠ 0%nat) by (apply map_size_non_empty_iff; intros ->; by rewrite lookup_empty in Hks).
  lia.
Qed.

Lemma zcard_nonneg z : 0 <= zcard z.
Proof. unfold zcard. lia. Qed.

(** Entries the set holds are counted: a list of distinct members of the
    set is no longer than the set is large. *)
Lemma zcard_members_ge z (members : list M) :
  NoDup members -> Forall (fun k => is_Some (z !! k)) members ->
  Z.of_nat (length members) <= zcard z.
Proof.
  intros Hnd Hall. unfold zcard. apply Nat2Z.inj_le.
  rewrite <- (size_list_to_set (C:=gset M) members Hnd), <- (size_dom (D:=gset M) z).
  apply subseteq_size. intros k Hk. apply elem_of_list_to_set in Hk.
  rewrite List.Forall_forall in Hall. apply elem_of_dom, Hall. by apply list_elem_of_In.
Qed.

Lemma zread_alive now (zk : zkey M) :
  (forall e, zexpire_at zk = Some e -> now < e) -> zread now (Some zk) = zmembers zk.
Proof.
  intros He. unfold zread, alive. destruct (zexpire_at zk) as [e|]; [|done].
  specialize (He e eq_refl). by destruct (Z.ltb_spec now e); [|lia].
Qed.

Lemma alive_zttl now (k : option (zkey M)) z : alive now (ZKey z (zttl now k)) = true.
Proof.
  unfold alive, zttl. simpl. destruct k as [k'|]; [|done].
  unfold alive. destruct (zexpire_at k') as [t|] eqn:Ht; simpl; [|done].
  by destruct (now <? t) eqn:Hlt.
Qed.

(** What [zadd] followed by [expire] leaves under the key. *)
Lemma EXPIRE_ZADD now ttl (m : M) score (k : option (zkey M)) :
  EXPIRE now ttl (ZADD now m score k)
  = Some (ZKey (zadd m score (zread now k)) (Some (now + ttl))).
Proof.
  unfold ZADD, zwrite. rewrite decide_False by apply insert_non_empty.
  unfold EXPIRE. by rewrite alive_zttl.
Qed.

Lemma zread_subseteq now (k : option (zkey M)) (zk : zkey M) :
  k = Some zk -> zread now k ⊆ zmembers zk.
Proof.
  intros ->. unfold zread. destruct (alive now zk); [done|]. apply map_empty_subseteq.
Qed.
End zrange.

Lemma last_cons_default (x d : Z) (l : list Z) : List.last (x :: l) d = List.last l x.
Proof.
  destruct l as [|t ts]; [done|]. simpl.
  revert t. induction ts as [|t' ts IH]; intros t; [done|]. apply IH.
Qed.

End RedisFacts.

(** ** The rate limiter *)

Module RateLimiterFacts.
Import Redis RedisFacts RateLimiter.

Lemma window_positive channel_type : 0 < window_seconds (_get_config channel_type).
Proof.
  unfold _get_config, RATE_LIMITS; simpl.
  repeat (destruct (String.eqb _ _); [simpl; lia|]). simpl. lia.
Qed.

(** A refused call consumes no quota: the entries still counted at [now]
    are those counted before the call. *)
Lemma acquire_denied_keeps_live_entries prefix now channel connection weight l l' :
  acquire prefix now channel connection weight l = (false, l') ->
  live_entries prefix now channel connection l'
  = live_entries prefix now channel connection l.
Proof.
  unfold acquire, acquire_pipeline, live_entries.
  destruct (_ >? _); [|discriminate].
  intros [= <-]; simpl.
  rewrite lookup_partial_alter_eq, zread_ZREMRANGEBYSCORE.
  apply zremrangebyscore_idemp.
Qed.

(** A granted call records one member, whatever its weight. *)
Lemma acquire_granted_adds_one_member prefix now channel connection weight l l' :
  acquire prefix now channel connection weight l = (true, l') ->
  live_entries prefix now channel connection l'
  = <[(now, weight) := now]> (live_entries prefix now channel connection l).
Proof.
  unfold acquire, acquire_pipeline, acquire_record, live_entries.
  destruct (_ >? _); [discriminate|].
  intros [= <-]; simpl.
  pose proof (window_positive channel) as Hw.
  rewrite !lookup_partial_alter_eq.
  rewrite zread_EXPIRE by (unfold seconds; lia).
  rewrite zread_ZADD, zread_ZREMRANGEBYSCORE.
  rewrite zremrangebyscore_zadd_outside by (unfold seconds; lia).
  by rewrite zremrangebyscore_idemp.
Qed.

(** Hence the count seen by the next call grows by at most one. *)
Lemma acquire_granted_counts_at_most_one prefix now channel connection weight l l' :
  acquire prefix now channel connection weight l = (true, l') ->
  zcard (live_entries prefix now channel connection l')
  <= zcard (live_entries prefix now channel connection l) + 1.
Proof.
  intros Hacq. rewrite (acquire_granted_adds_one_member _ _ _ _ _ _ _ Hacq).
  apply (zcard_zadd_le (now, weight) now).
Qed.

(** The instant and the store of the examples below. *)
Definition t0 : Z := 1780000000000000.

(** C4, at a weight above one: the call is granted, its gauge reports the
    weight, and the window holds one entry for it, not [weight] entries. *)
Theorem acquire_weight_is_counted_once :
  let '(granted, l) := acquire "rate_limit" t0 "airbnb" "conn-1" 5 empty_limiter in
  granted = true
  /\ current_gauge (stats l) = Some 5
  /\ get_current_count "rate_limit" (t0 + 10) "airbnb" "conn-1" l = 1
  /\ get_remaining "rate_limit" (t0 + 10) "airbnb" "conn-1" l = 14.
Proof. vm_compute. repeat split; reflexivity. Qed.

(** Eleven calls of weight five pass within one second against a limit of
    fifteen; the twelfth is the first one refused. *)
Example eleven_heavy_calls_pass :
  fst (acquire_many 12 t0 10 5 empty_limiter)
  = [true; true; true; true; true; true; true; true; true; true; true; false].
Proof. vm_compute. reflexivity. Qed.

(** The scenario of the specification at weight one: fifteen calls pass,
    the sixteenth is refused, and a call one second later passes again. *)
Example fifteen_calls_then_refused :
  let '(oks, l) := acquire_many 16 t0 10 1 empty_limiter in
  oks = repeat true 15 ++ [false]
  /\ fst (acquire "rate_limit" (t0 + seconds 1 + 150) "airbnb" "conn-1" 1 l) = true.
Proof. vm_compute. split; reflexivity. Qed.

(** The count and the write are two round trips: two callers that both
    count fourteen entries both record theirs, and the window holds
    sixteen against a limit of fifteen. *)
Example two_callers_exceed_the_limit :
  let config := _get_config "airbnb" in
  let key := _get_rate_limit_key "rate_limit" "airbnb" "conn-1" in
  let st := kv (snd (acquire_many 14 t0 10 1 empty_limiter)) in
  let '(count_a, st1) := acquire_pipeline (t0 + 200) config key st in
  let '(count_b, st2) := acquire_pipeline (t0 + 201) config key st1 in
  let st3 := acquire_record (t0 + 200) config key 1 st2 in
  let st4 := acquire_record (t0 + 201) config key 1 st3 in
  count_a = 14 /\ count_b = 14
  /\ effective_limit config = 15
  /\ ZCARD (t0 + 202) (st4 !! key) = 16.
Proof. vm_compute. repeat split; reflexivity. Qed.

(** *** One caller, one call after the other *)

Lemma NoDup_List_filter {A} (f : A -> bool) (l : list A) :
  NoDup l -> NoDup (List.filter f l).
Proof.
  induction 1 as [|x l Hx Hl IH]; simpl; [constructor|].
  destruct (f x); [|done]. constructor; [|done].
  intros Hin. apply Hx. apply list_elem_of_In in Hin. apply filter_In in Hin as [Hin _].
  by apply list_elem_of_In.
Qed.

Lemma effective_limit_at_least_ten channel_type :
  10 <= effective_limit (_get_config channel_type).
Proof.
  unfold _get_config, RATE_LIMITS; simpl.
  repeat (destruct (String.eqb _ _); [vm_compute; discriminate|]). vm_compute. discriminate.
Qed.

Section one_connection.
Variables (prefix channel connection : string).

Local Abbreviation config := (_get_config channel).
Local Abbreviation key := (_get_rate_limit_key prefix channel connection).
Local Abbreviation W := (seconds (window_seconds (_get_config channel))).
Local Abbreviation live := (live_entries prefix).

Lemma W_positive : 0 < W.
Proof. pose proof (window_positive channel). unfold seconds. lia. Qed.

(** A call is granted exactly when the entries it still counts, and its
    weight, fit the limit. *)
Lemma acquire_granted_iff now weight l :
  fst (acquire prefix now channel connection weight l)
  = negb (zcard (live now channel connection l) + weight >? effective_limit config).
Proof.
  unfold acquire, acquire_pipeline, live_entries, ZCARD.
  rewrite lookup_partial_alter_eq, zread_ZREMRANGEBYSCORE.
  by destruct (_ >? _).
Qed.

Lemma acquire_denied_key now weight l l' :
  acquire prefix now channel connection weight l = (false, l') ->
  kv l' !! key = ZREMRANGEBYSCORE now 0 (now - W) (kv l !! key).
Proof.
  unfold acquire, acquire_pipeline. destruct (_ >? _); [|discriminate].
  intros [= <-]. simpl. by rewrite lookup_partial_alter_eq.
Qed.

Lemma acquire_granted_key now weight l l' :
  acquire prefix now channel connection weight l = (true, l') ->
  kv l' !! key
  = EXPIRE now (2 * W)
      (ZADD now (now, weight) now (ZREMRANGEBYSCORE now 0 (now - W) (kv l !! key))).
Proof.
  unfold acquire, acquire_pipeline, acquire_record. destruct (_ >? _); [discriminate|].
  intros [= <-]. simpl. rewrite !lookup_partial_alter_eq.
  f_equal. unfold seconds. lia.
Qed.

(** The calls granted so far, none later than [T]: those of the last window
    are entries of the key, which lives on for two windows after them. *)
Definition recorded (T : Z) (granted : list (Z * Z)) (l : limiter) : Prop :=
  NoDup granted
  /\ Forall (fun g : Z * Z =>
               g.1 <= T
               /\ (T - W < g.1 ->
                   exists zk, kv l !! key = Some zk
                              /\ zmembers zk !! g = Some g.1
                              /\ forall e, zexpire_at zk = Some e -> g.1 + 2 * W <= e))
            granted.

(** Such an entry is read, and counted, by a call within its window. *)
Lemma recorded_is_live T granted l now g :
  recorded T granted l -> T < now -> g ∈ granted -> now - W < g.1 ->
  live now channel connection l !! g = Some g.1.
Proof.
  intros [_ Hall] HT Hg Hwin. rewrite List.Forall_forall in Hall.
  destruct (Hall g) as [HgT Hin]; [by apply list_elem_of_In|].
  destruct Hin as (zk & Hzk & Hmem & Hexp); [lia|].
  pose proof W_positive as HW.
  unfold live_entries. apply zremrangebyscore_lookup. split; [|lia].
  rewrite Hzk, zread_alive; [done|]. intros e He. specialize (Hexp e He). lia.
Qed.

Lemma recorded_step T granted l now weight ok l' :
  recorded T granted l -> T < now ->
  acquire prefix now channel connection weight l = (ok, l') ->
  recorded now (if ok then granted ++ [(now, weight)] else granted) l'.
Proof.
  intros Hrec HT Hacq. pose proof W_positive as HW.
  assert (forall g, g ∈ granted -> now - W < g.1 ->
            exists zk, ZREMRANGEBYSCORE now 0 (now - W) (kv l !! key) = Some zk
                       /\ zmembers zk !! g = Some g.1
                       /\ (forall e, zexpire_at zk = Some e -> g.1 + 2 * W <= e)
                       /\ (forall e, zexpire_at zk = Some e -> now < e)) as Htrim.
  { intros g Hg Hwin.
    pose proof (recorded_is_live _ _ _ _ _ Hrec HT Hg Hwin) as Hlive.
    destruct Hrec as [_ Hall]. rewrite List.Forall_forall in Hall.
    destruct (Hall g) as [HgT Hin]; [by apply list_elem_of_In|].
    destruct Hin as (zk & Hzk & Hmem & Hexp); [lia|].
    unfold live_entries in Hlive. rewrite Hzk in *.
    unfold ZREMRANGEBYSCORE, zwrite. case_decide as Hempty.
    { rewrite Hempty in Hlive. by rewrite lookup_empty in Hlive. }
    eexists. split; [done|]. simpl. split; [done|].
    assert (alive now zk = true) as Halive.
    { unfold alive. destruct (zexpire_at zk) as [e|] eqn:He; [|done].
      specialize (Hexp e eq_refl). apply Z.ltb_lt. lia. }
    unfold zttl. rewrite Halive. split; [done|].
    intros e He. specialize (Hexp e He). lia. }
  destruct Hrec as [Hnd Hall]. destruct ok.
  - apply acquire_granted_key in Hacq.
    assert (exists zk, kv l' !! key = Some zk
                       /\ zexpire_at zk = Some (now + 2 * W)
                       /\ zmembers zk
                          = <[(now, weight) := now]>
                              (zread now (ZREMRANGEBYSCORE now 0 (now - W) (kv l !! key))))
      as (zk' & Hzk' & Hexp' & Hmem').
    { rewrite Hacq. unfold ZADD, zwrite. case_decide as Hempty.
      { exfalso. apply (insert_non_empty _ _ _ Hempty). }
      simpl. unfold alive; simpl.
      destruct (zttl now _) as [e|] eqn:Httl; simpl.
      - assert ((now <? e) = true) as ->; [|by eexists].
        unfold zttl in Httl. destruct (ZREMRANGEBYSCORE _ _ _ _) as [zk0|]; [|done].
        unfold alive in Httl. destruct (zexpire_at zk0) as [e0|]; [|done].
        destruct (now <? e0) eqn:Hlt; [|done]. by injection Httl as <-.
      - by eexists. }
    split.
    + apply NoDup_app. split; [done|]. split; [|apply NoDup_singleton].
      intros g Hg Hnew. apply list_elem_of_singleton in Hnew as ->.
      rewrite List.Forall_forall in Hall.
      destruct (Hall (now, weight)) as [Hle _]; [by apply list_elem_of_In|]. simpl in Hle. lia.
    + apply Forall_app. split.
      * rewrite List.Forall_forall in *. intros g Hg.
        apply list_elem_of_In in Hg.
        destruct (Hall g) as [HgT _]; [by apply list_elem_of_In|].
        split; [lia|]. intros Hwin.
        destruct (Htrim g Hg Hwin) as (zk & Hzk & Hmem & Hexp & Halive).
        exists zk'. split; [done|]. split.
        -- rewrite Hmem', lookup_insert_ne.
           ++ rewrite Hzk, zread_alive; done.
           ++ intros Heq. rewrite <- Heq in HgT. simpl in HgT. lia.
        -- intros e He. rewrite Hexp' in He. injection He as <-. lia.
      * constructor; [|constructor]. simpl. split; [lia|]. intros _.
        exists zk'. split; [done|]. split.
        -- by rewrite Hmem', lookup_insert_eq.
        -- intros e He. rewrite Hexp' in He. injection He as <-. lia.
  - apply acquire_denied_key in Hacq. split; [done|].
    rewrite List.Forall_forall in *. intros g Hg.
    apply list_elem_of_In in Hg.
    destruct (Hall g) as [HgT _]; [by apply list_elem_of_In|].
    split; [lia|]. intros Hwin.
    destruct (Htrim g Hg Hwin) as (zk & Hzk & Hmem & Hexp & _).
    exists zk. by rewrite Hacq.
Qed.

Lemma recorded_each calls T granted l :
  recorded T granted l ->
  increasing T (fst <$> calls) = true ->
  recorded (List.last (fst <$> calls) T)
           (granted ++ fst (acquire_each prefix channel connection calls l))
           (snd (acquire_each prefix channel connection calls l)).
Proof.
  revert T granted l. induction calls as [|[now weight] rest IH]; intros T granted l Hrec Hinc.
  - simpl. by rewrite app_nil_r.
  - rewrite fmap_cons in *. cbn [fst] in *.
    cbn [increasing] in Hinc. apply andb_prop in Hinc as [HT Hinc]. apply Z.ltb_lt in HT.
    rewrite last_cons_default. cbn [acquire_each].
    destruct (acquire prefix now channel connection weight l) as [ok l1] eqn:Hacq.
    pose proof (recorded_step _ _ _ _ _ _ _ Hrec HT Hacq) as Hstep.
    specialize (IH now _ l1 Hstep Hinc).
    destruct (acquire_each prefix channel connection rest l1) as [others l2].
    cbn [fst snd] in *.
    destruct ok; [|done]. by rewrite <- app_assoc in IH.
Qed.

Lemma increasing_app T instants now :
  increasing T (instants ++ [now]) = true ->
  increasing T instants = true /\ List.last instants T < now.
Proof.
  revert T. induction instants as [|t rest IH]; intros T; cbn [app increasing].
  - rewrite andb_true_r. intros HT. split; [done|]. by apply Z.ltb_lt.
  - intros Hinc. apply andb_prop in Hinc as [HT Hinc].
    destruct (IH t Hinc) as [Hrest Hlast]. rewrite HT, Hrest. split; [done|].
    by rewrite last_cons_default.
Qed.

(** The sliding window, for one caller whose calls follow one another:
    when a call of weight [weight] is granted at [now], the calls granted
    before it during the last window, and that weight, fit the limit of the
    channel. At weight one this bounds the granted calls of every window by
    the limit. The store may hold anything when the first call arrives. *)
Theorem granted_calls_fit_the_window (calls : list (Z * Z)) (now weight before : Z)
    (l0 : limiter) :
  increasing before ((fst <$> calls) ++ [now]) = true ->
  fst (acquire prefix now channel connection weight
         (snd (acquire_each prefix channel connection calls l0))) = true ->
  Z.of_nat (length (List.filter (fun g : Z * Z => now - W <? g.1)
                      (fst (acquire_each prefix channel connection calls l0))))
  + weight
  <= effective_limit config.
Proof.
  intros Hinc Hok. apply increasing_app in Hinc as [Hinc Hlast].
  assert (recorded before [] l0) as Hrec0 by (split; constructor).
  pose proof (recorded_each calls before [] l0 Hrec0 Hinc) as Hrec. simpl in Hrec.
  rewrite acquire_granted_iff in Hok. apply negb_true_iff in Hok.
  rewrite Z.gtb_ltb in Hok. apply Z.ltb_ge in Hok.
  etransitivity; [|exact Hok]. apply Z.add_le_mono_r.
  apply zcard_members_ge.
  - apply NoDup_List_filter. by destruct Hrec.
  - apply List.Forall_forall. intros g Hg. apply filter_In in Hg as [Hg Hwin].
    apply Z.ltb_lt in Hwin. exists g.1.
    eapply recorded_is_live; [exact Hrec|exact Hlast|by apply list_elem_of_In|done].
Qed.

(** What [get_remaining] reports can be spent: when every entry of the key
    was scored between zero and [now], a call of a weight from one up to the
    remaining quota is granted. *)
Theorem remaining_quota_is_granted (now weight : Z) (l : limiter) :
  (forall m s, zread now (kv l !! key) !! m = Some s -> 0 <= s <= now) ->
  1 <= weight ->
  weight <= get_remaining prefix now channel connection l ->
  fst (acquire prefix now channel connection weight l) = true.
Proof.
  intros Hscores Hw Hrem. rewrite acquire_granted_iff. apply negb_true_iff.
  rewrite Z.gtb_ltb. apply Z.ltb_ge.
  unfold get_remaining, get_current_count in Hrem. unfold live_entries.
  pose proof (zcard_zremrangebyscore_le_zcount 0 (now - W) (now - W) now
                (zread now (kv l !! key))) as Hle.
  lapply Hle; [lia|]. intros m s Hm Hout. specialize (Hscores m s Hm). lia.
Qed.

(** Waiting for [get_retry_after] is enough. When a call of weight one is
    refused while the window holds no more than the limit, and no entry has
    a negative score, the time [get_retry_after] then reports is positive,
    and the same call made that much later is granted. *)
Theorem retry_after_is_enough (now : Z) (l l' : limiter) :
  acquire prefix now channel connection 1 l = (false, l') ->
  zcard (live now channel connection l) <= effective_limit config ->
  (forall m s, zread now (kv l !! key) !! m = Some s -> 0 <= s) ->
  0 < get_retry_after prefix now channel connection l'
  /\ fst (acquire prefix (now + get_retry_after prefix now channel connection l')
            channel connection 1 l') = true.
Proof.
  intros Hacq Hfull Hscores. pose proof W_positive as HW.
  pose proof (effective_limit_at_least_ten channel) as Hten.
  pose proof (acquire_granted_iff now 1 l) as Hno. rewrite Hacq in Hno. simpl in Hno.
  symmetry in Hno. apply negb_false_iff in Hno. rewrite Z.gtb_ltb in Hno.
  apply Z.ltb_lt in Hno.
  pose proof (acquire_denied_key _ _ _ _ Hacq) as Hkey.
  set (z := live now channel connection l) in *.
  assert (zread now (kv l' !! key) = z) as Hread
    by (rewrite Hkey; apply zread_ZREMRANGEBYSCORE).
  assert (forall m s, z !! m = Some s -> now - W < s) as Hrecent.
  { intros m s Hm. apply zremrangebyscore_lookup in Hm as [Hm Hout].
    specialize (Hscores m s Hm). lia. }
  unfold get_retry_after. rewrite Hread.
  destruct (zrange_first_score z) as [oldest|] eqn:Hold.
  2:{ apply zrange_first_score_None in Hold. rewrite Hold in Hno.
      unfold zcard in Hno. rewrite map_size_empty in Hno. lia. }
  apply zrange_first_score_Some in Hold as [[m Hm] Hmin].
  pose proof (Hrecent m oldest Hm) as Hm'.
  rewrite Z.max_r by lia. split; [lia|].
  rewrite acquire_granted_iff. apply negb_true_iff. rewrite Z.gtb_ltb. apply Z.ltb_ge.
  unfold live_entries.
  assert (zread (now + (oldest + W - now)) (kv l' !! key) = z
          \/ zread (now + (oldest + W - now)) (kv l' !! key) = ∅) as Hcases.
  { destruct (kv l' !! key) as [zk|]; [|by right].
    unfold zread in *. destruct (alive now zk).
    - rewrite Hread. destruct (alive _ zk); [by left|by right].
    - rewrite <- Hread in Hm. by rewrite lookup_empty in Hm. }
  destruct Hcases as [-> | ->].
  - assert (zcard (zremrangebyscore 0 (now + (oldest + W - now) - W) z) < zcard z); [|lia].
    apply (zcard_zremrangebyscore_lt _ _ _ m oldest Hm).
    apply zremrangebyscore_lookup in Hm as [Hm _]. specialize (Hscores m oldest Hm). lia.
  - unfold zremrangebyscore. rewrite map_filter_empty. unfold zcard.
    rewrite map_size_empty. lia.
Qed.

(** A call heavier than the limit is refused whatever the store holds and
    whenever it is made: [acquire_or_raise] raises, naming [max_requests] as
    the limit (the call was measured against the burst limit), a retry time
    that is never negative, and the entries counted at [now] stay as they
    were. *)
Theorem oversized_call_is_always_refused (now after later weight : Z) (l : limiter) :
  effective_limit config < weight ->
  exists current_count retry_after,
    fst (acquire_or_raise prefix now after later channel connection weight l)
    = RateLimitExceeded channel current_count (max_requests config) retry_after
    /\ 0 <= retry_after
    /\ live now channel connection
         (snd (acquire_or_raise prefix now after later channel connection weight l))
       = live now channel connection l.
Proof.
  intros Hheavy. unfold acquire_or_raise.
  pose proof (acquire_granted_iff now weight l) as Hno.
  destruct (acquire prefix now channel connection weight l) as [ok l1] eqn:Hacq.
  simpl in Hno. pose proof (zcard_nonneg (live now channel connection l)) as Hcount.
  assert (ok = false) as ->.
  { rewrite Hno. apply negb_false_iff. rewrite Z.gtb_ltb. apply Z.ltb_lt. lia. }
  eexists _, _. simpl. split; [done|]. split.
  - unfold get_retry_after. destruct (zrange_first_score _); lia.
  - by apply (acquire_denied_keeps_live_entries _ _ _ _ weight).
Qed.

(** [reset] empties the window of the connection: at any instant nothing is
    counted, nothing is to be waited for, the whole limit remains, and a
    call of any weight up to the limit is granted. *)
Theorem reset_empties_the_window (now weight : Z) (l : limiter) :
  get_current_count prefix now channel connection (reset prefix channel connection l) = 0
  /\ get_retry_after prefix now channel connection (reset prefix channel connection l) = 0
  /\ get_remaining prefix now channel connection (reset prefix channel connection l)
     = effective_limit config
  /\ (weight <= effective_limit config ->
      fst (acquire prefix now channel connection weight (reset prefix channel connection l))
      = true).
Proof.
  pose proof (effective_limit_at_least_ten channel) as Hten.
  assert (zread now (kv (reset prefix channel connection l) !! key) = (∅ : gmap member Z))
    as Hread by (unfold reset; simpl; by rewrite lookup_delete_eq).
  assert (get_current_count prefix now channel connection (reset prefix channel connection l) = 0)
    as Hcount.
  { unfold get_current_count. rewrite Hread. unfold zcount.
    by rewrite map_filter_empty, map_size_empty. }
  repeat split.
  - done.
  - unfold get_retry_after. by rewrite Hread.
  - unfold get_remaining. rewrite Hcount. lia.
  - intros Hw. rewrite acquire_granted_iff. unfold live_entries. rewrite Hread.
    unfold zremrangebyscore. rewrite map_filter_empty. unfold zcard.
    rewrite map_size_empty. apply negb_true_iff. rewrite Z.gtb_ltb. apply Z.ltb_ge. lia.
Qed.
End one_connection.

(** Fourteen calls of weight one, ten microseconds apart, on a fresh key of
    Airbnb (ten calls a second, bursts of fifteen): the fifteenth is granted
    and fills the window. *)
Definition fourteen_calls : list (Z * Z) :=
  map (fun i => (t0 + 10 * Z.of_nat i, 1)) (seq 0 14).

Lemma granted_calls_fit_the_window_witness :
  fst (acquire "rate_limit" (t0 + 140) "airbnb" "conn-1" 1
         (snd (acquire_each "rate_limit" "airbnb" "conn-1" fourteen_calls empty_limiter)))
  = true
  /\ Z.of_nat (length (List.filter
                         (fun g : Z * Z =>
                            t0 + 140 - seconds (window_seconds (_get_config "airbnb")) <? g.1)
                         (fst (acquire_each "rate_limit" "airbnb" "conn-1" fourteen_calls
                                 empty_limiter))))
     + 1
     <= effective_limit (_get_config "airbnb").
Proof.
  split; [vm_compute; reflexivity|].
  apply (granted_calls_fit_the_window "rate_limit" "airbnb" "conn-1" fourteen_calls
           (t0 + 140) 1 (t0 - 1) empty_limiter); vm_compute; reflexivity.
Defined.

(** Three calls were granted; twelve of the fifteen remain, and a call of
    weight twelve is granted. *)
Definition three_granted : limiter :=
  snd (acquire_many 3 t0 10 1 empty_limiter).

Lemma three_granted_scores :
  forall (m : Z * Z) (s : Z),
    zread (t0 + 100) (kv three_granted !! _get_rate_limit_key "rate_limit" "airbnb" "conn-1")
    !! m = Some s ->
    0 <= s <= t0 + 100.
Proof.
  apply (bool_decide_unpack (map_Forall (fun (_ : Z * Z) (s : Z) => 0 <= s <= t0 + 100) _)).
  vm_compute. exact I.
Qed.

Lemma remaining_quota_is_granted_witness :
  get_remaining "rate_limit" (t0 + 100) "airbnb" "conn-1" three_granted = 12
  /\ fst (acquire "rate_limit" (t0 + 100) "airbnb" "conn-1" 12 three_granted) = true.
Proof.
  split; [vm_compute; reflexivity|].
  apply (remaining_quota_is_granted "rate_limit" "airbnb" "conn-1" (t0 + 100) 12
           three_granted).
  - apply three_granted_scores.
  - lia.
  - vm_compute. discriminate.
Defined.

(** Fifteen calls fill the window; the call made 200 microseconds after the
    first is refused, [get_retry_after] then reports the 999800 that remain
    of the first entry's second, and the call made that much later is
    granted. *)
Definition full_window : limiter :=
  snd (acquire_many 15 t0 10 1 empty_limiter).

Lemma full_window_scores :
  forall (m : Z * Z) (s : Z),
    zread (t0 + 200) (kv full_window !! _get_rate_limit_key "rate_limit" "airbnb" "conn-1")
    !! m = Some s ->
    0 <= s.
Proof.
  apply (bool_decide_unpack (map_Forall (fun (_ : Z * Z) (s : Z) => 0 <= s) _)).
  vm_compute. exact I.
Qed.

Lemma retry_after_is_enough_witness :
  fst (acquire "rate_limit" (t0 + 200) "airbnb" "conn-1" 1 full_window) = false
  /\ get_retry_after "rate_limit" (t0 + 200) "airbnb" "conn-1"
       (snd (acquire "rate_limit" (t0 + 200) "airbnb" "conn-1" 1 full_window))
     = 999800
  /\ 0 < get_retry_after "rate_limit" (t0 + 200) "airbnb" "conn-1"
           (snd (acquire "rate_limit" (t0 + 200) "airbnb" "conn-1" 1 full_window))
  /\ fst (acquire "rate_limit"
            (t0 + 200
             + get_retry_after "rate_limit" (t0 + 200) "airbnb" "conn-1"
                 (snd (acquire "rate_limit" (t0 + 200) "airbnb" "conn-1" 1 full_window)))
            "airbnb" "conn-1" 1
            (snd (acquire "rate_limit" (t0 + 200) "airbnb" "conn-1" 1 full_window)))
     = true.
Proof.
  split; [vm_compute; reflexivity|]. split; [vm_compute; reflexivity|].
  apply (retry_after_is_enough "rate_limit" "airbnb" "conn-1" (t0 + 200) full_window
           (snd (acquire "rate_limit" (t0 + 200) "airbnb" "conn-1" 1 full_window))).
  - vm_compute. reflexivity.
  - vm_compute. discriminate.
  - apply full_window_scores.
Defined.

(** A call of weight sixteen on Airbnb, whose burst limit is fifteen. *)
Lemma oversized_call_is_always_refused_witness :
  exists current_count retry_after,
    fst (acquire_or_raise "rate_limit" (t0 + 100) (t0 + 101) (t0 + 102) "airbnb" "conn-1" 16
           three_granted)
    = RateLimitExceeded "airbnb" current_count (max_requests (_get_config "airbnb"))
        retry_after
    /\ 0 <= retry_after
    /\ live_entries "rate_limit" (t0 + 100) "airbnb" "conn-1"
         (snd (acquire_or_raise "rate_limit" (t0 + 100) (t0 + 101) (t0 + 102) "airbnb"
                 "conn-1" 16 three_granted))
       = live_entries "rate_limit" (t0 + 100) "airbnb" "conn-1" three_granted.
Proof.
  apply (oversized_call_is_always_refused "rate_limit" "airbnb" "conn-1" (t0 + 100)
           (t0 + 101) (t0 + 102) 16 three_granted).
  vm_compute. reflexivity.
Defined.

(** As the exception words it: three of ten requests, though the call was
    measured against fifteen. *)
Example oversized_call_in_figures :
  fst (acquire_or_raise "rate_limit" (t0 + 100) (t0 + 101) (t0 + 102) "airbnb" "conn-1" 16
         three_granted)
  = RateLimitExceeded "airbnb" 3 10 999898.
Proof. vm_compute. reflexivity. Qed.

End RateLimiterFacts.

(** ** The circuit breaker *)

Module CircuitBreakerFacts.
Import Redis RedisFacts CircuitBreaker.


Section breaker.
Variable config : CircuitBreakerConfig.


Lemma path_one ch :
  path (stored_state (before ch)) [ch] (stored_state (after ch)).
Proof. constructor; [done|constructor]. Qed.









(** An edge never leads from closed to half-open, from open to closed, or
    from a state to itself. *)
Lemma edge_endpoints ch :
  edge config ch ->
  (stored_state (before ch), stored_state (after ch))
  ∈ [(CLOSED, OPEN); (OPEN, HALF_OPEN); (HALF_OPEN, CLOSED); (HALF_OPEN, OPEN)].
Proof.
  destruct 1 as [ch e Hb Ha|ch o Hb Ha|ch n Hb Ha|ch e Hb Ha]; rewrite Hb, Ha;
    set_solver.
Qed.
End breaker.

(** The scenario of the specification for [booking_com]: five failures
    within the window open the circuit, the sixth call is refused, after
    120 seconds the next call is let through half-open, and two successes
    close the circuit again. *)
Definition circuit_trips : list (Z * call) :=
  [ (seconds 1, RecordFailure None); (seconds 2, RecordFailure None);
    (seconds 3, RecordFailure None); (seconds 4, RecordFailure None);
    (seconds 5, RecordFailure None); (seconds 6, CanExecute);
    (seconds 126, CanExecute); (seconds 127, RecordSuccess);
    (seconds 128, RecordSuccess) ].

Example circuit_trips_and_recovers :
  let '(k, log) := run (config_for "booking_com") circuit_trips no_keys in
  stored_state k = CLOSED
  /\ map (fun ch => (at_time ch, stored_state (before ch), stored_state (after ch))) log
     = [ (seconds 5, CLOSED, OPEN); (seconds 126, OPEN, HALF_OPEN);
         (seconds 128, HALF_OPEN, CLOSED) ].
Proof. vm_compute. split; reflexivity. Qed.

Example sixth_call_is_refused :
  let '(k, _) := run (config_for "booking_com") (firstn 5 circuit_trips) no_keys in
  fst (fst (can_execute (config_for "booking_com") (seconds 6) k)) = false
  /\ fst (fst (can_execute (config_for "booking_com") (seconds 126) k)) = true.
Proof. vm_compute. split; reflexivity. Qed.

(** One call can write the state twice: with a success threshold of one, a
    success recorded after the timeout leads from open through half-open to
    closed, along two edges. *)
Example one_call_two_edges :
  let config := with_thresholds 5 1 60 in
  let opened := _transition_to (seconds 10) OPEN no_keys in
  let '(k, log) := record_success config (seconds 100) opened in
  stored_state opened = OPEN
  /\ stored_state k = CLOSED
  /\ map (fun ch => (stored_state (before ch), stored_state (after ch))) log
     = [ (OPEN, HALF_OPEN); (HALF_OPEN, CLOSED) ].
Proof. vm_compute. repeat split; reflexivity. Qed.

(** With a success threshold of at least two, as in every configured
    channel, a call leaves the state where it was or moves it along one
    edge. *)
Lemma exec_moves_along_one_edge config now c k :
  2 <= success_threshold config ->
  stored_state (fst (exec config now c k)) = stored_state k
  \/ (stored_state k, stored_state (fst (exec config now c k)))
     ∈ [(CLOSED, OPEN); (OPEN, HALF_OPEN); (HALF_OPEN, CLOSED); (HALF_OPEN, OPEN)].
Proof.
  intros Hs.
  destruct c; unfold exec, can_execute, before_execute, record_success, record_failure,
    get_state, transition, stored_state, failure_pipeline;
    repeat (case_match; simplify_eq; simpl in *; try lia);
    try (by left); try (right; set_solver).
Qed.


(** *** [execute], the half-open state and the operator's calls *)

Section operations.
Variable config : CircuitBreakerConfig.

Definition with_half_open_calls (calls : Z) (k : keys) : keys :=
  {| state_key := state_key k; failures_key := failures_key k;
     successes_key := successes_key k; opened_at_key := opened_at_key k;
     half_open_calls_key := Some calls |}.

Lemma get_state_half_open now c k :
  state_key k = Some HALF_OPEN -> get_state config now c k = (HALF_OPEN, k, []).
Proof. unfold get_state. by intros ->. Qed.

(** Half-open with its calls used up: nothing is let through, and nothing
    is written. *)
Lemma before_execute_used_up now k :
  state_key k = Some HALF_OPEN ->
  half_open_max_calls config <= int_or_0 (half_open_calls_key k) ->
  before_execute config now k = (CircuitBreakerHalfOpen, k, []).
Proof.
  intros Hs Hfull. unfold before_execute. rewrite (get_state_half_open _ _ _ Hs).
  by destruct (Z.geb_spec (int_or_0 (half_open_calls_key k)) (half_open_max_calls config));
    [|lia].
Qed.

Lemma can_execute_used_up now k :
  state_key k = Some HALF_OPEN ->
  half_open_max_calls config <= int_or_0 (half_open_calls_key k) ->
  can_execute config now k = (false, k, []).
Proof.
  intros Hs Hfull. unfold can_execute. rewrite (get_state_half_open _ _ _ Hs).
  by destruct (Z.geb_spec (int_or_0 (half_open_calls_key k)) (half_open_max_calls config));
    [|lia].
Qed.

Lemma can_execute_room now k :
  state_key k = Some HALF_OPEN ->
  int_or_0 (half_open_calls_key k) < half_open_max_calls config ->
  can_execute config now k
  = (true, with_half_open_calls (int_or_0 (half_open_calls_key k) + 1) k, []).
Proof.
  intros Hs Hroom. unfold can_execute. rewrite (get_state_half_open _ _ _ Hs).
  destruct (Z.geb_spec (int_or_0 (half_open_calls_key k)) (half_open_max_calls config));
    [lia|].
  unfold with_half_open_calls. by destruct (half_open_calls_key k).
Qed.

Lemma execute_each_used_up calls k :
  state_key k = Some HALF_OPEN ->
  half_open_max_calls config <= int_or_0 (half_open_calls_key k) ->
  execute_each config calls k
  = (repeat (refused CircuitBreakerHalfOpen) (length calls), k).
Proof.
  intros Hs Hfull. induction calls as [|[[now after] func] rest IH]; simpl; [done|].
  unfold execute. rewrite (before_execute_used_up _ _ Hs Hfull). by rewrite IH.
Qed.

(** A call let through in the half-open state whose function raises an
    excluded exception uses one of the calls and leaves everything else. *)
Lemma execute_excluded now after name k :
  state_key k = Some HALF_OPEN ->
  int_or_0 (half_open_calls_key k) < half_open_max_calls config ->
  is_excluded config (Some name) = true ->
  execute config now after (func_raises name) k
  = (reraised name, with_half_open_calls (int_or_0 (half_open_calls_key k) + 1) k, []).
Proof.
  intros Hs Hroom Hex. unfold execute, before_execute.
  rewrite (get_state_half_open _ _ _ Hs).
  destruct (Z.geb_spec (int_or_0 (half_open_calls_key k)) (half_open_max_calls config));
    [lia|].
  unfold record_failure. rewrite Hex. unfold with_half_open_calls.
  by destruct (half_open_calls_key k).
Qed.

(** The half-open state has no way out for calls that are not let through.
    Once the calls it allows have been used by functions that raised an
    excluded exception, which counts neither as a success nor as a failure,
    every later [execute] is refused with [CircuitBreakerHalfOpen] whenever
    it is made and whatever its function would do, and the state stays
    half-open. *)
Theorem excluded_failures_use_up_the_half_open_calls (name : string)
    (probes : list (Z * Z)) (later : list (Z * Z * func_outcome)) (k : keys) :
  is_excluded config (Some name) = true ->
  state_key k = Some HALF_OPEN ->
  int_or_0 (half_open_calls_key k) + Z.of_nat (length probes) = half_open_max_calls config ->
  fst (execute_each config (map (fun t => (t.1, t.2, func_raises name)) probes ++ later) k)
  = repeat (reraised name) (length probes)
    ++ repeat (refused CircuitBreakerHalfOpen) (length later)
  /\ stored_state (snd (execute_each config
                          (map (fun t => (t.1, t.2, func_raises name)) probes ++ later) k))
     = HALF_OPEN.
Proof.
  intros Hex. revert k. induction probes as [|[now after] rest IH]; intros k Hs Hcalls.
  - simpl in *. rewrite execute_each_used_up by (done || lia). simpl.
    split; [done|]. unfold stored_state. by rewrite Hs.
  - cbn [map app execute_each length fst snd]. rewrite execute_excluded; [|done| |done].
    2:{ cbn [length] in Hcalls. lia. }
    specialize (IH (with_half_open_calls (int_or_0 (half_open_calls_key k) + 1) k) Hs).
    cbn [length] in Hcalls. lapply IH; [|simpl; lia]. clear IH.
    destruct (execute_each config _ _) as [rs k2]. simpl. intros [-> Hstate]. by split.
Qed.

(** In the half-open state [can_execute] lets through the calls that are
    left of [half_open_max_calls] and refuses every call after them, however
    long it is asked: the state stays half-open until a result is recorded. *)
Theorem can_execute_admits_what_is_left (instants : list Z) (k : keys) :
  state_key k = Some HALF_OPEN ->
  0 <= int_or_0 (half_open_calls_key k) ->
  let room := Z.to_nat (half_open_max_calls config - int_or_0 (half_open_calls_key k)) in
  fst (can_execute_each config instants k)
  = repeat true (Nat.min (length instants) room)
    ++ repeat false (length instants - room)
  /\ stored_state (snd (can_execute_each config instants k)) = HALF_OPEN.
Proof.
  revert k. induction instants as [|now rest IH]; intros k Hs Hc; cbn zeta.
  - simpl. split; [done|]. unfold stored_state. by rewrite Hs.
  - cbn [can_execute_each length].
    destruct (Z.le_gt_cases (half_open_max_calls config) (int_or_0 (half_open_calls_key k)))
      as [Hfull|Hroom].
    + rewrite (can_execute_used_up _ _ Hs Hfull).
      specialize (IH k Hs Hc). cbn zeta in IH.
      destruct (can_execute_each config rest k) as [oks k2]. cbn [fst snd] in *.
      destruct IH as [-> Hst]. split; [|done].
      replace (Z.to_nat (half_open_max_calls config - int_or_0 (half_open_calls_key k)))
        with 0%nat by lia.
      by rewrite !Nat.min_0_r, !Nat.sub_0_r.
    + rewrite (can_execute_room _ _ Hs Hroom).
      specialize (IH (with_half_open_calls (int_or_0 (half_open_calls_key k) + 1) k) Hs).
      cbn [with_half_open_calls half_open_calls_key int_or_0] in IH.
      specialize (IH ltac:(lia)). cbn zeta in IH.
      destruct (can_execute_each config rest _) as [oks k2]. cbn [fst snd] in *.
      destruct IH as [-> Hst]. split; [|done].
      replace (Z.to_nat (half_open_max_calls config - int_or_0 (half_open_calls_key k)))
        with (S (Z.to_nat (half_open_max_calls config
                           - (int_or_0 (half_open_calls_key k) + 1)))) by lia.
      done.
Qed.

(** [force_open] with a duration keeps the circuit open for that long,
    counted from its second reading of the clock, whatever the timeout of
    the channel: until then [before_execute] raises [CircuitBreakerOpen]
    with what is left of the duration, from then on the state read is
    half-open. *)
Theorem force_open_lasts_for_its_duration (now after duration t : Z) (c : call) (k : keys) :
  duration <> 0 ->
  fst (fst (get_state config t c (force_open config now after (Some duration) k)))
  = (if t - after <? seconds duration then OPEN else HALF_OPEN)
  /\ (t - after < seconds duration ->
      before_execute config t (force_open config now after (Some duration) k)
      = (CircuitBreakerOpen (seconds duration - (t - after)),
         force_open config now after (Some duration) k, [])).
Proof.
  intros Hd. apply Z.eqb_neq in Hd. unfold force_open. rewrite Hd.
  unfold before_execute, get_state. cbn [state_key opened_at_key _transition_to].
  split.
  - destruct (Z.geb_spec (t - (after - seconds (timeout config) + seconds duration))
                (seconds (timeout config)));
      destruct (Z.ltb_spec (t - after) (seconds duration)); done || lia.
  - intros Hlt.
    destruct (Z.geb_spec (t - (after - seconds (timeout config) + seconds duration))
                (seconds (timeout config))); [lia|].
    cbn [int_or_0 opened_at_key]. do 2 f_equal. f_equal. lia.
Qed.

(** An open circuit whose [opened_at] key is missing never recovers through
    the calls of its users: whatever is called and whenever, no key is
    written and the state stays open. Only [reset], [force_open] and
    [force_close] lead out of it. *)
Theorem open_without_opened_at_stays_open (calls : list (Z * call)) (k : keys) :
  state_key k = Some OPEN ->
  opened_at_key k = None ->
  run config calls k = (k, []).
Proof.
  intros Hs Ho. induction calls as [|[now c] rest IH]; simpl; [done|].
  assert (forall c', get_state config now c' k = (OPEN, k, [])) as Hget
    by (intros c'; unfold get_state; by rewrite Hs, Ho).
  assert (exec config now c k = (k, [])) as ->.
  { destruct c as [| | | |e]; simpl.
    - by rewrite Hget.
    - unfold can_execute. by rewrite Hget.
    - unfold before_execute. by rewrite Hget.
    - unfold record_success. by rewrite Hget.
    - unfold record_failure. destruct (is_excluded config e); [done|]. by rewrite Hget. }
  by rewrite IH.
Qed.

(** [get_status] foretells what a call made at the same instant meets:
    where it reports the state closed, [before_execute] lets the call
    through; where it reports open with a time to wait, [before_execute]
    raises [CircuitBreakerOpen] with that time; where it reports half-open,
    [before_execute] lets the call through while calls remain and raises
    [CircuitBreakerHalfOpen] when none does. *)
Theorem status_foretells_admission (now : Z) (k : keys) :
  match fst (get_status config now k) with
  | (CLOSED, closed_detail _) =>
      fst (fst (before_execute config now k)) = Proceed
  | (OPEN, open_detail _ _ retry_after) =>
      fst (fst (before_execute config now k)) = CircuitBreakerOpen retry_after
  | (HALF_OPEN, half_open_detail _ _ remaining_calls) =>
      fst (fst (before_execute config now k))
      = (if 0 <? remaining_calls then Proceed else CircuitBreakerHalfOpen)
  | _ => False
  end.
Proof.
  unfold get_status, before_execute, get_state.
  destruct (state_key k) as [[]|]; simpl; try done.
  - destruct (opened_at_key k) as [opened_at|]; simpl; [|done].
    destruct (now - opened_at >=? seconds (timeout config)); simpl; [|done].
    destruct (Z.geb_spec 0 (half_open_max_calls config));
      destruct (Z.ltb_spec 0 (half_open_max_calls config - 0)); done || lia.
  - destruct (Z.geb_spec (int_or_0 (half_open_calls_key k)) (half_open_max_calls config));
      destruct (Z.ltb_spec 0 (half_open_max_calls config
                              - int_or_0 (half_open_calls_key k))); done || lia.
Qed.

(** *** The failures that open the circuit *)

Lemma increasing_last_ge (t : Z) (rest : list Z) :
  increasing t rest = true -> t <= List.last rest t.
Proof.
  revert t. induction rest as [|t' rest IH]; intros t; [simpl; lia|].
  cbn [increasing]. intros Hinc. apply andb_prop in Hinc as [Ht Hinc].
  apply Z.ltb_lt in Ht. specialize (IH t' Hinc). rewrite last_cons_default. lia.
Qed.

(** A closed circuit that has counted [n] failures, the first at [first]
    and the last at [last]. *)
Definition counted (first last : Z) (n : nat) (k : keys) : Prop :=
  stored_state k = CLOSED
  /\ exists zk,
       failures_key k = Some zk
       /\ size (zmembers zk) = n
       /\ zexpire_at zk = Some (last + seconds (window_size config * 2))
       /\ forall m s, zmembers zk !! m = Some s -> m = s /\ first <= s <= last.

Lemma get_state_closed now c k :
  stored_state k = CLOSED -> get_state config now c k = (CLOSED, k, []).
Proof.
  unfold stored_state, get_state. destruct (state_key k) as [[]|]; done.
Qed.

(** The pipeline of [record_failure] in terms of what it reads. *)
Lemma failure_pipeline_reads now (f : option (zkey Z)) :
  failure_pipeline config now f
  = (zcard (zadd now now
              (zremrangebyscore 0 (now - seconds (window_size config)) (zread now f))),
     Some (ZKey (zadd now now
                   (zremrangebyscore 0 (now - seconds (window_size config)) (zread now f)))
                (Some (now + seconds (window_size config * 2))))).
Proof.
  unfold failure_pipeline, ZCARD.
  by rewrite EXPIRE_ZADD, zread_ZADD, zread_ZREMRANGEBYSCORE.
Qed.

Lemma stored_state_failures k f :
  stored_state {| state_key := state_key k; failures_key := f;
                  successes_key := successes_key k; opened_at_key := opened_at_key k;
                  half_open_calls_key := half_open_calls_key k |}
  = stored_state k.
Proof. done. Qed.

(** The first failure of a closed circuit with no failure on record. *)
Lemma first_failure now e k :
  is_excluded config e = false ->
  stored_state k = CLOSED ->
  failures_key k = None ->
  if 1 <? failure_threshold config
  then counted now now 1 (fst (record_failure config now e k))
  else stored_state (fst (record_failure config now e k)) = OPEN.
Proof.
  intros Hex Hs Hf. unfold record_failure.
  rewrite Hex, (get_state_closed _ _ _ Hs), Hf, failure_pipeline_reads.
  cbn [zread]. unfold zremrangebyscore. rewrite map_filter_empty.
  unfold zcard, zadd. rewrite map_size_insert_None by apply lookup_empty.
  rewrite map_size_empty. change (Z.of_nat 1) with 1.
  rewrite Z.geb_leb. destruct (Z.ltb_spec 1 (failure_threshold config)) as [Hlt|Hge].
  - destruct (Z.leb_spec (failure_threshold config) 1); [lia|]. cbn [fst].
    split; [by rewrite stored_state_failures|].
    eexists. cbn [failures_key]. split; [done|]. cbn [zmembers zexpire_at].
    split; [by rewrite map_size_insert_None, map_size_empty by apply lookup_empty|].
    split; [done|]. intros m s Hm. apply lookup_insert_Some in Hm as [[<- <-]|[_ Hm]]; [lia|].
    by rewrite lookup_empty in Hm.
  - destruct (Z.leb_spec (failure_threshold config) 1); [|lia]. done.
Qed.

(** One more failure within the window of the first. *)
Lemma next_failure first last n now e k :
  0 < window_size config ->
  is_excluded config e = false ->
  counted first last n k -> n <> 0%nat ->
  last < now -> now - first < seconds (window_size config) ->
  if Z.of_nat (S n) <? failure_threshold config
  then counted first now (S n) (fst (record_failure config now e k))
  else stored_state (fst (record_failure config now e k)) = OPEN.
Proof.
  intros Hw Hex (Hs & zk & Hf & Hsize & Hexp & Hmem) Hn Hlast Hwin.
  assert (0 < seconds (window_size config)) as HW by (unfold seconds; lia).
  assert (seconds (window_size config * 2) = 2 * seconds (window_size config)) as H2
    by (unfold seconds; lia).
  assert (zmembers zk <> ∅) as Hne.
  { intros Hempty. rewrite Hempty, map_size_empty in Hsize. by apply Hn. }
  destruct (map_choose _ Hne) as (m0 & s0 & Hm0). destruct (Hmem _ _ Hm0) as [_ Hs0].
  assert (zmembers zk !! now = None) as Hfresh.
  { destruct (zmembers zk !! now) as [s|] eqn:Hnow; [|done].
    destruct (Hmem _ _ Hnow) as [<- ?]. lia. }
  assert (zremrangebyscore 0 (now - seconds (window_size config)) (zread now (Some zk))
          = zmembers zk) as Hread.
  { rewrite zread_alive by (intros t Ht; rewrite Hexp in Ht; injection Ht as <-; lia).
    unfold zremrangebyscore. apply map_filter_id. intros m s Hm. simpl.
    destruct (Hmem _ _ Hm). lia. }
  unfold record_failure.
  rewrite Hex, (get_state_closed _ _ _ Hs), Hf, failure_pipeline_reads, Hread.
  unfold zcard, zadd. rewrite map_size_insert_None, Hsize by done.
  rewrite Z.geb_leb.
  destruct (Z.ltb_spec (Z.of_nat (S n)) (failure_threshold config)) as [Hlt|Hge].
  - destruct (Z.leb_spec (failure_threshold config) (Z.of_nat (S n))); [lia|]. cbn [fst].
    split; [by rewrite stored_state_failures|].
    eexists. cbn [failures_key]. split; [done|]. cbn [zmembers zexpire_at].
    split; [by rewrite map_size_insert_None, Hsize by done|].
    split; [done|]. intros m s Hm. apply lookup_insert_Some in Hm as [[<- <-]|[_ Hm]].
    + split; [done|]. lia.
    + destruct (Hmem _ _ Hm) as [-> ?]. split; [done|lia].
  - destruct (Z.leb_spec (failure_threshold config) (Z.of_nat (S n))); [|lia]. done.
Qed.

(** An open circuit is still open after a failure. *)
Lemma record_failure_keeps_open now e k :
  stored_state k = OPEN -> stored_state (fst (record_failure config now e k)) = OPEN.
Proof.
  intros Hs. unfold record_failure. destruct (is_excluded config e); [done|].
  unfold get_state, stored_state in *.
  destruct (state_key k) as [[]|] eqn:Hk; try done.
  destruct (opened_at_key k) as [opened_at|]; [|by simpl; rewrite Hk].
  destruct (_ >=? _); [done|]. simpl. by rewrite Hk.
Qed.

Lemma record_failures_keep_open instants e k :
  stored_state k = OPEN -> stored_state (record_failures config instants e k) = OPEN.
Proof.
  revert k. induction instants as [|now rest IH]; intros k Hs; [done|].
  apply IH. by apply record_failure_keeps_open.
Qed.

Lemma record_failures_counted first last n rest e k :
  0 < window_size config ->
  is_excluded config e = false ->
  counted first last n k -> n <> 0%nat ->
  Z.of_nat n < failure_threshold config ->
  increasing last rest = true ->
  List.last rest last - first < seconds (window_size config) ->
  stored_state (record_failures config rest e k)
  = (if Z.of_nat (n + length rest) <? failure_threshold config then CLOSED else OPEN).
Proof.
  intros Hw Hex. revert last n k.
  induction rest as [|now rest IH]; intros last n k Hc Hn Hbelow Hinc Hwin.
  - simpl. rewrite Nat.add_0_r. destruct Hc as [Hs _].
    unfold record_failures; simpl. rewrite Hs.
    by destruct (Z.ltb_spec (Z.of_nat n) (failure_threshold config)); [|lia].
  - cbn [increasing] in Hinc. apply andb_prop in Hinc as [Hlast Hinc].
    apply Z.ltb_lt in Hlast.
    rewrite last_cons_default in Hwin.
    pose proof (increasing_last_ge _ _ Hinc) as Hge.
    pose proof (next_failure first last n now e k Hw Hex Hc Hn Hlast ltac:(lia)) as Hnext.
    unfold record_failures. cbn [fold_left length].
    fold (record_failures config rest e (fst (record_failure config now e k))).
    replace (n + S (length rest))%nat with (S n + length rest)%nat by lia.
    destruct (Z.ltb_spec (Z.of_nat (S n)) (failure_threshold config)) as [Hlt|Hth].
    + by apply (IH now).
    + rewrite record_failures_keep_open by done.
      by destruct (Z.ltb_spec (Z.of_nat (S n + length rest)) (failure_threshold config));
        [lia|].
Qed.

(** A closed circuit with no failure on record opens at the failure that
    brings the failures of one window to [failure_threshold], and not
    before: after failures at instants that follow one another within one
    window, it is closed while they are fewer than the threshold and open
    once they reach it. *)
Theorem circuit_opens_at_the_threshold (first : Z) (rest : list Z) (e : error) (k : keys) :
  0 < window_size config ->
  is_excluded config e = false ->
  stored_state k = CLOSED ->
  failures_key k = None ->
  increasing first rest = true ->
  List.last rest first - first < seconds (window_size config) ->
  stored_state (record_failures config (first :: rest) e k)
  = (if Z.of_nat (length (first :: rest)) <? failure_threshold config then CLOSED else OPEN).
Proof.
  intros Hw Hex Hs Hf Hinc Hwin.
  pose proof (first_failure first e k Hex Hs Hf) as Hfirst.
  unfold record_failures. cbn [fold_left length].
  fold (record_failures config rest e (fst (record_failure config first e k))).
  destruct (Z.ltb_spec 1 (failure_threshold config)) as [Hlt|Hth].
  - by rewrite (record_failures_counted first first 1 rest e _ Hw Hex Hfirst).
  - rewrite record_failures_keep_open by done.
    by destruct (Z.ltb_spec (Z.of_nat (S (length rest))) (failure_threshold config)); [lia|].
Qed.
End operations.

(** A breaker that leaves validation errors out of its count, half-open
    with its three calls unused. *)
Definition sparing_config : CircuitBreakerConfig :=
  {| failure_threshold := 5; success_threshold := 2; timeout := 60;
     half_open_max_calls := 3; window_size := 60;
     excluded_exceptions := ["ValidationError"] |}.

Definition just_half_open : keys := _transition_to (seconds 70) HALF_OPEN no_keys.

Lemma excluded_failures_use_up_the_half_open_calls_witness :
  fst (execute_each sparing_config
         (map (fun t : Z * Z => (t.1, t.2, func_raises "ValidationError"))
            [(seconds 71, seconds 72); (seconds 73, seconds 74); (seconds 75, seconds 76)]
          ++ [(seconds 80, seconds 81, func_returns);
              (seconds 9000, seconds 9001, func_returns)])
         just_half_open)
  = repeat (reraised "ValidationError") 3 ++ repeat (refused CircuitBreakerHalfOpen) 2
  /\ stored_state
       (snd (execute_each sparing_config
               (map (fun t : Z * Z => (t.1, t.2, func_raises "ValidationError"))
                  [(seconds 71, seconds 72); (seconds 73, seconds 74);
                   (seconds 75, seconds 76)]
                ++ [(seconds 80, seconds 81, func_returns);
                    (seconds 9000, seconds 9001, func_returns)])
               just_half_open))
     = HALF_OPEN.
Proof.
  apply (excluded_failures_use_up_the_half_open_calls sparing_config "ValidationError"
           [(seconds 71, seconds 72); (seconds 73, seconds 74); (seconds 75, seconds 76)]
           [(seconds 80, seconds 81, func_returns);
            (seconds 9000, seconds 9001, func_returns)]
           just_half_open); vm_compute; reflexivity.
Defined.

Lemma can_execute_admits_what_is_left_witness :
  fst (can_execute_each (config_for "airbnb")
         [seconds 71; seconds 72; seconds 73; seconds 74; seconds 9000] just_half_open)
  = [true; true; true; false; false]
  /\ stored_state
       (snd (can_execute_each (config_for "airbnb")
               [seconds 71; seconds 72; seconds 73; seconds 74; seconds 9000]
               just_half_open))
     = HALF_OPEN.
Proof.
  apply (can_execute_admits_what_is_left (config_for "airbnb")
           [seconds 71; seconds 72; seconds 73; seconds 74; seconds 9000] just_half_open);
    vm_compute; [reflexivity|discriminate].
Defined.

(** Booking.com, whose timeout is 120 seconds, forced open for ten: after
    four seconds six are left to wait. *)
Lemma force_open_lasts_for_its_duration_witness :
  fst (fst (get_state (config_for "booking_com") (seconds 5) GetState
              (force_open (config_for "booking_com") 0 (seconds 1) (Some 10) no_keys)))
  = OPEN
  /\ (seconds 5 - seconds 1 < seconds 10 ->
      before_execute (config_for "booking_com") (seconds 5)
        (force_open (config_for "booking_com") 0 (seconds 1) (Some 10) no_keys)
      = (CircuitBreakerOpen (seconds 10 - (seconds 5 - seconds 1)),
         force_open (config_for "booking_com") 0 (seconds 1) (Some 10) no_keys, [])).
Proof.
  apply (force_open_lasts_for_its_duration (config_for "booking_com") 0 (seconds 1) 10
           (seconds 5) GetState no_keys).
  discriminate.
Defined.

(** The state key says open and the [opened_at] key has expired or was
    deleted. *)
Definition open_without_opened_at : keys :=
  {| state_key := Some OPEN; failures_key := None; successes_key := None;
     opened_at_key := None; half_open_calls_key := None |}.

Lemma open_without_opened_at_stays_open_witness :
  run (config_for "airbnb")
    [(seconds 1, CanExecute); (seconds 9000, BeforeExecute); (seconds 9001, RecordSuccess);
     (seconds 9002, RecordFailure None); (seconds 9003, GetState)]
    open_without_opened_at
  = (open_without_opened_at, []).
Proof.
  apply (open_without_opened_at_stays_open (config_for "airbnb")); reflexivity.
Defined.

(** Five failures a second apart open Airbnb's circuit; four do not. *)
Lemma circuit_opens_at_the_threshold_witness :
  stored_state
    (record_failures (config_for "airbnb")
       (seconds 1 :: [seconds 2; seconds 3; seconds 4; seconds 5])
       (Some "TimeoutError") no_keys)
  = OPEN.
Proof.
  apply (circuit_opens_at_the_threshold (config_for "airbnb") (seconds 1)
           [seconds 2; seconds 3; seconds 4; seconds 5] (Some "TimeoutError") no_keys);
    vm_compute; reflexivity.
Defined.

Lemma exec_moves_along_one_edge_witness :
  stored_state (fst (exec (config_for "expedia") (seconds 100) RecordSuccess
                       (_transition_to (seconds 10) OPEN no_keys)))
  = stored_state (_transition_to (seconds 10) OPEN no_keys)
  \/ (stored_state (_transition_to (seconds 10) OPEN no_keys),
      stored_state (fst (exec (config_for "expedia") (seconds 100) RecordSuccess
                           (_transition_to (seconds 10) OPEN no_keys))))
     ∈ [(CLOSED, OPEN); (OPEN, HALF_OPEN); (HALF_OPEN, CLOSED); (HALF_OPEN, OPEN)].
Proof.
  apply (exec_moves_along_one_edge (config_for "expedia") (seconds 100) RecordSuccess
           (_transition_to (seconds 10) OPEN no_keys)).
  vm_compute. discriminate.
Defined.

End CircuitBreakerFacts.

(** ** The sync engine: fan-out and polling *)

Module SyncEngineFacts.
Import SyncEngine.

Section fan_out.
Variable broker_accepts : task -> bool.

(** The connections [_handle_booking_confirmed_event] writes to: those of
    the property with [sync_enabled], status active, [sync_availability]
    and an outbound direction, but for the channel the booking came from. *)
Definition receives_update (event : PMSEvent) (conn : ChannelConnection) : bool :=
  String.eqb (property_id conn) (event_property_id event)
  && sync_enabled conn
  && String.eqb (status conn) "active"
  && sync_availability conn
  && (String.eqb (sync_direction conn) "bidirectional"
      || String.eqb (sync_direction conn) "outbound_only")
  && negb (is_source_channel (Py.dict_get "source" Py.JNull (payload event)) conn).

Definition expected_updates (event : PMSEvent) (table : list ChannelConnection)
    : list task :=
  match Py.assoc "check_in" (payload event), Py.assoc "check_out" (payload event) with
  | Some check_in, Some check_out =>
      List.filter broker_accepts
        (map (fun conn => update_channel_availability (id conn) check_in check_out false)
             (List.filter (receives_update event) table))
  | _, _ => []
  end.

Lemma confirmed_loop event connections acc :
  Forall (fun c => outbound_availability_filter (event_property_id event) c = true)
         connections ->
  fst (fold_left (fun a conn => confirmed_step broker_accepts event conn a) connections acc)
  = fst acc ++ expected_updates event connections.
Proof.
  revert acc. induction connections as [|conn rest IH]; intros [queue r] Hall.
  - unfold expected_updates; simpl.
    destruct (Py.assoc "check_in" (payload event)), (Py.assoc "check_out" (payload event)); simpl;
      by rewrite app_nil_r.
  - apply Forall_cons in Hall as [Hc Hrest].
    simpl fold_left. rewrite (IH _ Hrest). clear IH.
    unfold confirmed_step, expected_updates, receives_update.
    unfold outbound_availability_filter in Hc.
    simpl List.filter. rewrite Hc. simpl andb.
    destruct (is_source_channel _ conn);
      destruct (Py.assoc "check_in" (payload event)) as [ci|];
      destruct (Py.assoc "check_out" (payload event)) as [co|];
      simpl; try done.
    destruct (broker_accepts _); simpl; [|done].
    by rewrite <- app_assoc.
Qed.

Lemma filter_receives event table :
  List.filter (receives_update event)
    (List.filter (outbound_availability_filter (event_property_id event)) table)
  = List.filter (receives_update event) table.
Proof.
  induction table as [|conn rest IH]; simpl; [done|].
  destruct (outbound_availability_filter _ conn) eqn:Hf; simpl.
  - by rewrite IH.
  - rewrite IH. unfold receives_update.
    unfold outbound_availability_filter in Hf. by rewrite Hf.
Qed.

(** The tasks of the handler are the expected ones, in table order. *)
Lemma handler_enqueues_expected (table : list ChannelConnection) (event : PMSEvent) :
  fst (_handle_booking_confirmed_event broker_accepts table event)
  = expected_updates event table.
Proof.
  unfold _handle_booking_confirmed_event.
  rewrite confirmed_loop.
  - simpl. unfold expected_updates.
    destruct (Py.assoc "check_in" (payload event)), (Py.assoc "check_out" (payload event)); try done.
    by rewrite filter_receives.
  - apply List.Forall_forall. intros c Hc. by apply filter_In in Hc as [_ ?].
Qed.

(** No expected task goes to a connection of the source channel. *)
Lemma expected_updates_spare_the_source table event source t :
  Py.assoc "source" (payload event) = Some (Py.JStr source) ->
  source <> "" ->
  In t (expected_updates event table) ->
  exists conn check_in check_out,
    In conn table
    /\ t = update_channel_availability (id conn) check_in check_out false
    /\ channel_type conn <> source.
Proof.
  intros Hsrc Hne. unfold expected_updates.
  destruct (Py.assoc "check_in" (payload event)) as [ci|]; [|done].
  destruct (Py.assoc "check_out" (payload event)) as [co|]; [|done].
  intros Ht. apply filter_In in Ht as [Ht _].
  apply in_map_iff in Ht as (conn & <- & Hconn).
  apply filter_In in Hconn as [Hin Hsel].
  exists conn, ci, co. repeat split; [done|].
  intros Heq. unfold receives_update in Hsel.
  apply andb_prop in Hsel as [_ Hsel].
  unfold is_source_channel, Py.dict_get in Hsel. rewrite Hsrc in Hsel. simpl in Hsel.
  rewrite Heq, String.eqb_refl in Hsel.
  destruct (String.eqb source "") eqn:He; [|done].
  by apply String.eqb_eq in He.
Qed.

(** C8, as the handler does it. The tasks [_handle_booking_confirmed_event]
    enqueues are, in table order, one [update_channel_availability] for each
    connection of the event's property that has [sync_enabled] and
    [sync_availability] set, is active, has direction bidirectional or
    outbound_only, and whose channel is not the (non-empty) source of the
    event, as far as the broker takes them; an event without dates
    enqueues nothing. In particular no task goes to a connection of the
    channel the booking came from. *)
Theorem booking_confirmed_fan_out (table : list ChannelConnection) (event : PMSEvent) :
  fst (_handle_booking_confirmed_event broker_accepts table event)
  = expected_updates event table
  /\ forall source t,
       Py.assoc "source" (payload event) = Some (Py.JStr source) ->
       source <> "" ->
       In t (fst (_handle_booking_confirmed_event broker_accepts table event)) ->
       exists conn check_in check_out,
         In conn table
         /\ t = update_channel_availability (id conn) check_in check_out false
         /\ channel_type conn <> source.
Proof.
  split; [apply handler_enqueues_expected|].
  intros source t Hsrc Hne. rewrite handler_enqueues_expected.
  by apply expected_updates_spare_the_source.
Qed.
End fan_out.

(** The selection in the words of the specification: active connections of
    the property with [sync_availability] and an outbound direction, minus
    the connections of the source channel. *)
Definition stated_selection (event : PMSEvent) (conn : ChannelConnection) : bool :=
  String.eqb (property_id conn) (event_property_id event)
  && String.eqb (status conn) "active"
  && sync_availability conn
  && (String.eqb (sync_direction conn) "bidirectional"
      || String.eqb (sync_direction conn) "outbound_only")
  && negb (match Py.dict_get "source" Py.JNull (payload event) with
           | Py.JStr source => String.eqb (channel_type conn) source
           | _ => false
           end).

Definition connection_of (t : task) : option string :=
  match t with
  | update_channel_availability connection_id _ _ _ => Some connection_id
  | _ => None
  end.

Definition fan_out_as_stated (table : list ChannelConnection) (event : PMSEvent) : Prop :=
  omap connection_of (fst (_handle_booking_confirmed_event (fun _ => true) table event))
  = map id (List.filter (stated_selection event) table).

Definition paused_booking_com : ChannelConnection :=
  {| id := "conn-booking"; property_id := "villa"; channel_type := "booking_com";
     channel_property_id := "H-77"; sync_enabled := false; status := "active";
     sync_availability := true; sync_bookings := true; sync_direction := "bidirectional";
     last_sync_at := None |}.

Definition expedia_connection : ChannelConnection :=
  {| id := "conn-expedia"; property_id := "villa"; channel_type := "expedia";
     channel_property_id := "E-12"; sync_enabled := true; status := "active";
     sync_availability := true; sync_bookings := true; sync_direction := "outbound_only";
     last_sync_at := None |}.

Definition airbnb_connection : ChannelConnection :=
  {| id := "conn-airbnb"; property_id := "villa"; channel_type := "airbnb";
     channel_property_id := "L-1"; sync_enabled := true; status := "active";
     sync_availability := true; sync_bookings := true; sync_direction := "bidirectional";
     last_sync_at := None |}.

Definition confirmed_from_airbnb : PMSEvent :=
  {| event_type := "booking.confirmed"; event_tenant_id := "tenant-1";
     event_property_id := "villa";
     payload := [ ("booking_id", Py.JStr "booking-1"); ("source", Py.JStr "airbnb");
                  ("check_in", Py.JStr "2026-06-01"); ("check_out", Py.JStr "2026-06-05") ];
     timestamp := 1780000000000000 |}.

(** An active bidirectional connection with [sync_availability] whose
    [sync_enabled] flag is off is in the stated selection and gets no task. *)
Lemma fan_out_skips_disabled_connections :
  ~ fan_out_as_stated [airbnb_connection; paused_booking_com; expedia_connection]
      confirmed_from_airbnb.
Proof. unfold fan_out_as_stated. vm_compute. discriminate. Qed.

Example fan_out_excludes_the_source :
  fst (_handle_booking_confirmed_event (fun _ => true)
         [airbnb_connection; paused_booking_com; expedia_connection] confirmed_from_airbnb)
  = [ update_channel_availability "conn-expedia" (Py.JStr "2026-06-01")
        (Py.JStr "2026-06-05") false ].
Proof. vm_compute. reflexivity. Qed.

(** [_sync_to_other_channels] applies the same selection with the excluded
    channel in the query. *)
Lemma sync_to_other_channels_fan_out broker_accepts bookings table bid property exclude b :
  List.find (fun r => String.eqb (booking_id r) bid) bookings = Some b ->
  fst (_sync_to_other_channels broker_accepts bookings table bid property exclude)
  = List.filter broker_accepts
      (map (fun conn => update_channel_availability (id conn) (Py.JStr (check_in_iso b))
                          (Py.JStr (check_out_iso b)) false)
           (List.filter (fun conn => outbound_availability_filter property conn
                                     && negb (String.eqb (channel_type conn) exclude))
                        table)).
Proof.
  intros Hb. unfold _sync_to_other_channels. rewrite Hb.
  generalize (List.filter (fun conn => outbound_availability_filter property conn
                                       && negb (String.eqb (channel_type conn) exclude))
                          table).
  intros connections.
  assert (forall acc,
    fst (fold_left (fun a conn => other_channels_step broker_accepts (Some b) conn a)
                   connections acc)
    = fst acc ++ List.filter broker_accepts
        (map (fun conn => update_channel_availability (id conn) (Py.JStr (check_in_iso b))
                            (Py.JStr (check_out_iso b)) false) connections)) as Hloop.
  { induction connections as [|conn rest IH]; intros [queue r]; simpl.
    - by rewrite app_nil_r.
    - destruct (broker_accepts _); rewrite IH; simpl; [|done].
      by rewrite <- app_assoc. }
  by rewrite Hloop.
Qed.

(** *** Polling *)

Lemma poll_failed_retries now w channel :
  fst (poll_failed now w channel) = poll_retry
  /\ queue (snd (poll_failed now w channel)) = queue w
  /\ connections (snd (poll_failed now w channel)) = connections w.
Proof. unfold poll_failed. by destruct (CircuitBreaker.record_failure _ _ _ _). Qed.

(** The loop over the polled bookings raises at the first of them. *)
Lemma queue_imports_raises broker_accepts conn connection_id booking rest imported q :
  queue_imports broker_accepts conn connection_id (booking :: rest) imported q
  = (inr tt, q).
Proof. reflexivity. Qed.

(** C9, as the poller does it. When the adapter returns one booking or
    more, the poll enqueues no import at all: the adapters return instances
    of the dataclass [PlatformBooking], the loop subscripts the first of
    them, and the [TypeError] sends the task to its [except] branch. The
    queue and the connections are as before the poll ([last_sync_at] is not
    set), and the outcome is a retry, unless the connection is unknown or
    the circuit is open, where the adapter is not called at all. *)
Theorem polled_bookings_are_never_imported (broker_accepts : task -> bool) (now : Z)
    (connection_id : string) (booking : BaseAdapter.PlatformBooking)
    (rest : list BaseAdapter.PlatformBooking) (w : world) :
  queue (snd (_poll_single_channel broker_accepts now connection_id
                (Some (booking :: rest)) w))
  = queue w
  /\ connections (snd (_poll_single_channel broker_accepts now connection_id
                         (Some (booking :: rest)) w))
     = connections w
  /\ (fst (_poll_single_channel broker_accepts now connection_id
             (Some (booking :: rest)) w)
      = poll_retry
      \/ fst (_poll_single_channel broker_accepts now connection_id
                (Some (booking :: rest)) w)
         = poll_skipped "circuit_breaker_open"
      \/ fst (_poll_single_channel broker_accepts now connection_id
                (Some (booking :: rest)) w)
         = poll_error "Connection not found").
Proof.
  unfold _poll_single_channel.
  destruct (List.find _ (connections w)) as [conn|]; [|by repeat split; right; right].
  destruct (RateLimiter.acquire _ _ _ _ _ _) as [acquired lim].
  destruct acquired; simpl negb; cbv iota.
  2:{ match goal with |- context [poll_failed ?n ?x ?c] =>
        destruct (poll_failed_retries n x c) as (-> & -> & ->) end.
      repeat split. by left. }
  destruct (CircuitBreaker.can_execute _ _ _) as [[admitted k] log].
  destruct admitted; simpl negb; cbv iota; [|by repeat split; right; left].
  destruct (known_adapter (channel_type conn)); simpl negb; cbv iota.
  2:{ match goal with |- context [poll_failed ?n ?x ?c] =>
        destruct (poll_failed_retries n x c) as (-> & -> & ->) end.
      repeat split. by left. }
  destruct (CircuitBreaker.record_success _ _ _) as [k' log'].
  rewrite queue_imports_raises.
  match goal with |- context [poll_failed ?n ?x ?c] =>
    destruct (poll_failed_retries n x c) as (-> & -> & ->) end.
  repeat split. by left.
Qed.

(** A poll succeeds only when the adapter has no booking to return. *)
Lemma successful_poll_found_nothing broker_accepts now connection_id get_bookings w
    bookings_found queued_for_import w' :
  _poll_single_channel broker_accepts now connection_id get_bookings w
  = (poll_success bookings_found queued_for_import, w') ->
  get_bookings = Some [] /\ bookings_found = 0 /\ queued_for_import = 0
  /\ queue w' = queue w.
Proof.
  assert (forall x c r, poll_failed now x c
                        <> (poll_success bookings_found queued_for_import, r)) as Hfailed.
  { intros x c r Hp. destruct (poll_failed_retries now x c) as (Hr & _).
    rewrite Hp in Hr. discriminate. }
  unfold _poll_single_channel.
  destruct (List.find _ (connections w)) as [conn|]; [|discriminate].
  destruct (RateLimiter.acquire _ _ _ _ _ _) as [acquired lim].
  destruct acquired; simpl negb; cbv iota; [|by intros ?%Hfailed].
  destruct (CircuitBreaker.can_execute _ _ _) as [[admitted k] log].
  destruct admitted; simpl negb; cbv iota; [|discriminate].
  destruct (known_adapter (channel_type conn)); simpl negb; cbv iota;
    [|by intros ?%Hfailed].
  destruct get_bookings as [[|booking rest]|]; [| |by intros ?%Hfailed].
  - destruct (CircuitBreaker.record_success _ _ _) as [k' log'].
    simpl. by intros [= <- <- <-].
  - destruct (CircuitBreaker.record_success _ _ _) as [k' log'].
    rewrite queue_imports_raises. by intros ?%Hfailed.
Qed.

Definition idle_world : world :=
  {| connections := [airbnb_connection];
     limiter := RateLimiter.empty_limiter;
     breakers := ∅;
     queue := [] |}.

(** What [AirbnbAdapter.get_bookings] returns for one reservation. *)
Definition one_reservation : list BaseAdapter.PlatformBooking :=
  [ {| BaseAdapter.channel_booking_id := "HMXYZ123";
       BaseAdapter.listing_id := "L-1";
       BaseAdapter.status := "confirmed";
       BaseAdapter.check_in := 739768;
       BaseAdapter.check_out := 739772;
       BaseAdapter.guest_first_name := "Ada";
       BaseAdapter.guest_last_name := "Lovelace";
       BaseAdapter.guest_email := "";
       BaseAdapter.guest_phone := None;
       BaseAdapter.num_guests := 2;
       BaseAdapter.num_adults := 2;
       BaseAdapter.num_children := 0;
       BaseAdapter.num_infants := 0;
       BaseAdapter.total_price := Decimal.Dec 48000 2;
       BaseAdapter.currency := "EUR";
       BaseAdapter.booked_at := 1777629600000000;
       BaseAdapter.updated_at := 1777629600000000;
       BaseAdapter.special_requests := None;
       BaseAdapter.channel_guest_id := None;
       BaseAdapter.channel_data := [] |} ].

(** Airbnb polled while the limiter and the breaker are idle: the one
    reservation it returns is not imported, the task retries and
    [last_sync_at] stays unset, the breaker has one success and then one
    failure to count; an empty answer is a success. *)
Example polled_reservation_is_lost :
  _poll_single_channel (fun _ => true) 1780000000000000 "conn-airbnb"
    (Some one_reservation) idle_world
  = (poll_retry,
     {| connections := [airbnb_connection];
        limiter := snd (RateLimiter.acquire "rate_limit" 1780000000000000 "airbnb"
                          "conn-airbnb" 1 RateLimiter.empty_limiter);
        breakers :=
          {[ "airbnb" :=
               fst (CircuitBreaker.record_failure (CircuitBreaker.config_for "airbnb")
                      1780000000000000 None
                      (fst (CircuitBreaker.record_success
                              (CircuitBreaker.config_for "airbnb") 1780000000000000
                              (snd (fst (CircuitBreaker.can_execute
                                           (CircuitBreaker.config_for "airbnb")
                                           1780000000000000 CircuitBreaker.no_keys)))))) ]};
        queue := [] |})
  /\ fst (_poll_single_channel (fun _ => true) 1780000000000000 "conn-airbnb"
            (Some []) idle_world)
     = poll_success 0 0.
Proof. split; vm_compute; reflexivity. Qed.

(** *** The cancelled booking *)

Section cancelled.
Variable broker_accepts : task -> bool.

(** The task that opens the dates again on one connection. *)
Definition unblocks (check_in check_out : Py.json) (conn : ChannelConnection) : task :=
  update_channel_availability (id conn) check_in check_out true.

Lemma cancelled_loop event connections check_in check_out acc :
  Py.assoc "check_in" (payload event) = Some check_in ->
  Py.assoc "check_out" (payload event) = Some check_out ->
  fold_left (fun a conn => cancelled_step broker_accepts event conn a) connections acc
  = (fst acc ++ List.filter broker_accepts (map (unblocks check_in check_out) connections),
     {| success :=
          success (snd acc)
          ++ map channel_type
               (List.filter (fun c => broker_accepts (unblocks check_in check_out c))
                  connections);
        failed :=
          failed (snd acc)
          ++ map channel_type
               (List.filter (fun c => negb (broker_accepts (unblocks check_in check_out c)))
                  connections);
        skipped := skipped (snd acc) |}).
Proof.
  intros Hci Hco. revert acc.
  induction connections as [|conn rest IH]; intros [queue r].
  - simpl. rewrite !app_nil_r. by destruct r.
  - simpl fold_left. rewrite IH. unfold cancelled_step. rewrite Hci, Hco.
    simpl. fold (unblocks check_in check_out conn).
    destruct (broker_accepts (unblocks check_in check_out conn)); simpl;
      by rewrite <- ?app_assoc.
Qed.

Lemma cancelled_loop_without_dates event connections acc :
  Py.assoc "check_in" (payload event) = None
  \/ Py.assoc "check_out" (payload event) = None ->
  fold_left (fun a conn => cancelled_step broker_accepts event conn a) connections acc
  = (fst acc,
     {| success := success (snd acc);
        failed := failed (snd acc) ++ map channel_type connections;
        skipped := skipped (snd acc) |}).
Proof.
  intros Hnone. revert acc.
  induction connections as [|conn rest IH]; intros [queue r].
  - simpl. rewrite app_nil_r. by destruct r.
  - simpl fold_left. rewrite IH. unfold cancelled_step.
    destruct Hnone as [-> | ->]; [|destruct (Py.assoc "check_in" (payload event))];
      simpl; by rewrite <- app_assoc.
Qed.

(** [_handle_booking_cancelled_event] enqueues, in table order, one
    [update_channel_availability] with [available] set for every connection
    of the property that has [sync_enabled] and [sync_availability], is
    active and has an outbound direction, the connection of the channel the
    booking came from included, as far as the broker takes them. The
    channels taken are reported as successes, the others as failures. An
    event without [check_in] or [check_out] enqueues nothing and reports
    every selected connection as failed. *)
Theorem booking_cancelled_fan_out (table : list ChannelConnection) (event : PMSEvent) :
  let selected :=
    List.filter (outbound_availability_filter (event_property_id event)) table in
  _handle_booking_cancelled_event broker_accepts table event
  = match Py.assoc "check_in" (payload event), Py.assoc "check_out" (payload event) with
    | Some check_in, Some check_out =>
        (List.filter broker_accepts (map (unblocks check_in check_out) selected),
         {| success :=
              map channel_type
                (List.filter (fun c => broker_accepts (unblocks check_in check_out c))
                   selected);
            failed :=
              map channel_type
                (List.filter (fun c => negb (broker_accepts (unblocks check_in check_out c)))
                   selected);
            skipped := [] |})
    | _, _ => ([], {| success := []; failed := map channel_type selected; skipped := [] |})
    end.
Proof.
  intros selected. unfold _handle_booking_cancelled_event. fold selected.
  destruct (Py.assoc "check_in" (payload event)) as [ci|] eqn:Hci.
  - destruct (Py.assoc "check_out" (payload event)) as [co|] eqn:Hco.
    + by rewrite (cancelled_loop _ _ ci co).
    + rewrite cancelled_loop_without_dates by (by right). done.
  - rewrite cancelled_loop_without_dates by (by left). done.
Qed.

Lemma same_id_same_row (table : list ChannelConnection) a b :
  List.NoDup (map id table) -> In a table -> In b table -> id a = id b -> a = b.
Proof.
  induction table as [|c rest IH]; [done|]. simpl.
  intros Hnd. apply List.NoDup_cons_iff in Hnd as [Hc Hnd].
  intros [<-|Ha] [<-|Hb] Hid; [done| | |by apply IH].
  - destruct Hc. rewrite Hid. by apply in_map.
  - destruct Hc. rewrite <- Hid. by apply in_map.
Qed.

(** The two handlers do not mirror each other. A connection of the channel
    a booking came from gets no task when the booking is confirmed, and the
    task that opens the dates when it is cancelled. *)
Theorem cancellation_reaches_the_source_channel (table : list ChannelConnection)
    (event : PMSEvent) (source : string) (check_in check_out : Py.json)
    (conn : ChannelConnection) :
  List.NoDup (map id table) ->
  In conn table ->
  outbound_availability_filter (event_property_id event) conn = true ->
  Py.assoc "source" (payload event) = Some (Py.JStr source) ->
  source <> "" ->
  channel_type conn = source ->
  Py.assoc "check_in" (payload event) = Some check_in ->
  Py.assoc "check_out" (payload event) = Some check_out ->
  broker_accepts (unblocks check_in check_out conn) = true ->
  In (update_channel_availability (id conn) check_in check_out true)
     (fst (_handle_booking_cancelled_event broker_accepts table event))
  /\ forall a b available,
       ~ In (update_channel_availability (id conn) a b available)
            (fst (_handle_booking_confirmed_event broker_accepts table event)).
Proof.
  intros Hnd Hin Hsel Hsrc Hne Hch Hci Hco Hacc. split.
  - unfold _handle_booking_cancelled_event.
    rewrite (cancelled_loop _ _ check_in check_out) by done. simpl.
    apply filter_In. split; [|done].
    apply in_map_iff. exists conn. split; [done|]. by apply filter_In.
  - intros a b available Ht. rewrite handler_enqueues_expected in Ht.
    destruct (expected_updates_spare_the_source _ _ _ _ _ Hsrc Hne Ht)
      as (conn' & ci & co & Hin' & Heq & Hother).
    injection Heq as Hid _ _ _.
    by rewrite <- (same_id_same_row table conn conn' Hnd Hin Hin' Hid) in Hother.
Qed.
End cancelled.

Lemma cancellation_reaches_the_source_channel_witness :
  In (update_channel_availability "conn-airbnb" (Py.JStr "2026-06-01")
        (Py.JStr "2026-06-05") true)
     (fst (_handle_booking_cancelled_event (fun _ => true)
             [airbnb_connection; paused_booking_com; expedia_connection]
             confirmed_from_airbnb))
  /\ forall a b available,
       ~ In (update_channel_availability "conn-airbnb" a b available)
            (fst (_handle_booking_confirmed_event (fun _ => true)
                    [airbnb_connection; paused_booking_com; expedia_connection]
                    confirmed_from_airbnb)).
Proof.
  apply (cancellation_reaches_the_source_channel (fun _ => true)
           [airbnb_connection; paused_booking_com; expedia_connection]
           confirmed_from_airbnb "airbnb" (Py.JStr "2026-06-01") (Py.JStr "2026-06-05")
           airbnb_connection); try reflexivity.
  - repeat constructor; simpl; intuition discriminate.
  - simpl. by left.
  - discriminate.
Defined.

Lemma sync_to_other_channels_fan_out_witness :
  fst (_sync_to_other_channels (fun _ => true)
         [ {| booking_id := "booking-1"; check_in_iso := "2026-06-01";
              check_out_iso := "2026-06-05" |} ]
         [airbnb_connection; paused_booking_com; expedia_connection]
         "booking-1" "villa" "airbnb")
  = [ update_channel_availability "conn-expedia" (Py.JStr "2026-06-01")
        (Py.JStr "2026-06-05") false ].
Proof.
  exact (sync_to_other_channels_fan_out (fun _ => true)
           [ {| booking_id := "booking-1"; check_in_iso := "2026-06-01";
                check_out_iso := "2026-06-05" |} ]
           [airbnb_connection; paused_booking_com; expedia_connection]
           "booking-1" "villa" "airbnb"
           {| booking_id := "booking-1"; check_in_iso := "2026-06-01";
              check_out_iso := "2026-06-05" |}
           eq_refl).
Defined.

(** *** The status of an imported booking *)

Lemma confirmed_word_is_unknown channel_type :
  map_channel_status_to_pms channel_type "confirmed" = "pending".
Proof.
  unfold map_channel_status_to_pms, status_maps. simpl.
  repeat (destruct (String.eqb channel_type _); [done|]). done.
Qed.

(** An imported booking is stored as confirmed with the instant of its
    confirmation only when Airbnb reports it as accepted. The words that
    the other channels use for a confirmed booking ([modified], [CONFIRMED],
    [booked]) store it as confirmed without [confirmed_at]; the word
    [confirmed] itself is in no table, and stores the booking as pending
    with [confirmed_at] set. *)
Theorem confirmed_at_is_set_for_airbnb_alone (channel_type channel_status : string)
    (now : Z) :
  (imported_status channel_type channel_status now = ("confirmed", Some now)
   <-> channel_type = "airbnb" /\ channel_status = "accepted")
  /\ imported_status channel_type "confirmed" now = ("pending", Some now).
Proof.
  split; [|unfold imported_status; by rewrite confirmed_word_is_unknown].
  split.
  - unfold imported_status. intros [= Hm He].
    destruct (String.eqb_spec channel_status "confirmed") as [->|Hc].
    { by rewrite confirmed_word_is_unknown in Hm. }
    destruct (String.eqb_spec channel_status "accepted") as [->|Ha].
    + split; [|done]. revert Hm. unfold map_channel_status_to_pms, status_maps. simpl.
      destruct (String.eqb_spec channel_type "airbnb") as [->|_]; [done|].
      repeat (destruct (String.eqb channel_type _); [done|]). done.
    + simpl in He. discriminate.
  - by intros [-> ->].
Qed.

(** *** Polling *)

Lemma queue_polls_connections broker_accepts connections queued q connection_id :
  In (poll_single_channel connection_id)
     (snd (queue_polls broker_accepts connections queued q)) ->
  In (poll_single_channel connection_id) q
  \/ exists conn, In conn connections /\ id conn = connection_id.
Proof.
  revert queued q. induction connections as [|conn rest IH]; intros queued q; simpl.
  - by left.
  - destruct (broker_accepts _); [|by left].
    intros Hin. apply IH in Hin as [Hin|(c & Hc & Hid)].
    + apply in_app_or in Hin as [Hin|[[= <-]|[]]]; [by left|].
      right. exists conn. by split; [left|].
    + right. exists c. by split; [right|].
Qed.

(** The connections after a poll: those before it, the polled one with
    its [last_sync_at] set when the poll succeeded. *)
Lemma poll_connections broker_accepts now connection_id get_bookings w :
  connections (snd (_poll_single_channel broker_accepts now connection_id get_bookings w))
  = match fst (_poll_single_channel broker_accepts now connection_id get_bookings w) with
    | poll_success _ _ => map (touch now connection_id) (connections w)
    | _ => connections w
    end.
Proof.
  unfold _poll_single_channel, poll_failed.
  destruct (List.find _ (connections w)) as [conn|]; [|done].
  destruct (RateLimiter.acquire _ _ _ _ _ _) as [acquired lim].
  destruct acquired; simpl.
  2:{ by destruct (CircuitBreaker.record_failure _ _ _ _). }
  destruct (CircuitBreaker.can_execute _ _ _) as [[admitted k] ?].
  destruct admitted; simpl; [|done].
  destruct (known_adapter _); simpl.
  2:{ by destruct (CircuitBreaker.record_failure _ _ _ _). }
  destruct get_bookings as [channel_bookings|].
  2:{ by destruct (CircuitBreaker.record_failure _ _ _ _). }
  destruct (CircuitBreaker.record_success _ _ _) as [k' ?].
  destruct (queue_imports _ _ _ _ _ _) as [[imported|?] q]; simpl; [done|].
  by destruct (CircuitBreaker.record_failure _ _ _ _).
Qed.

(** A connection that was polled with success is left alone by
    [_poll_all_channel_bookings] for the five minutes that follow: no
    [poll_single_channel] is enqueued for it, whether the broker takes
    tasks or not. *)
Theorem polled_connection_rests_for_five_minutes (broker_accepts : task -> bool)
    (polls_accepted : poll_task -> bool) (now t : Z) (connection_id : string)
    (get_bookings : option (list BaseAdapter.PlatformBooking)) (w w' : world)
    (bookings_found queued_for_import : Z) :
  _poll_single_channel broker_accepts now connection_id get_bookings w
  = (poll_success bookings_found queued_for_import, w') ->
  t <= now + Redis.seconds (5 * 60) ->
  ~ In (poll_single_channel connection_id)
       (snd (_poll_all_channel_bookings polls_accepted t (connections w'))).
Proof.
  intros Hpoll Ht Hin.
  pose proof (poll_connections broker_accepts now connection_id get_bookings w) as Hc.
  rewrite Hpoll in Hc. simpl in Hc. rewrite Hc in Hin.
  apply queue_polls_connections in Hin as [[]|(conn & Hconn & Hid)].
  apply filter_In in Hconn as [Hconn Hdue].
  apply in_map_iff in Hconn as (c0 & <- & _).
  unfold touch in Hid, Hdue. destruct (String.eqb_spec (id c0) connection_id) as [_|Hne].
  - unfold due_for_polling in Hdue. simpl in Hdue.
    apply andb_prop in Hdue as [_ Hdue]. apply Z.ltb_lt in Hdue. lia.
  - done.
Qed.

(** A poll that the rate limiter refuses makes no call to the channel and
    still counts as a failure of the channel: the task asks for a retry,
    nothing is enqueued, the connections are as before, and the keys of the
    channel's circuit breaker are those [record_failure] leaves. *)
Theorem refused_poll_counts_as_a_failure (broker_accepts : task -> bool) (now : Z)
    (connection_id : string) (get_bookings : option (list BaseAdapter.PlatformBooking))
    (w : world) (conn : ChannelConnection) :
  List.find (fun c => String.eqb (id c) connection_id) (connections w) = Some conn ->
  fst (RateLimiter.acquire "rate_limit" now (channel_type conn) connection_id 1 (limiter w))
  = false ->
  let w' := snd (_poll_single_channel broker_accepts now connection_id get_bookings w) in
  fst (_poll_single_channel broker_accepts now connection_id get_bookings w) = poll_retry
  /\ queue w' = queue w
  /\ connections w' = connections w
  /\ breaker_keys w' (channel_type conn)
     = fst (CircuitBreaker.record_failure (CircuitBreaker.config_for (channel_type conn))
              now None (breaker_keys w (channel_type conn))).
Proof.
  intros Hfind Hdenied. unfold _poll_single_channel. rewrite Hfind.
  destruct (RateLimiter.acquire _ _ _ _ _ _) as [acquired lim]. simpl in Hdenied.
  subst acquired. simpl. unfold poll_failed, breaker_keys at 2. simpl.
  destruct (CircuitBreaker.record_failure _ _ _ _) as [k log] eqn:Hk. simpl.
  repeat split. unfold breaker_keys. simpl. by rewrite lookup_insert_eq.
Qed.

(** Airbnb polled at one instant, with no booking to return, and the
    schedule asked 299 seconds later. *)
Lemma polled_connection_rests_for_five_minutes_witness :
  ~ In (poll_single_channel "conn-airbnb")
       (snd (_poll_all_channel_bookings (fun _ => true)
               (1780000000000000 + Redis.seconds 299)
               (connections (snd (_poll_single_channel (fun _ => true) 1780000000000000
                                    "conn-airbnb" (Some []) idle_world))))).
Proof.
  apply (polled_connection_rests_for_five_minutes (fun _ => true) (fun _ => true)
           1780000000000000 (1780000000000000 + Redis.seconds 299) "conn-airbnb"
           (Some []) idle_world
           (snd (_poll_single_channel (fun _ => true) 1780000000000000 "conn-airbnb"
                   (Some []) idle_world))
           0 0).
  - vm_compute. reflexivity.
  - vm_compute. discriminate.
Defined.

(** A connection whose fifteen calls of the second are used up. *)
Definition busy_world : world :=
  {| connections :=
       [ {| id := "conn-1"; property_id := "villa"; channel_type := "airbnb";
            channel_property_id := "L-1"; sync_enabled := true; status := "active";
            sync_availability := true; sync_bookings := true;
            sync_direction := "bidirectional"; last_sync_at := None |} ];
     limiter := snd (RateLimiter.acquire_many 15 1780000000000000 10 1
                       RateLimiter.empty_limiter);
     breakers := ∅;
     queue := [] |}.

Lemma refused_poll_counts_as_a_failure_witness :
  fst (_poll_single_channel (fun _ => true) 1780000000000200 "conn-1"
         (Some one_reservation) busy_world)
  = poll_retry
  /\ queue (snd (_poll_single_channel (fun _ => true) 1780000000000200 "conn-1"
                   (Some one_reservation) busy_world))
     = queue busy_world
  /\ connections (snd (_poll_single_channel (fun _ => true) 1780000000000200 "conn-1"
                         (Some one_reservation) busy_world))
     = connections busy_world
  /\ breaker_keys (snd (_poll_single_channel (fun _ => true) 1780000000000200 "conn-1"
                          (Some one_reservation) busy_world))
       "airbnb"
     = fst (CircuitBreaker.record_failure (CircuitBreaker.config_for "airbnb")
              1780000000000200 None (breaker_keys busy_world "airbnb")).
Proof.
  apply (refused_poll_counts_as_a_failure (fun _ => true) 1780000000000200 "conn-1"
           (Some one_reservation) busy_world
           {| id := "conn-1"; property_id := "villa"; channel_type := "airbnb";
              channel_property_id := "L-1"; sync_enabled := true; status := "active";
              sync_availability := true; sync_bookings := true;
              sync_direction := "bidirectional"; last_sync_at := None |}).
  - reflexivity.
  - vm_compute. reflexivity.
Defined.

End SyncEngineFacts.

(** ** The webhook ingress *)

Module WebhookFacts.
Import SyncEngine Webhook.

Section endpoint.
Variable json_loads : string -> Py.loads.
Variable str : Py.json -> string.
Variable secret : string.

Abbreviation airbnb_webhook := (Webhook.airbnb_webhook json_loads str secret).

(** The request carries no signature, an empty one, or the right one. *)
Definition signature_accepted (req : request) : Prop :=
  match x_airbnb_signature req with
  | Some signature =>
      signature = "" \/ verify_hmac_signature (body req) signature secret = Some true
  | None => True
  end.

Lemma signature_accepted_passes req :
  signature_accepted req <->
  check_signature (body req) (x_airbnb_signature req) secret = signature_passes.
Proof.
  unfold signature_accepted, check_signature.
  destruct (x_airbnb_signature req) as [sig|]; [|done].
  destruct (String.eqb_spec sig "") as [->|Hne]; [by split; [|left]|].
  destruct (verify_hmac_signature (body req) sig secret) as [[]|]; split; intros H;
    try done; try (by right); by destruct H.
Qed.

(** The counters do not take part in the lookup of a key. *)
Lemma is_already_processed_count_received now key event_type w :
  is_already_processed now key (count_received event_type w)
  = is_already_processed now key w.
Proof. done. Qed.

(** The endpoint on a request whose key is in the store. *)
Lemma seen_key_short_circuits now req w data key :
  signature_accepted req ->
  json_loads (body req) = Py.loaded (Py.JObj data) ->
  generate_idempotency_key "airbnb" data = Some key ->
  is_already_processed now key w = true ->
  airbnb_webhook now req w
  = (match validate_event_id (Py.dict_get "event_id" Py.JNull data) with
     | Some event_id => WebhookResponse "already_processed" None event_id
     | None => HTTPException 500 "Internal Server Error"
     end,
     count_processed "duplicate"
       (count_received (Py.dict_get "event_type" (Py.JStr "unknown") data) w)).
Proof.
  intros Hsig Hjson Hkey Hseen. unfold Webhook.airbnb_webhook.
  apply signature_accepted_passes in Hsig. rewrite Hsig, Hjson, Hkey.
  rewrite is_already_processed_count_received, Hseen.
  by destruct (validate_event_id _).
Qed.

(** An accepted request leaves its key in the store for 24 hours. *)
Lemma accepted_marks_the_key now req w event_id w1 data key :
  json_loads (body req) = Py.loaded (Py.JObj data) ->
  generate_idempotency_key "airbnb" data = Some key ->
  airbnb_webhook now req w = (WebhookResponse "accepted" None event_id, w1) ->
  signature_accepted req
  /\ validate_event_id (Py.dict_get "event_id" Py.JNull data) = Some event_id
  /\ (exists w2,
        process_event str (Py.dict_get "event_type" (Py.JStr "unknown") data) data key
          (count_received (Py.dict_get "event_type" (Py.JStr "unknown") data) w)
        = dispatched w2
        /\ background_tasks w1 = background_tasks w2)
  /\ forall now', now' < now + Redis.seconds 86400 ->
                  is_already_processed now' key w1 = true.
Proof.
  intros Hjson Hkey. unfold Webhook.airbnb_webhook.
  destruct (check_signature _ _ _) eqn:Hsig; [|discriminate..].
  apply signature_accepted_passes in Hsig. rewrite Hjson, Hkey.
  destruct (is_already_processed now key _).
  { by destruct (validate_event_id _). }
  destruct (process_event _ _ _ _ _) as [w2| |] eqn:Hp; [|discriminate..].
  destruct (validate_event_id _) as [e|]; [|discriminate].
  intros [= <- <-]. repeat split; [done|by exists w2|].
  intros now' Hlt. unfold is_already_processed, mark_as_processed; simpl.
  rewrite lookup_insert_eq. by apply Z.ltb_lt.
Qed.

(** What a [reservation.created] event dispatches. *)
Lemma created_dispatches_one_import data key w w2 :
  Py.dict_get "event_type" (Py.JStr "unknown") data = Py.JStr "reservation.created" ->
  process_event str (Py.JStr "reservation.created") data key w = dispatched w2 ->
  exists connection_id booking_data,
    background_tasks w2
    = background_tasks w ++ [run_import "airbnb" connection_id booking_data key].
Proof.
  intros _. unfold process_event. simpl.
  destruct (Py.as_dict _) as [reservation|]; [|discriminate].
  destruct (get_connection_by_channel_property _ _ _) as [connection|]; [|discriminate].
  destruct (_map_airbnb_reservation _ _) as [booking_data|]; [|discriminate].
  intros [= <-]. by exists (id connection), booking_data.
Qed.


End endpoint.

(** A replay of one [reservation.created] body. *)
Definition created_reservation : list (string * Py.json) :=
  [ ("confirmation_code", Py.JStr "HMXYZ123");
    ("listing_id", Py.JStr "L-1");
    ("start_date", Py.JStr "2026-06-01");
    ("end_date", Py.JStr "2026-06-05") ].

Definition created_payload : list (string * Py.json) :=
  [ ("event_type", Py.JStr "reservation.created");
    ("event_id", Py.JStr "evt_001");
    ("reservation", Py.JObj created_reservation) ].

Definition loads_created (body : string) : Py.loads := Py.loaded (Py.JObj created_payload).

Definition str_of_text (v : Py.json) : string :=
  match v with
  | Py.JStr s => s
  | _ => "None"
  end.

Definition unsigned_request : request :=
  {| body := "{}"; x_airbnb_signature := None |}.

Definition fresh_world : world :=
  {| processed_keys := ∅;
     channel_connections :=
       [ {| id := "conn-airbnb"; property_id := "villa"; channel_type := "airbnb";
            channel_property_id := "L-1"; sync_enabled := true; status := "active";
            sync_availability := true; sync_bookings := true;
            sync_direction := "bidirectional"; last_sync_at := None |} ];
     background_tasks := [];
     counters := {| WEBHOOK_RECEIVED := []; WEBHOOK_PROCESSED := []; WEBHOOK_LATENCY := [] |} |}.

Definition first_post : response * world :=
  airbnb_webhook loads_created str_of_text "whsec" 1780000000000000 unsigned_request
    fresh_world.

Definition second_post : response * world :=
  airbnb_webhook loads_created str_of_text "whsec" 1780000001000000 unsigned_request
    (snd first_post).

Example replay_of_reservation_created :
  fst first_post = WebhookResponse "accepted" None (Some "evt_001")
  /\ fst second_post = WebhookResponse "already_processed" None (Some "evt_001")
  /\ length (background_tasks (snd second_post)) = 1%nat
  /\ WEBHOOK_PROCESSED (counters (snd second_post))
     = [("airbnb", "success"); ("airbnb", "duplicate")].
Proof. vm_compute. repeat split; reflexivity. Qed.

(** A listing without an active connection is skipped and its key is not
    stored: the replay is skipped again. *)
Example replay_of_unconnected_listing :
  let w := {| processed_keys := ∅; channel_connections := []; background_tasks := [];
              counters := counters fresh_world |} in
  let '(r1, w1) := airbnb_webhook loads_created str_of_text "whsec" 1780000000000000
                     unsigned_request w in
  let '(r2, w2) := airbnb_webhook loads_created str_of_text "whsec" 1780000001000000
                     unsigned_request w1 in
  r1 = WebhookResponse "skipped" (Some "Listing not connected") None
  /\ r2 = r1 /\ background_tasks w2 = [].
Proof. vm_compute. repeat split; reflexivity. Qed.










(** *** What the idempotency key leaves out *)

(** The four fields [generate_idempotency_key] reads. *)
Definition key_fields : list string :=
  ["reservation_id"; "booking_id"; "updated_at"; "event_id"].

(** None of the four fields is present with a value that counts as true. *)
Definition no_key_fields (data : list (string * Py.json)) : Prop :=
  Forall (fun k => Py.truthy (Py.dict_get k (Py.JStr "") data) = false) key_fields.

Definition same_key_fields (data1 data2 : list (string * Py.json)) : Prop :=
  Forall (fun k => Py.dict_get k (Py.JStr "") data1 = Py.dict_get k (Py.JStr "") data2)
         key_fields.

Lemma key_of_same_fields channel data1 data2 :
  same_key_fields data1 data2 ->
  generate_idempotency_key channel data1 = generate_idempotency_key channel data2.
Proof.
  unfold same_key_fields, key_fields. rewrite !Forall_cons.
  intros (H1 & H2 & H3 & H4 & _). unfold generate_idempotency_key.
  by rewrite H1, H2, H3, H4.
Qed.

Lemma key_without_fields data :
  no_key_fields data ->
  generate_idempotency_key "expedia" data
  = Some (Py.prefix 32 (Sha256.hexdigest "expedia")).
Proof.
  unfold no_key_fields, key_fields. rewrite !Forall_cons.
  intros (H1 & H2 & H3 & H4 & _). unfold generate_idempotency_key.
  cbn [List.filter]. rewrite H1, H2, H3, H4. reflexivity.
Qed.

Section shadowing.
Variable json_loads : string -> Py.loads.
Variable str : Py.json -> string.
Variable secret : string.

(** A payload that agrees with a payload of valid [event_id] on the four
    fields has a valid [event_id] too. *)
Lemma same_fields_same_validity data1 data2 event_id :
  same_key_fields data1 data2 ->
  validate_event_id (Py.dict_get "event_id" Py.JNull data1) = Some event_id ->
  exists event_id2,
    validate_event_id (Py.dict_get "event_id" Py.JNull data2) = Some event_id2.
Proof.
  unfold same_key_fields, key_fields. rewrite !Forall_cons.
  intros (_ & _ & _ & H & _). revert H. unfold Py.dict_get.
  destruct (Py.assoc "event_id" data1) as [v1|], (Py.assoc "event_id" data2) as [v2|];
    simpl.
  - intros <- ->. by eexists.
  - intros ->. by eexists.
  - intros <-. by eexists.
  - by eexists.
Qed.

(** An accepted Airbnb webhook shadows, for 24 hours, every other webhook
    whose payload agrees with it on [reservation_id], [booking_id],
    [updated_at] and [event_id]: whatever the event type and the
    reservation of the later one, it is answered [already_processed] and
    schedules nothing. *)
Theorem airbnb_key_ignores_the_event (now now' : Z) (req1 req2 : request)
    (data1 data2 : list (string * Py.json)) (w w1 : world) (event_id : option string) :
  json_loads (body req1) = Py.loaded (Py.JObj data1) ->
  json_loads (body req2) = Py.loaded (Py.JObj data2) ->
  same_key_fields data1 data2 ->
  signature_accepted secret req2 ->
  Webhook.airbnb_webhook json_loads str secret now req1 w
  = (WebhookResponse "accepted" None event_id, w1) ->
  now' < now + Redis.seconds 86400 ->
  (exists event_id2,
     validate_event_id (Py.dict_get "event_id" Py.JNull data2) = Some event_id2
     /\ fst (Webhook.airbnb_webhook json_loads str secret now' req2 w1)
        = WebhookResponse "already_processed" None event_id2)
  /\ background_tasks (snd (Webhook.airbnb_webhook json_loads str secret now' req2 w1))
     = background_tasks w1.
Proof.
  intros Hj1 Hj2 Hsame Hsig Hacc Hlt.
  destruct (generate_idempotency_key "airbnb" data1) as [key|] eqn:Hkey.
  2:{ unfold Webhook.airbnb_webhook in Hacc. rewrite Hj1, Hkey in Hacc.
      by destruct (check_signature _ _ _). }
  destruct (accepted_marks_the_key json_loads str secret _ _ _ _ _ _ _ Hj1 Hkey Hacc)
    as (_ & Hid & _ & Hmark).
  rewrite (key_of_same_fields _ _ _ Hsame) in Hkey.
  destruct (same_fields_same_validity _ _ _ Hsame Hid) as [event_id2 Hid2].
  rewrite (seen_key_short_circuits json_loads str secret _ _ _ _ _ Hsig Hj2 Hkey
             (Hmark _ Hlt)), Hid2.
  split; [by exists event_id2|done].
Qed.

(** The endpoint answers 401 to a request that carries a signature which
    is not empty, is made of ASCII characters and differs from the digest
    of the body, and to no other: a request without a signature is let
    through like one that is signed, and a signature with a character
    outside ASCII makes the comparison fail before any answer. *)
Theorem only_a_wrong_signature_is_refused (now : Z) (req : request) (w : world) :
  fst (Webhook.airbnb_webhook json_loads str secret now req w)
  = HTTPException 401 "Invalid signature"
  <-> exists signature,
        x_airbnb_signature req = Some signature
        /\ signature <> ""
        /\ Py.isascii signature = true
        /\ signature <> Sha256.hmac_hexdigest secret (body req).
Proof.
  assert (fst (Webhook.airbnb_webhook json_loads str secret now req w)
          = HTTPException 401 "Invalid signature"
          <-> check_signature (body req) (x_airbnb_signature req) secret
              = signature_refused) as ->.
  { unfold Webhook.airbnb_webhook.
    destruct (check_signature _ _ _); [|done..].
    split; [|done].
    destruct (json_loads (body req)) as [[]| |]; try discriminate.
    destruct (generate_idempotency_key _ _); [|discriminate].
    destruct (is_already_processed _ _ _).
    { by destruct (validate_event_id _). }
    destruct (process_event _ _ _ _ _); try discriminate.
    by destruct (validate_event_id _). }
  unfold check_signature, verify_hmac_signature, compare_digest.
  rewrite Sha256Facts.hmac_hexdigest_isascii. simpl.
  destruct (x_airbnb_signature req) as [sig|].
  2:{ split; [done|]. by intros (? & ? & _). }
  destruct (String.eqb_spec sig "") as [->|Hne].
  { split; [done|]. by intros (? & [= <-] & ? & _). }
  destruct (Py.isascii sig) eqn:Hascii.
  - destruct (String.eqb_spec (Sha256.hmac_hexdigest secret (body req)) sig) as [He|He].
    + split; [done|]. intros (? & [= <-] & _ & _ & Hd). by destruct Hd.
    + split; [|done]. intros _. exists sig. repeat split; [done..|]. by intros ->.
  - split; [done|]. intros (? & [= <-] & _ & Ha & _). by rewrite Hascii in Ha.
Qed.

(** The Expedia request carries no signature, an empty one, or the right
    one. *)
Definition expedia_signature_accepted (req : expedia_request) : Prop :=
  match x_expedia_signature req with
  | Some signature =>
      signature = ""
      \/ verify_hmac_signature (expedia_body req) signature secret = Some true
  | None => True
  end.

Lemma expedia_signature_accepted_passes req :
  expedia_signature_accepted req ->
  check_signature (expedia_body req) (x_expedia_signature req) secret = signature_passes.
Proof.
  unfold expedia_signature_accepted, check_signature.
  destruct (x_expedia_signature req) as [sig|]; [|done].
  intros [-> | ->]; [done|]. by destruct (String.eqb sig "").
Qed.

(** Expedia names its fields [bookingId], [eventType] and [propertyId]; the
    idempotency key is made of [reservation_id], [booking_id], [updated_at]
    and [event_id]. All payloads without these four share one key, so once
    one webhook of Expedia has been accepted, every other one that arrives
    within 24 hours is answered [already_processed], whatever booking and
    event it reports, and schedules nothing. *)
Theorem expedia_webhooks_share_one_key (now now' : Z) (req1 req2 : expedia_request)
    (data1 data2 : list (string * Py.json)) (w w1 : expedia_world) :
  json_loads (expedia_body req1) = Py.loaded (Py.JObj data1) ->
  json_loads (expedia_body req2) = Py.loaded (Py.JObj data2) ->
  no_key_fields data1 ->
  no_key_fields data2 ->
  expedia_signature_accepted req2 ->
  expedia_webhook json_loads str secret now req1 w
  = (WebhookResponse "accepted" None None, w1) ->
  now' < now + Redis.seconds 86400 ->
  fst (expedia_webhook json_loads str secret now' req2 w1)
  = WebhookResponse "already_processed" None None
  /\ expedia_tasks (snd (expedia_webhook json_loads str secret now' req2 w1))
     = expedia_tasks w1
  /\ processed_keys (shared (snd (expedia_webhook json_loads str secret now' req2 w1)))
     = processed_keys (shared w1).
Proof.
  intros Hj1 Hj2 Hk1 Hk2 Hsig Hacc Hlt.
  assert (forall event_type,
            is_already_processed now' (Py.prefix 32 (Sha256.hexdigest "expedia"))
              (shared (on_shared (count_received_for "expedia" event_type) w1)) = true)
    as Hseen.
  { intros event_type. revert Hacc. unfold expedia_webhook.
    rewrite Hj1, (key_without_fields _ Hk1).
    destruct (check_signature _ _ _); [|discriminate..].
    destruct (is_already_processed now _ _); [discriminate|].
    destruct (process_expedia_event _ _ _ _ _) as [w2| |]; [|discriminate..].
    intros [= <-]. unfold is_already_processed, mark_as_processed. simpl.
    rewrite lookup_insert_eq. by apply Z.ltb_lt. }
  unfold expedia_webhook.
  rewrite (expedia_signature_accepted_passes _ Hsig), Hj2, (key_without_fields _ Hk2).
  by rewrite Hseen.
Qed.
End shadowing.

(** Two notifications of Expedia: a booking is created, and an hour later
    another booking of the property is cancelled. *)
Definition expedia_created : list (string * Py.json) :=
  [ ("eventType", Py.JStr "BOOKING_CREATED"); ("bookingId", Py.JStr "EXP-1");
    ("propertyId", Py.JStr "E-12") ].

Definition expedia_cancelled : list (string * Py.json) :=
  [ ("eventType", Py.JStr "BOOKING_CANCELLED"); ("bookingId", Py.JStr "EXP-2");
    ("propertyId", Py.JStr "E-12") ].

Definition loads_expedia (body : string) : Py.loads :=
  if String.eqb body "created" then Py.loaded (Py.JObj expedia_created)
  else if String.eqb body "cancelled" then Py.loaded (Py.JObj expedia_cancelled)
  else Py.JSONDecodeError.

Definition expedia_fresh : expedia_world :=
  {| shared :=
       {| processed_keys := ∅;
          channel_connections :=
            [ {| id := "conn-expedia"; property_id := "villa"; channel_type := "expedia";
                 channel_property_id := "E-12"; sync_enabled := true; status := "active";
                 sync_availability := true; sync_bookings := true;
                 sync_direction := "bidirectional"; last_sync_at := None |} ];
          background_tasks := [];
          counters := {| WEBHOOK_RECEIVED := []; WEBHOOK_PROCESSED := [];
                         WEBHOOK_LATENCY := [] |} |};
     expedia_tasks := [] |}.

Definition expedia_first : response * expedia_world :=
  expedia_webhook loads_expedia str_of_text "whsec" 1780000000000000
    {| expedia_body := "created"; x_expedia_signature := None |} expedia_fresh.

Lemma expedia_webhooks_share_one_key_witness :
  fst (expedia_webhook loads_expedia str_of_text "whsec"
         (1780000000000000 + Redis.seconds 3600)
         {| expedia_body := "cancelled"; x_expedia_signature := None |}
         (snd expedia_first))
  = WebhookResponse "already_processed" None None
  /\ expedia_tasks
       (snd (expedia_webhook loads_expedia str_of_text "whsec"
               (1780000000000000 + Redis.seconds 3600)
               {| expedia_body := "cancelled"; x_expedia_signature := None |}
               (snd expedia_first)))
     = expedia_tasks (snd expedia_first)
  /\ processed_keys
       (shared (snd (expedia_webhook loads_expedia str_of_text "whsec"
                       (1780000000000000 + Redis.seconds 3600)
                       {| expedia_body := "cancelled"; x_expedia_signature := None |}
                       (snd expedia_first))))
     = processed_keys (shared (snd expedia_first)).
Proof.
  apply (expedia_webhooks_share_one_key loads_expedia str_of_text "whsec"
           1780000000000000 (1780000000000000 + Redis.seconds 3600)
           {| expedia_body := "created"; x_expedia_signature := None |}
           {| expedia_body := "cancelled"; x_expedia_signature := None |}
           expedia_created expedia_cancelled expedia_fresh (snd expedia_first)).
  - reflexivity.
  - reflexivity.
  - repeat constructor.
  - repeat constructor.
  - exact I.
  - vm_compute. reflexivity.
  - vm_compute. reflexivity.
Defined.

(** A cancellation that follows the creation with the same [event_id]. *)
Definition cancelled_payload : list (string * Py.json) :=
  [ ("event_type", Py.JStr "reservation.cancelled");
    ("event_id", Py.JStr "evt_001");
    ("reservation", Py.JObj [ ("confirmation_code", Py.JStr "HMXYZ123") ]) ].

Definition loads_airbnb (body : string) : Py.loads :=
  if String.eqb body "cancelled" then Py.loaded (Py.JObj cancelled_payload)
  else Py.loaded (Py.JObj created_payload).

Lemma airbnb_key_ignores_the_event_witness :
  (exists event_id2,
     validate_event_id (Py.dict_get "event_id" Py.JNull cancelled_payload) = Some event_id2
     /\ fst (Webhook.airbnb_webhook loads_airbnb str_of_text "whsec" 1780000001000000
               {| body := "cancelled"; x_airbnb_signature := None |}
               (snd (Webhook.airbnb_webhook loads_airbnb str_of_text "whsec"
                       1780000000000000 unsigned_request fresh_world)))
        = WebhookResponse "already_processed" None event_id2)
  /\ background_tasks
       (snd (Webhook.airbnb_webhook loads_airbnb str_of_text "whsec" 1780000001000000
               {| body := "cancelled"; x_airbnb_signature := None |}
               (snd (Webhook.airbnb_webhook loads_airbnb str_of_text "whsec"
                       1780000000000000 unsigned_request fresh_world))))
     = background_tasks
         (snd (Webhook.airbnb_webhook loads_airbnb str_of_text "whsec" 1780000000000000
                 unsigned_request fresh_world)).
Proof.
  apply (airbnb_key_ignores_the_event loads_airbnb str_of_text "whsec"
           1780000000000000 1780000001000000 unsigned_request
           {| body := "cancelled"; x_airbnb_signature := None |}
           created_payload cancelled_payload fresh_world
           (snd (Webhook.airbnb_webhook loads_airbnb str_of_text "whsec" 1780000000000000
                   unsigned_request fresh_world))
           (Some "evt_001")).
  - reflexivity.
  - reflexivity.
  - repeat constructor.
  - exact I.
  - vm_compute. reflexivity.
  - vm_compute. reflexivity.
Defined.

(** Three signatures on one body: a wrong one of ASCII characters is
    refused, the digest itself passes, and a byte from 128 on makes the
    comparison raise, which no counter records. *)
Example three_signatures :
  let post signature :=
    Webhook.airbnb_webhook loads_created str_of_text "whsec" 1780000000000000
      {| body := "{}"; x_airbnb_signature := Some signature |} fresh_world in
  fst (post "deadbeef") = HTTPException 401 "Invalid signature"
  /\ fst (post (Sha256.hmac_hexdigest "whsec" "{}"))
     = WebhookResponse "accepted" None (Some "evt_001")
  /\ post (String (ascii_of_nat 233) "")
     = (HTTPException 500 "Internal Server Error", fresh_world).
Proof. vm_compute. repeat split; reflexivity. Qed.

End WebhookFacts.

(** ** Decimal rounding *)

Module DecimalFacts.
Import Decimal.

(** Rounding half to even returns a nearest integer. *)
Lemma round_half_even_nearest n d :
  0 < d -> 2 * Z.abs (n - d * round_half_even n d) <= d.
Proof.
  intros Hd. unfold round_half_even.
  pose proof (Z.div_mod n d ltac:(lia)) as Hdm.
  pose proof (Z.mod_pos_bound n d Hd) as Hr.
  destruct (2 * (n mod d) <? d) eqn:H1; [apply Z.ltb_lt in H1; lia|].
  apply Z.ltb_ge in H1.
  destruct (d <? 2 * (n mod d)) eqn:H2; [apply Z.ltb_lt in H2; lia|].
  apply Z.ltb_ge in H2.
  destruct (Z.even (n / d)); lia.
Qed.

(** On a tie the even neighbour is taken, where rounding half up takes the
    one away from zero. *)
Example tie_goes_to_even :
  quantize (Dec 125 3) = Dec 12 2 /\ quantize_with round_half_up (Dec 125 3) = Dec 13 2.
Proof. split; reflexivity. Qed.

Lemma quantize_scale d : scale (quantize d) = 2%nat.
Proof. unfold quantize, quantize_with. by destruct (_ <=? _)%nat. Qed.

End DecimalFacts.

(** ** The price breakdown *)

Module PricingFacts.
Import Decimal Booking.

Section pricing.
Variable properties : gmap string Property.
Variable calendar : gmap (string * Z) CalendarAvailability.

Lemma select_calendar_cons property_id d dates :
  select_calendar calendar property_id (d :: dates)
  = match calendar !! (property_id, d) with
    | Some c => (d, c) :: select_calendar calendar property_id dates
    | None => select_calendar calendar property_id dates
    end.
Proof. unfold select_calendar. simpl. by destruct (calendar !! (property_id, d)). Qed.

(** The dictionary built from the selected rows answers, for a date of
    the range, with the row of the table. *)
Lemma by_date_from property_id dates (m : gmap Z CalendarAvailability) d :
  fold_left (fun acc row => <[fst row := snd row]> acc)
            (select_calendar calendar property_id dates) m !! d
  = match (if decide (d ∈ dates) then calendar !! (property_id, d) else None) with
    | Some c => Some c
    | None => m !! d
    end.
Proof.
  revert m. induction dates as [|d0 rest IH]; intros m.
  - simpl. destruct (decide (d ∈ [])) as [Hmem|_]; [by apply elem_of_nil in Hmem|done].
  - rewrite select_calendar_cons.
    assert (d ∈ d0 :: rest <-> d = d0 \/ d ∈ rest) as Hcons by apply elem_of_cons.
    destruct (decide (d ∈ d0 :: rest)) as [Hmem|Hnot];
      destruct (calendar !! (property_id, d0)) as [c|] eqn:Hc; simpl; rewrite IH;
      destruct (decide (d ∈ rest)) as [Hr|Hr]; try done; try tauto.
    + destruct (calendar !! (property_id, d)) eqn:Hd; [done|].
      rewrite lookup_insert_ne; [done|]. intros ->. congruence.
    + assert (d = d0) as -> by tauto. by rewrite Hc, lookup_insert_eq.
    + assert (d = d0) as -> by tauto. by rewrite Hc.
    + rewrite lookup_insert_ne; [done|]. intros ->. tauto.
Qed.

Lemma by_date_lookup property_id dates d :
  d ∈ dates ->
  by_date (select_calendar calendar property_id dates) !! d
  = calendar !! (property_id, d).
Proof.
  intros Hd. unfold by_date. rewrite by_date_from, decide_True by done.
  by destruct (calendar !! (property_id, d)).
Qed.

(** The loop returns the rates in date order and their running sum. *)
Lemma rates_loop_from property (days : gmap Z CalendarAvailability) dates rates total_ :
  fold_left
    (fun acc d =>
       let price := nightly_price property (days !! d) in
       (fst acc ++ [ {| rate_date := d; rate_price := price |} ], add (snd acc) price))
    dates (rates, total_)
  = (rates ++ map (fun d => {| rate_date := d;
                               rate_price := nightly_price property (days !! d) |}) dates,
     fold_left add (map (fun d => nightly_price property (days !! d)) dates) total_).
Proof.
  revert rates total_. induction dates as [|d rest IH]; intros rates total_; simpl.
  - by rewrite app_nil_r.
  - rewrite IH. by rewrite <- app_assoc.
Qed.

(** The override of a date: the price of its cell when the cell has one
    and it is not zero. *)
Definition override (property_id : string) (d : Z) : option decimal :=
  day ← calendar !! (property_id, d);
  p ← price day;
  if truthy p then Some p else None.

Definition night (property : Property) (property_id : string) (d : Z) : NightlyRate :=
  {| rate_date := d;
     rate_price := default (base_price property) (override property_id d) |}.

(** The breakdown as the function computes it, written out: one rate per
    night, the override when it is present and not zero and the base
    price otherwise; their sum; the cleaning fee or zero; the fee of 5% on
    subtotal and cleaning fee and the taxes at [tax_rate / 100] on
    subtotal, cleaning fee and unrounded fee (zero when the rate is absent
    or zero or the taxes are included), each rounded half to even at the
    cent; the total as the sum of the unrounded amounts, rounded
    likewise. *)
Definition computed_breakdown (property : Property) (property_id : string)
    (check_in_ check_out_ : Z) : PriceBreakdown :=
  let rates := map (night property property_id) (date_range check_in_ check_out_) in
  let subtotal := sum (map rate_price rates) in
  let cleaning := match cleaning_fee property with
                  | Some c => if truthy c then c else Dec 0 0
                  | None => Dec 0 0
                  end in
  let fee := mul (add subtotal cleaning) (Dec 5 2) in
  let tax := match tax_rate property with
             | Some rate =>
                 if truthy rate && negb (tax_included property)
                 then mul (add (add subtotal cleaning) fee) (div100 rate)
                 else Dec 0 0
             | None => Dec 0 0
             end in
  {| nightly_rates := rates;
     subtotal := subtotal;
     pb_cleaning_fee := cleaning;
     service_fee := quantize fee;
     taxes := quantize tax;
     total := quantize (add (add (add subtotal cleaning) fee) tax);
     pb_currency := currency property |}.

Lemma nightly_price_override property property_id d :
  nightly_price property (calendar !! (property_id, d))
  = default (base_price property) (override property_id d).
Proof.
  unfold nightly_price, override.
  destruct (calendar !! (property_id, d)) as [day|]; simpl; [|done].
  destruct (price day) as [p|]; simpl; [|done]. by destruct (truthy p).
Qed.

(** C7, as the function computes it: for every property and date range
    [calculate_price_breakdown] returns [computed_breakdown]. *)
Theorem price_breakdown_is_computed (property_id : string) (check_in_ check_out_ : Z) :
  calculate_price_breakdown properties calendar property_id check_in_ check_out_
  = (property ← properties !! property_id;
     Some (computed_breakdown property property_id check_in_ check_out_)).
Proof.
  unfold calculate_price_breakdown.
  destruct (properties !! property_id) as [property|]; simpl; [|done].
  unfold rates_loop. rewrite rates_loop_from. simpl.
  set (dates := date_range check_in_ check_out_).
  assert (map (fun d => {| rate_date := d;
                           rate_price := nightly_price property
                             (by_date (select_calendar calendar property_id dates) !! d) |})
              dates
          = map (night property property_id) dates) as Hrates.
  { apply map_ext_in. intros d Hd. unfold night.
    rewrite by_date_lookup by (by apply list_elem_of_In).
    by rewrite nightly_price_override. }
  assert (map (fun d => nightly_price property
                          (by_date (select_calendar calendar property_id dates) !! d))
              dates
          = map rate_price (map (night property property_id) dates)) as Hprices.
  { rewrite map_map. apply map_ext_in. intros d Hd. unfold night; simpl.
    rewrite by_date_lookup by (by apply list_elem_of_In).
    by rewrite nightly_price_override. }
  unfold computed_breakdown, sum, zero, SERVICE_FEE_PERCENTAGE.
  fold dates. by rewrite Hrates, Hprices.
Qed.
End pricing.

(** The statement of the specification on one input: the function returns
    the amounts of [spec_price_breakdown]. *)
Definition price_breakdown_as_stated (properties : gmap string Property)
    (calendar : gmap (string * Z) CalendarAvailability) (property_id : string)
    (check_in_ check_out_ : Z) : Prop :=
  match calculate_price_breakdown properties calendar property_id check_in_ check_out_,
        spec_price_breakdown properties calendar property_id check_in_ check_out_ with
  | Some computed, Some stated => same_breakdown computed stated = true
  | None, None => True
  | _, _ => False
  end.

Definition flat (base : decimal) (rate : option decimal) : Property :=
  {| tenant_id := "tenant-1"; status := "active"; base_price := base;
     cleaning_fee := None; tax_rate := rate; tax_included := false; currency := "EUR" |}.

Definition free_night : CalendarAvailability :=
  {| available := true; availability_status := "available"; cell_booking_id := None;
     price := Some (Dec 0 2); cell_updated_at := 0 |}.

(** Three inputs on which the function does not return the stated amounts:
    a night with an override of zero is charged the base price; a fee of
    0.125 is rounded to 0.12; taxes are charged at [tax_rate / 100]. *)
Lemma price_breakdown_differs_from_statement :
  ~ price_breakdown_as_stated {[ "villa" := flat (Dec 10000 2) None ]}
      {[ ("villa", 739768) := free_night ]} "villa" 739768 739769
  /\ ~ price_breakdown_as_stated {[ "villa" := flat (Dec 250 2) None ]} ∅
         "villa" 739768 739769
  /\ ~ price_breakdown_as_stated {[ "villa" := flat (Dec 10000 2) (Some (Dec 19 0)) ]} ∅
         "villa" 739768 739769.
Proof. repeat split; vm_compute; discriminate. Qed.

Example override_of_zero_is_ignored :
  nightly_rates <$> calculate_price_breakdown {[ "villa" := flat (Dec 10000 2) None ]}
                      {[ ("villa", 739768) := free_night ]} "villa" 739768 739769
  = Some [ {| rate_date := 739768; rate_price := Dec 10000 2 |} ].
Proof. vm_compute. reflexivity. Qed.

Example fee_is_rounded_half_even :
  service_fee <$> calculate_price_breakdown {[ "villa" := flat (Dec 250 2) None ]} ∅
                    "villa" 739768 739769
  = Some (Dec 12 2).
Proof. vm_compute. reflexivity. Qed.

(** The total is rounded from the unrounded amounts: it can exceed the sum
    of the returned parts by a cent (100.08 + 5.00 + 5.25 against 110.34). *)
Example total_is_not_the_sum_of_the_parts :
  (fun pb => (subtotal pb, service_fee pb, taxes pb, total pb))
    <$> calculate_price_breakdown {[ "villa" := flat (Dec 10008 2) (Some (Dec 5 0)) ]} ∅
          "villa" 739768 739769
  = Some (Dec 10008 2, Dec 500 2, Dec 525 2, Dec 11034 2).
Proof. vm_compute. reflexivity. Qed.

End PricingFacts.

(** ** Confirmation, cancellation and creation of bookings *)

Module BookingFacts.
Import Decimal Booking.

Lemma date_range_elem check_in_ check_out_ d :
  d ∈ date_range check_in_ check_out_ <-> check_in_ <= d < check_out_.
Proof.
  unfold date_range. rewrite list_elem_of_fmap. split.
  - intros (i & -> & Hi). apply elem_of_seq in Hi. lia.
  - intros Hd. exists (Z.to_nat (d - check_in_)). split; [lia|].
    apply elem_of_seq. lia.
Qed.

Lemma date_range_NoDup check_in_ check_out_ : NoDup (date_range check_in_ check_out_).
Proof.
  unfold date_range. apply NoDup_fmap_2; [|apply NoDup_seq].
  intros i j Hij. lia.
Qed.

(** A calendar update touches the cells of the property on the given dates,
    once each, and nothing else. *)
Lemma update_calendar_lookup (cond : CalendarAvailability -> bool)
    (f : CalendarAvailability -> CalendarAvailability) (property_id : string) (dates : list Z)
    (cal : gmap (string * Z) CalendarAvailability) (d : Z) :
  NoDup dates ->
  d ∈ dates ->
  update_calendar cond f property_id dates cal !! (property_id, d)
  = (fun c => if cond c then f c else c) <$> cal !! (property_id, d).
Proof.
  unfold update_calendar. revert cal.
  induction dates as [|d0 rest IH]; intros cal Hnd Hd.
  - by apply elem_of_nil in Hd.
  - apply NoDup_cons in Hnd as [Hd0 Hnd]. simpl.
    apply elem_of_cons in Hd as [->|Hd].
    + clear IH.
      assert (forall m : gmap (string * Z) CalendarAvailability,
                fold_left (fun m d => alter (fun c => if cond c then f c else c)
                                            (property_id, d) m) rest m
                !! (property_id, d0) = m !! (property_id, d0)) as Hskip.
      { revert Hd0. clear. induction rest as [|d1 rest IH]; intros Hd0 m; simpl; [done|].
        rewrite IH.
        - rewrite lookup_alter_ne; [done|]. intros [= ->]. apply Hd0. by left.
        - intros Hin. apply Hd0. by right. }
      by rewrite Hskip, lookup_alter_eq.
    + rewrite IH by done. rewrite lookup_alter_ne; [done|].
      intros [= ->]. by apply Hd0.
Qed.

Lemma update_calendar_other (cond : CalendarAvailability -> bool)
    (f : CalendarAvailability -> CalendarAvailability) (property_id : string) (dates : list Z)
    (cal : gmap (string * Z) CalendarAvailability) (key : string * Z) :
  (key.1 = property_id -> key.2 ∉ dates) ->
  update_calendar cond f property_id dates cal !! key = cal !! key.
Proof.
  unfold update_calendar. revert cal.
  induction dates as [|d0 rest IH]; intros cal Hkey; simpl; [done|].
  rewrite IH.
  - rewrite lookup_alter_ne; [done|]. intros <-. simpl in Hkey.
    apply (Hkey eq_refl). by left.
  - intros Hp Hin. apply (Hkey Hp). by right.
Qed.

(** *** [confirm_booking] *)

(** A confirmation leaves a world in which the same call returns the same
    confirmation and writes nothing. *)
Lemma confirm_booking_fixed_point (e e' : env) (booking_id payment_intent_id : string)
    (w w1 : world) (reference status_ payment : string) (at_ : option Z) :
  confirm_booking e booking_id payment_intent_id w
  = (BookingConfirmedResponse booking_id reference status_ payment at_, w1) ->
  confirm_booking e' booking_id payment_intent_id w1
  = (BookingConfirmedResponse booking_id reference status_ payment at_, w1).
Proof.
  unfold confirm_booking at 1.
  destruct (bookings (db w) !! booking_id) as [booking|] eqn:Hb; [|discriminate].
  destruct (String.eqb (b_status booking) CONFIRMED
            && String.eqb (payment_status booking) PAID) eqn:Hdone.
  - (* already confirmed and paid: nothing was written *)
    intros [= <- <- <- <- <-]. unfold confirm_booking. by rewrite Hb, Hdone.
  - destruct (negb (String.eqb (b_status booking) RESERVED)); [discriminate|].
    destruct (negb (bool_decide _)); [discriminate|].
    destruct (if stripe_error e then None else _) as [intent|]; [|discriminate].
    destruct (negb (String.eqb (pi_status intent) "succeeded")); [discriminate|].
    intros [= <- <- <- <- <-]. unfold confirm_booking. simpl.
    by rewrite lookup_insert_eq.
Qed.

(** The later calls for one booking and payment intent, one after the
    other: their responses and the world they leave. *)
Fixpoint confirm_again (later : list env) (booking_id payment_intent_id : string)
    (w : world) : list confirm_response * world :=
  match later with
  | [] => ([], w)
  | e' :: rest =>
      let '(r, w1) := confirm_booking e' booking_id payment_intent_id w in
      let '(rs, w2) := confirm_again rest booking_id payment_intent_id w1 in
      (r :: rs, w2)
  end.

(** C2. When [confirm_booking] answers with a confirmation, all later calls
    for the same booking and payment intent, whatever their clock, the
    identifiers they draw and the answer of the payment processor, return
    that same confirmation and leave the world as the first call left it:
    the booking row, the calendar, the payment transactions, the processor
    and the scheduled tasks. *)
Theorem confirm_booking_is_idempotent (e : env) (later : list env)
    (booking_id payment_intent_id : string) (w w1 : world)
    (reference status_ payment : string) (at_ : option Z) :
  confirm_booking e booking_id payment_intent_id w
  = (BookingConfirmedResponse booking_id reference status_ payment at_, w1) ->
  confirm_again later booking_id payment_intent_id w1
  = (repeat (BookingConfirmedResponse booking_id reference status_ payment at_)
            (length later),
     w1).
Proof.
  intros Hfirst. induction later as [|e' rest IH]; simpl; [done|].
  rewrite (confirm_booking_fixed_point _ e' _ _ _ _ _ _ _ _ Hfirst).
  by rewrite IH.
Qed.

(** *** [cancel_booking] *)

(** C10. A paid booking with a payment intent that can still be cancelled
    and whose refund amount is positive: when the refund request to the
    payment processor raises, [cancel_booking] answers with refund status
    failed and the computed amount, stores the booking as cancelled with
    payment status refunded and that refund amount, releases the calendar
    cells the booking held, and neither the processor nor the transaction
    table records a refund. *)
Theorem failed_refund_is_stored_as_refunded (e : env) (booking_id : string)
    (reason : option string) (w : world) (booking : BookingRow) (intent_id : string) :
  bookings (db w) !! booking_id = Some booking ->
  b_status booking <> CHECKED_IN ->
  b_status booking <> CHECKED_OUT ->
  b_status booking <> CANCELLED ->
  payment_status booking = PAID ->
  stripe_payment_intent_id booking = Some intent_id ->
  intent_id <> "" ->
  is_positive (calculate_refund_amount (today e) booking) = true ->
  stripe_error e = true ->
  fst (cancel_booking e booking_id reason w)
  = BookingCancelResponse booking_id CANCELLED (Some "failed")
      (Some (calculate_refund_amount (today e) booking))
  /\ (exists row,
        bookings (db (snd (cancel_booking e booking_id reason w))) !! booking_id = Some row
        /\ b_status row = CANCELLED
        /\ payment_status row = REFUNDED
        /\ refund_amount row = Some (calculate_refund_amount (today e) booking))
  /\ refunds (stripe (snd (cancel_booking e booking_id reason w))) = refunds (stripe w)
  /\ payment_transactions (db (snd (cancel_booking e booking_id reason w)))
     = payment_transactions (db w)
  /\ (forall d cell,
        check_in booking <= d < check_out booking ->
        calendar_availability (db w) !! (b_property_id booking, d) = Some cell ->
        cell_booking_id cell = Some booking_id ->
        calendar_availability (db (snd (cancel_booking e booking_id reason w)))
          !! (b_property_id booking, d)
        = Some {| available := true; availability_status := "available";
                  cell_booking_id := None; price := price cell;
                  cell_updated_at := now e |}).
Proof.
  intros Hb Hin Hout Hcan Hpaid Hintent Hne Hpos Herr.
  unfold cancel_booking. rewrite Hb.
  apply String.eqb_neq in Hin, Hout, Hcan. rewrite Hin, Hout, Hcan. simpl orb. cbv iota.
  unfold process_refund. rewrite Hpaid, Hintent. simpl text_truthy.
  apply String.eqb_neq in Hne. rewrite Hne. simpl.
  rewrite Hpos, Herr. simpl.
  assert (truthy (calculate_refund_amount (today e) booking) = true) as Htruthy.
  { unfold is_positive in Hpos. unfold truthy. apply Z.ltb_lt in Hpos.
    apply negb_true_iff, Z.eqb_neq. lia. }
  repeat split.
  - eexists. split; [apply lookup_insert_eq|]. simpl. by rewrite Htruthy.
  - by rewrite app_nil_r.
  - by rewrite app_nil_r.
  - intros d cell Hd Hcell Hheld.
    rewrite update_calendar_lookup;
      [|apply date_range_NoDup|by apply date_range_elem].
    rewrite Hcell. simpl. unfold held_by. rewrite Hheld, String.eqb_refl. done.
Qed.

(** *** [create_booking] *)

(** The steps a request still has before it. *)
Definition rank (st : stage) : nat :=
  match st with
  | load_property => 8
  | acquire_lock _ => 7
  | verify_availability _ => 6
  | calculate_pricing _ => 5
  | upsert_guest _ _ => 4
  | generate_reference _ _ _ => 3
  | create_payment_intent _ _ _ _ => 2
  | insert_and_commit _ _ _ _ _ _ => 1
  | finished _ => 0
  end.

Lemma step_progress e req st w : (rank (fst (step e req st w)) <= pred (rank st))%nat.
Proof.
  destruct st; simpl; repeat case_match; simpl; lia.
Qed.

Lemma steps_finish n e req st w :
  (rank st <= n)%nat -> rank (fst (steps n e req st w)) = 0%nat.
Proof.
  revert st w. induction n as [|n IH]; intros st w Hr; simpl; [lia|].
  pose proof (step_progress e req st w) as Hp.
  destruct (step e req st w) as [st' w']. apply IH. simpl in Hp. lia.
Qed.

(** [create_booking] always returns: its eight steps reach a response. *)
Theorem create_booking_returns e req w :
  exists r, fst (create_booking e req w) = finished r.
Proof.
  pose proof (steps_finish 8 e req load_property w ltac:(simpl; lia)) as Hr.
  unfold create_booking. destruct (fst (steps 8 e req load_property w)); try discriminate.
  by eexists.
Qed.

(** No step of [create_booking] cancels a payment intent: an intent the
    processor holds after a step was there before, unchanged, or has just
    been created and awaits its payment. *)
Lemma step_never_cancels e req st w intent_id intent :
  intents (stripe (snd (step e req st w))) !! intent_id = Some intent ->
  intents (stripe w) !! intent_id = Some intent
  \/ pi_status intent = "requires_payment_method".
Proof.
  destruct st; simpl; repeat case_match; simpl; auto.
  rewrite lookup_insert. case_decide; [|by left]. intros [= <-]. by right.
Qed.

Lemma steps_never_cancel n e req st w intent_id intent :
  intents (stripe (snd (steps n e req st w))) !! intent_id = Some intent ->
  intents (stripe w) !! intent_id = Some intent
  \/ pi_status intent = "requires_payment_method".
Proof.
  revert st w. induction n as [|n IH]; intros st w; simpl; [by left|].
  pose proof (step_never_cancels e req st w intent_id intent) as Hs.
  destruct (step e req st w) as [st' w']. intros Hi.
  apply IH in Hi as [Hi|Hi]; [|by right]. by apply Hs.
Qed.

(** The world of the examples: one active property, nothing booked. *)
Definition villa : Property :=
  {| tenant_id := "tenant-1"; status := "active"; base_price := Dec 12000 2;
     cleaning_fee := Some (Dec 5000 2); tax_rate := Some (Dec 7 0); tax_included := false;
     currency := "EUR" |}.

Definition empty_world : world :=
  {| db := {| properties := {[ "villa" := villa ]}; bookings := ∅;
              calendar_availability := ∅; guests := ∅; payment_transactions := [] |};
     stripe := {| intents := ∅; refunds := [] |};
     locks := ∅;
     background_tasks := [] |}.

Definition surroundings (at_ : Z) (tag : string) (stripe_fails : bool) : env :=
  {| now := at_; today := 739700; year := 2026;
     new_booking_id := "booking-" +:+ tag; new_guest_id := "guest-" +:+ tag;
     new_transaction_id := "tx-" +:+ tag; stripe_error := stripe_fails;
     new_intent_id := "pi_" +:+ tag; new_client_secret := "secret_" +:+ tag;
     new_refund_id := "re_" +:+ tag; new_refund_status := "succeeded" |}.

Definition stay (first_name email_ : string) (check_in_ check_out_ : Z)
    : BookingCreateRequest :=
  {| r_property_id := "villa"; r_check_in := check_in_; r_check_out := check_out_;
     num_guests := 2;
     guest := {| gd_first_name := first_name; gd_last_name := "Guest";
                 gd_email := email_; gd_phone := None |};
     r_special_requests := None; create_account := false |}.

(** 1 June 2026 is day 739768. *)
Definition june (day : Z) : Z := 739767 + day.

Definition request_of (at_ : Z) (tag : string) (req : BookingCreateRequest)
    : request_state :=
  {| rs_env := surroundings at_ tag false; rs_request := req; rs_stage := load_property |}.

Definition ada : request_state :=
  request_of 1780000000000000 "a" (stay "Ada" "ada@example.org" (june 1) (june 5)).
Definition bob : request_state :=
  request_of 1780000000500000 "b" (stay "Bob" "bob@example.org" (june 3) (june 7)).
Definition bob_same_dates : request_state :=
  request_of 1780000000500000 "b" (stay "Bob" "bob@example.org" (june 1) (june 5)).
Definition cyd : request_state :=
  request_of 1780000000500000 "c" (stay "Cyd" "cyd@example.org" (june 10) (june 12)).

Definition reserved (tag reference secret : string) (expires : Z) (amount : Z)
    : option create_response :=
  Some (BookingReservedResponse ("booking-" +:+ tag) reference RESERVED PENDING
          (Dec amount 2) "EUR" expires secret).

(** C1, two requests for overlapping stays of one property (1 to 5 June and
    3 to 7 June) served at the same time. Their locks differ, since the key
    of the lock names the dates. Ada's request checks the availability, then
    Bob's request checks it and goes on to the upsert of its guest, then
    Ada's runs to its commit, then Bob's generates its reference, creates
    its intent and commits: the calendar upsert updates Ada's cells instead
    of failing. Both requests are answered with a reservation, the two
    reserved bookings overlap, and the cells of 3 and 4 June refer to Bob's
    booking alone. *)
Theorem overlapping_requests_are_both_reserved :
  let '(requests, w) :=
    run_schedule [0; 0; 0; 1; 1; 1; 1; 1; 0; 0; 0; 0; 0; 1; 1; 1]%nat
                 ([ada; bob], empty_world) in
  responses requests
  = [ reserved "a" "PMS-2026-000001" "secret_a" 1780001800000000 59546;
      reserved "b" "PMS-2026-000002" "secret_b" 1780001800500000 59546 ]
  /\ (exists a b,
        bookings (db w) !! "booking-a" = Some a
        /\ bookings (db w) !! "booking-b" = Some b
        /\ double_booked a b = true)
  /\ cell_booking_id <$> calendar_availability (db w) !! ("villa", june 3)
     = Some (Some "booking-b")
  /\ cell_booking_id <$> calendar_availability (db w) !! ("villa", june 4)
     = Some (Some "booking-b").
Proof.
  vm_compute. split; [reflexivity|]. split; [|split; reflexivity].
  eexists _, _. repeat split; reflexivity.
Qed.

(** The scenario of the specification, two requests for the same stay: the
    lock is the same, the second request obtains it once the first has
    committed, finds the booking and is refused with 409; one booking
    exists and the four cells are tentative and refer to it. *)
Example same_stay_is_reserved_once :
  let '(requests, w) :=
    run_schedule [0; 0; 1; 0; 0; 0; 0; 0; 0; 1; 1]%nat ([ada; bob_same_dates], empty_world) in
  responses requests
  = [ reserved "a" "PMS-2026-000001" "secret_a" 1780001800000000 59546;
      Some (create_refused 409 "Property is not available for selected dates") ]
  /\ size (bookings (db w)) = 1%nat
  /\ map (fun d => (fun c => (availability_status c, cell_booking_id c))
                     <$> calendar_availability (db w) !! ("villa", d))
         [june 1; june 2; june 3; june 4]
     = repeat (Some ("tentative", Some "booking-a")) 4
  /\ locks w = ∅.
Proof. vm_compute. repeat split; reflexivity. Qed.

(** A request whose stay overlaps two reserved bookings is not refused with
    409: the availability query finds two rows, [scalar_one_or_none] raises,
    and the request ends in an unhandled exception. *)
Example two_conflicts_are_not_refused :
  let w1 := snd (create_booking (surroundings 1780000000000000 "a" false)
                   (stay "Ada" "ada@example.org" (june 1) (june 3)) empty_world) in
  let w2 := snd (create_booking (surroundings 1780000001000000 "b" false)
                   (stay "Bob" "bob@example.org" (june 3) (june 5)) w1) in
  size (bookings (db w2)) = 2%nat
  /\ fst (create_booking (surroundings 1780000002000000 "c" false)
            (stay "Cyd" "cyd@example.org" (june 2) (june 4)) w2)
     = finished (unhandled "MultipleResultsFound").
Proof. vm_compute. split; reflexivity. Qed.

(** C3, two requests for different stays served at the same time: both
    generate the reference PMS-2026-000001 before either commits. Cyd's
    commit meets the unique index on the reference; the [IntegrityError] is
    answered with 409 and the insert is rolled back, while the payment
    intent created for Cyd stays with the processor, awaiting a payment. *)
Theorem integrity_error_leaves_the_intent_open :
  let '(requests, w) :=
    run_schedule [0; 0; 0; 0; 0; 0; 1; 1; 1; 1; 1; 1; 0; 0; 1; 1]%nat
                 ([ada; cyd], empty_world) in
  responses requests
  = [ reserved "a" "PMS-2026-000001" "secret_a" 1780001800000000 59546;
      Some (create_refused 409
              ("Property is no longer available for selected dates. "
               +:+ "Please choose different dates.")) ]
  /\ bookings (db w) !! "booking-c" = None
  /\ calendar_availability (db w) !! ("villa", june 10) = None
  /\ pi_status <$> intents (stripe w) !! "pi_c" = Some "requires_payment_method"
  /\ locks w = ∅.
Proof. vm_compute. repeat split; reflexivity. Qed.

(** Run without interruption, a request that is answered with a
    reservation has found no reserved or confirmed booking of the property
    that overlaps its stay, and has added its own row and nothing else to
    the bookings. *)
Lemma create_booking_reserved e req w w' bid reference st_ ps amount cur expires secret :
  create_booking e req w
  = (finished (BookingReservedResponse bid reference st_ ps amount cur expires secret), w') ->
  (forall id_ b, bookings (db w) !! id_ = Some b ->
                 conflicts_with (r_property_id req) (r_check_in req) (r_check_out req) b
                 = false)
  /\ bookings (db w) !! new_booking_id e = None
  /\ exists row,
       bookings (db w') = <[new_booking_id e := row]> (bookings (db w))
       /\ b_property_id row = r_property_id req
       /\ check_in row = r_check_in req
       /\ check_out row = r_check_out req.
Proof.
  unfold create_booking. simpl.
  destruct (properties (db w) !! r_property_id req) as [property|]; [|discriminate].
  destruct (String.eqb (status property) "active"); [|discriminate].
  simpl.
  destruct (bool_decide (lock_key req ∈ locks w)); [discriminate|].
  simpl.
  destruct (check_availability_internal (db w) _ _ _) eqn:Havail; [|discriminate..].
  simpl.
  destruct (calculate_price_breakdown _ _ _ _ _) as [pb|]; [|discriminate].
  simpl.
  destruct (create_or_get_guest _ _ _ _) as [[[gid grow] gnew]|]; [|discriminate].
  simpl.
  destruct (generate_booking_reference _ _) as [ref|]; [|discriminate].
  simpl.
  destruct (stripe_error e); [discriminate|].
  simpl.
  destruct (nightly_rates pb); [discriminate|].
  destruct (bool_decide (is_Some (bookings (db w) !! new_booking_id e))) eqn:Hfresh;
    [discriminate|].
  simpl orb. destruct (_ || _); [discriminate|].
  unfold leave. intros [= <- <- <- <- <- <- <- <- <-]. simpl.
  split; [|split].
  - intros id_ b Hb. unfold check_availability_internal in Havail.
    destruct (map_to_list _) as [|? [|? ?]] eqn:Hlist; [|discriminate..].
    apply map_to_list_empty_iff in Hlist.
    destruct (conflicts_with _ _ _ b) eqn:Hc; [|done].
    assert (filter (fun kv => conflicts_with (r_property_id req) (r_check_in req)
                                (r_check_out req) kv.2 = true) (bookings (db w))
            !! id_ = Some b) as Hin by (by apply map_lookup_filter_Some).
    rewrite Hlist in Hin. by rewrite lookup_empty in Hin.
  - apply bool_decide_eq_false in Hfresh. by apply eq_None_not_Some.
  - by eexists.
Qed.

Definition is_reservation (r : create_response) : bool :=
  match r with
  | BookingReservedResponse _ _ _ _ _ _ _ _ => true
  | _ => false
  end.

Definition stage_is_reservation (st : stage) : bool :=
  match st with
  | finished r => is_reservation r
  | _ => false
  end.

(** Only the commit of a reservation writes to the relational store. *)
Lemma step_db e req st w :
  db (snd (step e req st w)) = db w
  \/ stage_is_reservation (fst (step e req st w)) = true.
Proof.
  destruct st; simpl; repeat case_match; simpl; auto.
Qed.

Lemma steps_finished n e req r w : steps n e req (finished r) w = (finished r, w).
Proof. induction n as [|n IH]; simpl; [done|apply IH]. Qed.

Lemma steps_db n e req st w :
  db (snd (steps n e req st w)) = db w
  \/ stage_is_reservation (fst (steps n e req st w)) = true.
Proof.
  revert st w. induction n as [|n IH]; intros st w; simpl; [by left|].
  pose proof (step_db e req st w) as Hs.
  destruct (step e req st w) as [st' w1]. simpl in Hs.
  destruct Hs as [Hs|Hs].
  - destruct (IH st' w1) as [Hd|Hd]; [left; congruence|by right].
  - destruct st'; try done. rewrite steps_finished. by right.
Qed.

(** No two different bookings of one property are reserved or confirmed
    over overlapping stays. *)
Definition no_double_booking (d : database) : Prop :=
  forall i j a b,
    i <> j -> bookings d !! i = Some a -> bookings d !! j = Some b ->
    double_booked a b = false.

Lemma double_booked_sym a b : double_booked a b = double_booked b a.
Proof.
  unfold double_booked. rewrite (String.eqb_sym (b_property_id a)).
  destruct (String.eqb _ _), (active_status (b_status a)), (active_status (b_status b)),
           (check_in a <? check_out b), (check_in b <? check_out a); done.
Qed.

(** Run without interruption, [create_booking] keeps the bookings apart:
    from a store without double booking it leads to one without. *)
Theorem uninterrupted_create_booking_is_safe e req w :
  no_double_booking (db w) ->
  no_double_booking (db (snd (create_booking e req w))).
Proof.
  intros Hsafe.
  destruct (create_booking_returns e req w) as [r Hr].
  destruct (create_booking e req w) as [st w'] eqn:Hrun. simpl in Hr. subst st.
  destruct r as [bid reference st_ ps amount cur expires secret| | |].
  - destruct (create_booking_reserved _ _ _ _ _ _ _ _ _ _ _ _ Hrun)
      as (Hfree & Hfresh & row & Hrows & Hp & Hci & Hco).
    simpl. intros i j a b Hij. rewrite Hrows.
    assert (forall old, conflicts_with (r_property_id req) (r_check_in req)
                          (r_check_out req) old = false ->
                        double_booked row old = false) as Hnew.
    { intros old Hc. unfold conflicts_with in Hc. unfold double_booked.
      rewrite Hp, Hci, Hco. rewrite (String.eqb_sym (r_property_id req)).
      destruct (String.eqb _ _), (active_status (b_status old)),
               (active_status (b_status row)); try done. simpl in *.
      rewrite Z.gtb_ltb in Hc.
      destruct (check_in old <? r_check_out req), (r_check_in req <? check_out old);
        done. }
    destruct (decide (i = new_booking_id e)) as [->|Hi];
      destruct (decide (j = new_booking_id e)) as [->|Hj]; try done.
    + rewrite lookup_insert_eq, lookup_insert_ne by done.
      intros [= <-] Hb. apply Hnew. by eapply Hfree.
    + rewrite lookup_insert_eq, lookup_insert_ne by done.
      intros Ha [= <-]. rewrite double_booked_sym. apply Hnew. by eapply Hfree.
    + rewrite !lookup_insert_ne by done. by apply Hsafe.
  - destruct (steps_db 8 e req load_property w) as [Hd|Hd];
      unfold create_booking in Hrun; rewrite Hrun in Hd; simpl in Hd; [|done].
    simpl. by rewrite Hd.
  - destruct (steps_db 8 e req load_property w) as [Hd|Hd];
      unfold create_booking in Hrun; rewrite Hrun in Hd; simpl in Hd; [|done].
    simpl. by rewrite Hd.
  - destruct (steps_db 8 e req load_property w) as [Hd|Hd];
      unfold create_booking in Hrun; rewrite Hrun in Hd; simpl in Hd; [|done].
    simpl. by rewrite Hd.
Qed.

(** The worlds of the examples of confirmation and cancellation: Ada's
    stay reserved, paid at the processor, and confirmed. *)
Definition reserved_world : world :=
  snd (create_booking (rs_env ada) (rs_request ada) empty_world).

(** The guest pays: the processor marks the intent as succeeded. *)
Definition pay (intent_id : string) (w : world) : world :=
  set_stripe w
    {| intents :=
         alter (fun i => {| pi_status := "succeeded"; pi_amount := pi_amount i;
                            pi_currency := pi_currency i;
                            amount_received := pi_amount i;
                            latest_charge := Some "ch_1";
                            client_secret := client_secret i;
                            metadata := metadata i |})
               intent_id (intents (stripe w));
       refunds := refunds (stripe w) |}.

Definition paid_world : world := pay "pi_a" reserved_world.

Definition confirmed_world : world :=
  snd (confirm_booking (surroundings 1780000600000000 "x" false) "booking-a" "pi_a"
         paid_world).

Example first_confirmation :
  fst (confirm_booking (surroundings 1780000600000000 "x" false) "booking-a" "pi_a"
         paid_world)
  = BookingConfirmedResponse "booking-a" "PMS-2026-000001" CONFIRMED PAID
      (Some 1780000600000000)
  /\ length (payment_transactions (db confirmed_world)) = 1%nat
  /\ (availability_status <$> calendar_availability (db confirmed_world) !! ("villa", june 2))
     = Some "booked".
Proof. vm_compute. repeat split; reflexivity. Qed.

(** Two more calls, the second with the payment processor out of reach. *)
Lemma confirm_booking_is_idempotent_witness :
  confirm_again [surroundings 1780000900000000 "y" false;
                 surroundings 1780001000000000 "z" true]
    "booking-a" "pi_a" confirmed_world
  = (repeat (BookingConfirmedResponse "booking-a" "PMS-2026-000001" CONFIRMED PAID
               (Some 1780000600000000)) 2,
     confirmed_world).
Proof.
  apply (confirm_booking_is_idempotent (surroundings 1780000600000000 "x" false)
           [surroundings 1780000900000000 "y" false;
            surroundings 1780001000000000 "z" true]
           "booking-a" "pi_a" paid_world).
  vm_compute. reflexivity.
Defined.

(** Ada cancels 68 days before her stay while the processor is out of
    reach. *)
Definition refund_down : env := surroundings 1780001200000000 "z" true.

Lemma failed_refund_is_stored_as_refunded_witness :
  match bookings (db confirmed_world) !! "booking-a" with
  | Some booking =>
      fst (cancel_booking refund_down "booking-a" None confirmed_world)
      = BookingCancelResponse "booking-a" CANCELLED (Some "failed")
          (Some (calculate_refund_amount (today refund_down) booking))
      /\ (exists row,
            bookings (db (snd (cancel_booking refund_down "booking-a" None confirmed_world)))
              !! "booking-a" = Some row
            /\ b_status row = CANCELLED
            /\ payment_status row = REFUNDED
            /\ refund_amount row = Some (calculate_refund_amount (today refund_down) booking))
      /\ refunds (stripe (snd (cancel_booking refund_down "booking-a" None confirmed_world)))
         = refunds (stripe confirmed_world)
      /\ payment_transactions
           (db (snd (cancel_booking refund_down "booking-a" None confirmed_world)))
         = payment_transactions (db confirmed_world)
      /\ (forall d cell,
            check_in booking <= d < check_out booking ->
            calendar_availability (db confirmed_world) !! (b_property_id booking, d)
            = Some cell ->
            cell_booking_id cell = Some "booking-a" ->
            calendar_availability
              (db (snd (cancel_booking refund_down "booking-a" None confirmed_world)))
              !! (b_property_id booking, d)
            = Some {| available := true; availability_status := "available";
                      cell_booking_id := None; price := price cell;
                      cell_updated_at := now refund_down |})
  | None => False
  end.
Proof.
  pose proof (failed_refund_is_stored_as_refunded refund_down "booking-a" None
                confirmed_world) as H.
  destruct (bookings (db confirmed_world) !! "booking-a") as [booking|] eqn:Hrow;
    [|vm_compute in Hrow; discriminate].
  vm_compute in Hrow. injection Hrow as <-.
  apply (H _ "pi_a" eq_refl); vm_compute; (discriminate || reflexivity).
Defined.

Example failed_refund_in_figures :
  fst (cancel_booking refund_down "booking-a" None confirmed_world)
  = BookingCancelResponse "booking-a" CANCELLED (Some "failed") (Some (Dec 59546 2))
  /\ (payment_status <$> bookings (db (snd (cancel_booking refund_down "booking-a" None
                                             confirmed_world))) !! "booking-a")
     = Some REFUNDED
  /\ refunds (stripe (snd (cancel_booking refund_down "booking-a" None confirmed_world)))
     = [].
Proof. vm_compute. repeat split; reflexivity. Qed.

(** *** A reservation that is given up *)

(** What a reservation commits. *)
Lemma create_booking_commit e req w w' bid reference st_ ps amount cur expires secret :
  create_booking e req w
  = (finished (BookingReservedResponse bid reference st_ ps amount cur expires secret), w') ->
  bid = new_booking_id e
  /\ check_availability_internal (db w) (r_property_id req) (r_check_in req)
       (r_check_out req) = is_available
  /\ bookings (db w) !! new_booking_id e = None
  /\ exists property pb guest_id intent_id,
       bookings (db w')
       = <[new_booking_id e :=
             new_booking_row e req property pb guest_id reference intent_id]>
           (bookings (db w))
       /\ calendar_availability (db w')
          = block_calendar (now e) (new_booking_id e) property pb (r_property_id req)
              (r_check_in req) (r_check_out req) (calendar_availability (db w)).
Proof.
  unfold create_booking. simpl.
  destruct (properties (db w) !! r_property_id req) as [property|]; [|discriminate].
  destruct (String.eqb (status property) "active"); [|discriminate].
  simpl.
  destruct (bool_decide (lock_key req ∈ locks w)); [discriminate|].
  simpl.
  destruct (check_availability_internal (db w) _ _ _) eqn:Havail; [|discriminate..].
  simpl.
  destruct (calculate_price_breakdown _ _ _ _ _) as [pb|]; [|discriminate].
  simpl.
  destruct (create_or_get_guest _ _ _ _) as [[[gid grow] gnew]|]; [|discriminate].
  simpl.
  destruct (generate_booking_reference _ _) as [ref|]; [|discriminate].
  simpl.
  destruct (stripe_error e); [discriminate|].
  simpl.
  destruct (nightly_rates pb); [discriminate|].
  destruct (bool_decide (is_Some (bookings (db w) !! new_booking_id e))) eqn:Hfresh;
    [discriminate|].
  simpl orb. destruct (_ || _); [discriminate|].
  unfold leave. intros [= <- <- <- <- <- <- <- <- <-]. simpl.
  repeat split.
  - apply bool_decide_eq_false in Hfresh. by apply eq_None_not_Some.
  - by exists property, pb, gid, (new_intent_id e).
Qed.

(** Every date of the stay is held by the booking after the upsert. *)
Lemma upserts_hold (booking_id property_id : string)
    (f : Z -> option CalendarAvailability -> option CalendarAvailability)
    (dates : list Z) (cal : gmap (string * Z) CalendarAvailability) (d : Z) :
  (forall d0 x, exists c, f d0 x = Some c /\ cell_booking_id c = Some booking_id) ->
  d ∈ dates
  \/ (exists c, cal !! (property_id, d) = Some c /\ cell_booking_id c = Some booking_id) ->
  exists c,
    fold_left (fun m d0 => partial_alter (f d0) (property_id, d0) m) dates cal
    !! (property_id, d) = Some c
    /\ cell_booking_id c = Some booking_id.
Proof.
  intros Hf. revert cal. induction dates as [|d0 rest IH]; intros cal Hor; simpl.
  - destruct Hor as [Hin|Hc]; [by apply elem_of_nil in Hin|done].
  - apply IH. destruct (decide (d = d0)) as [->|Hne].
    + right. rewrite lookup_partial_alter_eq. apply Hf.
    + destruct Hor as [Hin|Hc].
      * left. apply elem_of_cons in Hin as [?|?]; done.
      * right. rewrite lookup_partial_alter_ne by (intros [= ?]; done). done.
Qed.

Lemma block_calendar_held at_ booking_id property pb property_id check_in_ check_out_ cal d :
  d ∈ date_range check_in_ check_out_ ->
  exists c,
    block_calendar at_ booking_id property pb property_id check_in_ check_out_ cal
    !! (property_id, d) = Some c
    /\ cell_booking_id c = Some booking_id.
Proof.
  intros Hd. unfold block_calendar.
  apply (upserts_hold booking_id property_id
           (fun d0 =>
              upsert_cell at_ booking_id
                (match nth_error (nightly_rates pb) (Z.to_nat (d0 - check_in_)) with
                 | Some r => rate_price r
                 | None => base_price property
                 end))); [|by left].
  intros d0 [c|]; simpl; by eexists.
Qed.

Lemma active_status_CANCELLED : active_status CANCELLED = false.
Proof. reflexivity. Qed.

(** The rows [select_calendar] finds after the cells held by a booking
    were released are all available. *)
Lemma released_cells_are_available at_ booking_id property pb property_id check_in_ check_out_
    now' cal :
  List.filter (fun row => negb (available (snd row)))
    (select_calendar
       (update_calendar (held_by booking_id) (release_cell now') property_id
          (date_range check_in_ check_out_)
          (block_calendar at_ booking_id property pb property_id check_in_ check_out_ cal))
       property_id (date_range check_in_ check_out_))
  = [].
Proof.
  unfold select_calendar.
  assert (forall dates,
            (forall d, d ∈ dates -> d ∈ date_range check_in_ check_out_) ->
            List.filter (fun row : Z * CalendarAvailability => negb (available row.2))
              (omap (fun d => pair d <$>
                       update_calendar (held_by booking_id) (release_cell now') property_id
                         (date_range check_in_ check_out_)
                         (block_calendar at_ booking_id property pb property_id check_in_
                            check_out_ cal)
                       !! (property_id, d)) dates)
            = []) as Hgen.
  { induction dates as [|d rest IH]; intros Hsub; [done|].
    simpl. rewrite update_calendar_lookup
      by (apply date_range_NoDup || (apply Hsub; by left)).
    destruct (block_calendar_held at_ booking_id property pb property_id check_in_
                check_out_ cal d) as (c & -> & Hheld); [apply Hsub; by left|].
    simpl. unfold held_by. rewrite Hheld, String.eqb_refl. simpl.
    apply IH. intros d' Hd'. apply Hsub. by right. }
  by apply Hgen.
Qed.

(** A reservation that expires or is cancelled before it is paid gives its
    dates back: run without interruption, [create_booking] followed by
    [cancel_expired_booking_task] or by [cancel_booking] leaves a store in
    which the same stay is available again. *)
Theorem released_stay_is_available_again (e e' : env) (req : BookingCreateRequest)
    (w w' : world) (bid reference st_ ps : string) (amount : decimal) (cur : string)
    (expires : Z) (secret : string) (reason : option string) :
  create_booking e req w
  = (finished (BookingReservedResponse bid reference st_ ps amount cur expires secret), w') ->
  check_availability_internal (db (cancel_expired_booking_task e' bid w'))
    (r_property_id req) (r_check_in req) (r_check_out req) = is_available
  /\ check_availability_internal (db (snd (cancel_booking e' bid reason w')))
       (r_property_id req) (r_check_in req) (r_check_out req) = is_available.
Proof.
  intros Hrun.
  destruct (create_booking_commit _ _ _ _ _ _ _ _ _ _ _ _ Hrun)
    as (-> & Havail & Hfresh & property & pb & gid & iid & Hrows & Hcal).
  assert (forall row' : BookingRow,
            active_status (b_status row') = false ->
            map_to_list
              (filter (fun kv : string * BookingRow =>
                         conflicts_with (r_property_id req) (r_check_in req)
                           (r_check_out req) kv.2 = true)
                      (<[new_booking_id e := row']> (bookings (db w'))))
            = []) as Hnone.
  { intros row' Hst. rewrite Hrows, insert_insert_eq.
    rewrite map_filter_insert_False.
    2:{ simpl. unfold conflicts_with. rewrite Hst.
        rewrite andb_false_r. simpl. discriminate. }
    rewrite delete_id by done.
    unfold check_availability_internal in Havail.
    by destruct (map_to_list _) as [|? [|? ?]]. }
  split.
  - unfold cancel_expired_booking_task. rewrite Hrows, lookup_insert_eq. simpl.
    rewrite <- Hrows. unfold check_availability_internal. simpl.
    rewrite Hnone by done. rewrite Hcal.
    by rewrite released_cells_are_available.
  - unfold cancel_booking. rewrite Hrows, lookup_insert_eq. simpl.
    rewrite <- Hrows. unfold check_availability_internal. simpl.
    rewrite Hnone by done. rewrite Hcal.
    by rewrite released_cells_are_available.
Qed.

(** *** What a confirmation and a cancellation settle *)

(** A booking that [confirm_booking] has answered as confirmed is out of
    reach of the expiration scheduled at its reservation:
    [cancel_expired_booking_task] leaves the world as it is, whenever it
    runs. *)
Theorem confirmed_booking_is_not_expired (e e' : env)
    (booking_id payment_intent_id : string) (w w1 : world)
    (reference status_ payment : string) (at_ : option Z) :
  confirm_booking e booking_id payment_intent_id w
  = (BookingConfirmedResponse booking_id reference status_ payment at_, w1) ->
  cancel_expired_booking_task e' booking_id w1 = w1.
Proof.
  unfold confirm_booking.
  destruct (bookings (db w) !! booking_id) as [booking|] eqn:Hb; [|discriminate].
  destruct (String.eqb (b_status booking) CONFIRMED
            && String.eqb (payment_status booking) PAID) eqn:Hdone.
  - intros [= <- <- <- <- <-]. unfold cancel_expired_booking_task. rewrite Hb.
    apply andb_prop in Hdone as [Hc _]. apply String.eqb_eq in Hc. by rewrite Hc.
  - destruct (negb (String.eqb (b_status booking) RESERVED)); [discriminate|].
    destruct (negb (bool_decide _)); [discriminate|].
    destruct (if stripe_error e then None else _) as [intent|]; [|discriminate].
    destruct (negb (String.eqb (pi_status intent) "succeeded")); [discriminate|].
    intros [= <- <- <- <- <-]. unfold cancel_expired_booking_task. simpl.
    by rewrite lookup_insert_eq.
Qed.

(** A cancellation is final. Once [cancel_booking] has answered with a
    cancellation, every later cancellation of the booking is refused as
    already cancelled, every confirmation is refused, the expiration does
    nothing, and none of them changes the world: no second refund is
    made. *)
Theorem cancelled_booking_stays_cancelled (e e' : env) (booking_id : string)
    (reason reason' : option string) (payment_intent_id : string) (w w1 : world)
    (status_ : string) (refund_status : option string) (refund : option decimal) :
  cancel_booking e booking_id reason w
  = (BookingCancelResponse booking_id status_ refund_status refund, w1) ->
  cancel_booking e' booking_id reason' w1
  = (cancel_refused 400 "Booking is already cancelled", w1)
  /\ confirm_booking e' booking_id payment_intent_id w1
     = (confirm_refused 400 "Booking cannot be confirmed from status: cancelled", w1)
  /\ cancel_expired_booking_task e' booking_id w1 = w1.
Proof.
  unfold cancel_booking at 1.
  destruct (bookings (db w) !! booking_id) as [booking|] eqn:Hb; [|discriminate].
  destruct (_ || _); [discriminate|].
  destruct (String.eqb (b_status booking) CANCELLED); [discriminate|].
  destruct (process_refund e booking_id reason booking) as [[[ra rs] ts] rf].
  intros [= <- <- <- <-].
  unfold cancel_booking, confirm_booking, cancel_expired_booking_task. simpl.
  by rewrite lookup_insert_eq.
Qed.

(** *** The size of a refund *)

Lemma pow10_positive n : 0 < pow10 n.
Proof. unfold pow10. apply Z.pow_pos_nonneg; lia. Qed.

Lemma pow10_S n : pow10 (S n) = 10 * pow10 n.
Proof. unfold pow10. rewrite Nat2Z.inj_succ, Z.pow_succ_r; lia. Qed.

Lemma to_cents_nonneg (d : decimal) : 0 <= coefficient d -> 0 <= to_cents d.
Proof.
  intros Hc. unfold to_cents, rescale. destruct (_ <=? _)%nat.
  - pose proof (pow10_positive (2 - scale d)). nia.
  - apply Z.quot_pos; [done|]. pose proof (pow10_positive (scale d - 2)). lia.
Qed.

(** Half of an amount, in cents, is no more than the amount in cents. *)
Lemma half_in_cents (d : decimal) :
  0 <= coefficient d -> 0 <= to_cents (mul d (Dec 5 1)) <= to_cents d.
Proof.
  destruct d as [c s]. unfold to_cents, mul, rescale. simpl coefficient. simpl scale.
  intros Hc. destruct s as [|[|[|s]]].
  - vm_compute pow10. simpl. lia.
  - vm_compute pow10. simpl. lia.
  - simpl. vm_compute pow10. rewrite Z.quot_div_nonneg by lia.
    split; [apply Z.div_pos; lia|].
    apply Z.div_le_upper_bound; lia.
  - replace ((S (S (S s)) + 1 <=? 2)%nat) with false by (symmetry; apply Nat.leb_gt; lia).
    replace ((S (S (S s)) <=? 2)%nat) with false by (symmetry; apply Nat.leb_gt; lia).
    replace (S (S (S s)) + 1 - 2)%nat with (S (S s)) by lia.
    replace (S (S (S s)) - 2)%nat with (S s) by lia.
    pose proof (pow10_positive (S s)) as Hp. rewrite (pow10_S (S s)).
    rewrite !Z.quot_div_nonneg by lia.
    split; [apply Z.div_pos; lia|].
    replace (c * 5) with (5 * c) by lia.
    replace (10 * pow10 (S s)) with (5 * (2 * pow10 (S s))) by lia.
    rewrite Z.div_mul_cancel_l by lia.
    apply Z.div_le_compat_l; lia.
Qed.

(** A refund never exceeds the price. Every refund [cancel_booking] asks of
    the payment processor for a booking whose total price is not negative
    is for that booking's payment intent and for an amount between zero and
    the total price in cents; the refunds already made stay as they are. *)
Theorem refund_is_within_the_price (e : env) (booking_id : string)
    (reason : option string) (w : world) (booking : BookingRow) :
  bookings (db w) !! booking_id = Some booking ->
  0 <= coefficient (total_price booking) ->
  exists added,
    refunds (stripe (snd (cancel_booking e booking_id reason w)))
    = refunds (stripe w) ++ added
    /\ (length added <= 1)%nat
    /\ Forall (fun r => refund_payment_intent r
                        = default "" (stripe_payment_intent_id booking)
                        /\ 0 <= refund_cents r <= to_cents (total_price booking))
              added.
Proof.
  intros Hb Hprice.
  assert (forall added : list Refund,
            added = [] ->
            (length added <= 1)%nat
            /\ Forall (fun r => refund_payment_intent r
                                = default "" (stripe_payment_intent_id booking)
                                /\ 0 <= refund_cents r <= to_cents (total_price booking))
                      added) as Hnone.
  { intros added ->. split; [simpl; lia|constructor]. }
  unfold cancel_booking. rewrite Hb.
  destruct (_ || _); [exists []; split; [by rewrite app_nil_r|by apply Hnone]|].
  destruct (String.eqb (b_status booking) CANCELLED);
    [exists []; split; [by rewrite app_nil_r|by apply Hnone]|].
  destruct (process_refund e booking_id reason booking) as [[[ra rs] ts] rf] eqn:Hp.
  exists rf. split; [done|]. revert Hp. unfold process_refund.
  destruct (_ && _); [|intros [= _ _ _ <-]; by apply Hnone].
  destruct (is_positive _); [|intros [= _ _ _ <-]; by apply Hnone].
  destruct (stripe_error e); [intros [= _ _ _ <-]; by apply Hnone|].
  intros [= _ _ _ <-]. split; [simpl; lia|].
  constructor; [|constructor]. simpl. split; [done|].
  unfold calculate_refund_amount.
  pose proof (to_cents_nonneg _ Hprice) as Hcents.
  destruct (_ >=? 7); [lia|].
  destruct (_ >=? 3); [by apply half_in_cents|].
  change (to_cents (Dec 0 0)) with 0. lia.
Qed.

(** *** The payment webhook *)

Section stripe_webhook.
Variable bookings_of_charge : database -> string -> list (string * BookingRow).

(** An event is handled once: after the endpoint has answered success to an
    event, every event with the same identifier that arrives within 24
    hours, whatever it reports, is answered [already_processed] and leaves
    the world as it is. *)
Theorem stripe_event_is_handled_once (now now' : Z) (event : stripe_event)
    (data' : stripe_event_data) (w w1 : hooked_world) :
  stripe_webhook bookings_of_charge now (verified event) w = (JSONResponse "success", w1) ->
  now' < now + Redis.seconds 86400 ->
  stripe_webhook bookings_of_charge now'
    (verified {| stripe_event_id := stripe_event_id event;
                 stripe_event_data_object := data' |}) w1
  = (JSONResponse "already_processed", w1).
Proof.
  unfold stripe_webhook. simpl.
  destruct (stripe_event_seen now _ w); [discriminate|].
  destruct (handle_stripe_event _ _ _ _) as [s|]; [|discriminate].
  intros [= <-] Hlt. unfold stripe_event_seen, mark_stripe_event. simpl.
  rewrite lookup_insert_eq.
  by destruct (Z.ltb_spec now' (now + Redis.seconds 86400)); [|lia].
Qed.

(** The succeeded branch confirms a reserved booking without recording
    the payment. The booking is stored as confirmed and paid and no row is
    added to the payment transactions; a call of [confirm_booking] that
    follows finds the booking confirmed, answers with the confirmation and
    writes nothing either. *)
Theorem webhook_confirmation_records_no_payment (now : Z) (event_id intent_id : string)
    (intent : PaymentIntent) (w : hooked_world) (booking_id : string)
    (booking : BookingRow) (e' : env) :
  stripe_event_seen now event_id w = false ->
  booking_of_intent (db (site w)) intent_id = Some (Some (booking_id, booking)) ->
  b_status booking = RESERVED ->
  let answer :=
    stripe_webhook bookings_of_charge now
      (verified {| stripe_event_id := event_id;
                   stripe_event_data_object := payment_intent_succeeded intent_id intent |})
      w in
  fst answer = JSONResponse "success"
  /\ bookings (db (site (snd answer))) !! booking_id
     = Some (confirmed_row now intent booking)
  /\ payment_transactions (db (site (snd answer))) = payment_transactions (db (site w))
  /\ confirm_booking e' booking_id intent_id (site (snd answer))
     = (BookingConfirmedResponse booking_id (booking_reference booking) CONFIRMED PAID
          (Some now),
        site (snd answer)).
Proof.
  intros Hseen Hfound Hst. unfold stripe_webhook. simpl.
  rewrite Hseen, Hfound, Hst. simpl.
  repeat split; unfold confirm_booking; simpl; by rewrite lookup_insert_eq.
Qed.

(** A failed payment stops the clock of the reservation. After a
    [payment_intent.payment_failed] event the booking is still reserved and
    holds its dates, and [cancel_expired_booking_task] no longer cancels
    it, whenever it runs: the calendar and the payment intent stay as they
    are. *)
Theorem failed_payment_keeps_the_reservation (now : Z) (event_id intent_id : string)
    (intent : PaymentIntent) (w : hooked_world) (booking_id : string)
    (booking : BookingRow) (e' : env) :
  stripe_event_seen now event_id w = false ->
  booking_of_intent (db (site w)) intent_id = Some (Some (booking_id, booking)) ->
  b_status booking = RESERVED ->
  let answer :=
    stripe_webhook bookings_of_charge now
      (verified {| stripe_event_id := event_id;
                   stripe_event_data_object :=
                     payment_intent_payment_failed intent_id intent |})
      w in
  fst answer = JSONResponse "success"
  /\ b_status <$> bookings (db (site (snd answer))) !! booking_id = Some RESERVED
  /\ calendar_availability (db (site (snd answer))) = calendar_availability (db (site w))
  /\ cancel_expired_booking_task e' booking_id (site (snd answer)) = site (snd answer).
Proof.
  intros Hseen Hfound Hst. unfold stripe_webhook. simpl.
  rewrite Hseen, Hfound. simpl.
  repeat split; unfold cancel_expired_booking_task; simpl; rewrite lookup_insert_eq;
    simpl; by rewrite Hst.
Qed.

(** A [payment_intent.payment_failed] event marks the payment of its
    booking as failed whatever the state of the booking. When it reaches a
    booking that is confirmed, a cancellation that follows refunds
    nothing, however early it is made: no refund is asked of the processor
    and none is recorded. *)
Theorem late_failure_event_forfeits_the_refund (now : Z) (event_id intent_id : string)
    (intent : PaymentIntent) (w : hooked_world) (booking_id : string)
    (booking : BookingRow) (e' : env) (reason : option string) :
  stripe_event_seen now event_id w = false ->
  booking_of_intent (db (site w)) intent_id = Some (Some (booking_id, booking)) ->
  b_status booking = CONFIRMED ->
  let answer :=
    stripe_webhook bookings_of_charge now
      (verified {| stripe_event_id := event_id;
                   stripe_event_data_object :=
                     payment_intent_payment_failed intent_id intent |})
      w in
  let cancelled := cancel_booking e' booking_id reason (site (snd answer)) in
  fst answer = JSONResponse "success"
  /\ fst cancelled = BookingCancelResponse booking_id CANCELLED None None
  /\ refunds (stripe (snd cancelled)) = refunds (stripe (site w))
  /\ payment_transactions (db (snd cancelled)) = payment_transactions (db (site w)).
Proof.
  intros Hseen Hfound Hst. unfold stripe_webhook. simpl.
  rewrite Hseen, Hfound. simpl.
  unfold cancel_booking. simpl. rewrite lookup_insert_eq. simpl. rewrite Hst. simpl.
  by rewrite !app_nil_r.
Qed.
End stripe_webhook.

(** Ada's reservation, as the store holds it, and her payment intent once
    she has paid. *)
Definition ada_reserved_row : BookingRow :=
  {| b_tenant_id := "tenant-1"; b_property_id := "villa"; b_guest_id := "guest-a";
     booking_reference := "PMS-2026-000001"; check_in := june 1; check_out := june 5;
     num_adults := 2; source := "direct"; b_status := RESERVED; payment_status := PENDING;
     nightly_rate := Quot (Dec 48000 2) 4; b_subtotal := Dec 48000 2;
     b_cleaning_fee := Dec 5000 2; b_service_fee := Dec 2650 2; tax_amount := Dec 3896 2;
     total_price := Dec 59546 2; b_currency := "EUR";
     stripe_payment_intent_id := Some "pi_a"; special_requests := None;
     expires_at := Some 1780001800000000; created_at := 1780000000000000;
     updated_at := 1780000000000000; paid_amount := None; paid_at := None;
     confirmed_at := None; cancelled_at := None; cancellation_reason := None;
     refund_amount := None |}.

Definition ada_intent : PaymentIntent :=
  {| pi_status := "succeeded"; pi_amount := 59546; pi_currency := "EUR";
     amount_received := 59546; latest_charge := Some "ch_1"; client_secret := "secret_a";
     metadata := [ ("property_id", "villa"); ("booking_reference", "PMS-2026-000001");
                   ("guest_email", "ada@example.org"); ("check_in", "739768");
                   ("check_out", "739772") ] |}.

Definition no_charges (d : database) (charge_id : string) : list (string * BookingRow) := [].

Definition hooked (w : world) : hooked_world := {| site := w; stripe_events := ∅ |}.

Definition later : env := surroundings 1780001800000000 "t" false.

Lemma uninterrupted_create_booking_is_safe_witness :
  no_double_booking (db (snd (create_booking (rs_env bob) (rs_request bob) reserved_world))).
Proof.
  apply (uninterrupted_create_booking_is_safe (rs_env bob) (rs_request bob) reserved_world).
  intros i j a b Hij Ha Hb.
  assert (bookings (db reserved_world) = {[ "booking-a" := ada_reserved_row ]}) as Hrows
    by (vm_compute; reflexivity).
  rewrite Hrows in Ha, Hb.
  apply lookup_singleton_Some in Ha as [<- _]. apply lookup_singleton_Some in Hb as [<- _].
  by destruct Hij.
Defined.

Lemma released_stay_is_available_again_witness :
  check_availability_internal (db (cancel_expired_booking_task later "booking-a" reserved_world))
    "villa" (june 1) (june 5) = is_available
  /\ check_availability_internal
       (db (snd (cancel_booking later "booking-a" (Some "plans changed") reserved_world)))
       "villa" (june 1) (june 5) = is_available.
Proof.
  apply (released_stay_is_available_again (rs_env ada) later (rs_request ada) empty_world
           reserved_world "booking-a" "PMS-2026-000001" RESERVED PENDING (Dec 59546 2)
           "EUR" 1780001800000000 "secret_a" (Some "plans changed")).
  vm_compute. reflexivity.
Defined.

Lemma confirmed_booking_is_not_expired_witness :
  cancel_expired_booking_task later "booking-a" confirmed_world = confirmed_world.
Proof.
  apply (confirmed_booking_is_not_expired (surroundings 1780000600000000 "x" false) later
           "booking-a" "pi_a" paid_world confirmed_world "PMS-2026-000001" CONFIRMED PAID
           (Some 1780000600000000)).
  vm_compute. reflexivity.
Defined.

Lemma cancelled_booking_stays_cancelled_witness :
  cancel_booking later "booking-a" None
    (snd (cancel_booking refund_down "booking-a" None confirmed_world))
  = (cancel_refused 400 "Booking is already cancelled",
     snd (cancel_booking refund_down "booking-a" None confirmed_world))
  /\ confirm_booking later "booking-a" "pi_a"
       (snd (cancel_booking refund_down "booking-a" None confirmed_world))
     = (confirm_refused 400 "Booking cannot be confirmed from status: cancelled",
        snd (cancel_booking refund_down "booking-a" None confirmed_world))
  /\ cancel_expired_booking_task later "booking-a"
       (snd (cancel_booking refund_down "booking-a" None confirmed_world))
     = snd (cancel_booking refund_down "booking-a" None confirmed_world).
Proof.
  apply (cancelled_booking_stays_cancelled refund_down later "booking-a" None None "pi_a"
           confirmed_world (snd (cancel_booking refund_down "booking-a" None confirmed_world))
           CANCELLED (Some "failed") (Some (Dec 59546 2))).
  vm_compute. reflexivity.
Defined.

(** The processor reports Ada's payment, then sends the event again with
    another content. *)
Definition ada_paid_event : stripe_event :=
  {| stripe_event_id := "evt_1";
     stripe_event_data_object := payment_intent_succeeded "pi_a" ada_intent |}.

Lemma stripe_event_is_handled_once_witness :
  stripe_webhook no_charges 1780000700000000
    (verified {| stripe_event_id := "evt_1";
                 stripe_event_data_object := payment_intent_payment_failed "pi_a" ada_intent |})
    (snd (stripe_webhook no_charges 1780000600000000 (verified ada_paid_event)
            (hooked paid_world)))
  = (JSONResponse "already_processed",
     snd (stripe_webhook no_charges 1780000600000000 (verified ada_paid_event)
            (hooked paid_world))).
Proof.
  apply (stripe_event_is_handled_once no_charges 1780000600000000 1780000700000000
           ada_paid_event (payment_intent_payment_failed "pi_a" ada_intent)
           (hooked paid_world)
           (snd (stripe_webhook no_charges 1780000600000000 (verified ada_paid_event)
                   (hooked paid_world)))).
  - vm_compute. reflexivity.
  - vm_compute. reflexivity.
Defined.

Lemma webhook_confirmation_records_no_payment_witness :
  fst (stripe_webhook no_charges 1780000600000000 (verified ada_paid_event)
         (hooked paid_world))
  = JSONResponse "success"
  /\ bookings (db (site (snd (stripe_webhook no_charges 1780000600000000
                                (verified ada_paid_event) (hooked paid_world)))))
     !! "booking-a"
     = Some (confirmed_row 1780000600000000 ada_intent ada_reserved_row)
  /\ payment_transactions
       (db (site (snd (stripe_webhook no_charges 1780000600000000
                         (verified ada_paid_event) (hooked paid_world)))))
     = payment_transactions (db (site (hooked paid_world)))
  /\ confirm_booking later "booking-a" "pi_a"
       (site (snd (stripe_webhook no_charges 1780000600000000
                     (verified ada_paid_event) (hooked paid_world))))
     = (BookingConfirmedResponse "booking-a" (booking_reference ada_reserved_row)
          CONFIRMED PAID (Some 1780000600000000),
        site (snd (stripe_webhook no_charges 1780000600000000
                     (verified ada_paid_event) (hooked paid_world)))).
Proof.
  apply (webhook_confirmation_records_no_payment no_charges 1780000600000000 "evt_1"
           "pi_a" ada_intent (hooked paid_world) "booking-a" ada_reserved_row later);
    vm_compute; reflexivity.
Defined.

Lemma failed_payment_keeps_the_reservation_witness :
  fst (stripe_webhook no_charges 1780000600000000
         (verified {| stripe_event_id := "evt_2";
                      stripe_event_data_object :=
                        payment_intent_payment_failed "pi_a" ada_intent |})
         (hooked reserved_world))
  = JSONResponse "success"
  /\ b_status <$>
       bookings (db (site (snd (stripe_webhook no_charges 1780000600000000
                                  (verified {| stripe_event_id := "evt_2";
                                               stripe_event_data_object :=
                                                 payment_intent_payment_failed "pi_a"
                                                   ada_intent |})
                                  (hooked reserved_world)))))
       !! "booking-a"
     = Some RESERVED
  /\ calendar_availability
       (db (site (snd (stripe_webhook no_charges 1780000600000000
                         (verified {| stripe_event_id := "evt_2";
                                      stripe_event_data_object :=
                                        payment_intent_payment_failed "pi_a" ada_intent |})
                         (hooked reserved_world)))))
     = calendar_availability (db (site (hooked reserved_world)))
  /\ cancel_expired_booking_task later "booking-a"
       (site (snd (stripe_webhook no_charges 1780000600000000
                     (verified {| stripe_event_id := "evt_2";
                                  stripe_event_data_object :=
                                    payment_intent_payment_failed "pi_a" ada_intent |})
                     (hooked reserved_world))))
     = site (snd (stripe_webhook no_charges 1780000600000000
                    (verified {| stripe_event_id := "evt_2";
                                 stripe_event_data_object :=
                                   payment_intent_payment_failed "pi_a" ada_intent |})
                    (hooked reserved_world))).
Proof.
  apply (failed_payment_keeps_the_reservation no_charges 1780000600000000 "evt_2" "pi_a"
           ada_intent (hooked reserved_world) "booking-a" ada_reserved_row later);
    vm_compute; reflexivity.
Defined.

(** Ada's stay is 68 days away when she cancels; the policy would refund
    the whole price. *)
Lemma late_failure_event_forfeits_the_refund_witness :
  fst (stripe_webhook no_charges 1780000700000000
         (verified {| stripe_event_id := "evt_2";
                      stripe_event_data_object :=
                        payment_intent_payment_failed "pi_a" ada_intent |})
         (hooked confirmed_world))
  = JSONResponse "success"
  /\ fst (cancel_booking later "booking-a" None
            (site (snd (stripe_webhook no_charges 1780000700000000
                          (verified {| stripe_event_id := "evt_2";
                                       stripe_event_data_object :=
                                         payment_intent_payment_failed "pi_a" ada_intent |})
                          (hooked confirmed_world)))))
     = BookingCancelResponse "booking-a" CANCELLED None None
  /\ refunds (stripe (snd (cancel_booking later "booking-a" None
                             (site (snd (stripe_webhook no_charges 1780000700000000
                                           (verified {| stripe_event_id := "evt_2";
                                                        stripe_event_data_object :=
                                                          payment_intent_payment_failed
                                                            "pi_a" ada_intent |})
                                           (hooked confirmed_world)))))))
     = refunds (stripe (site (hooked confirmed_world)))
  /\ payment_transactions
       (db (snd (cancel_booking later "booking-a" None
                   (site (snd (stripe_webhook no_charges 1780000700000000
                                 (verified {| stripe_event_id := "evt_2";
                                              stripe_event_data_object :=
                                                payment_intent_payment_failed "pi_a"
                                                  ada_intent |})
                                 (hooked confirmed_world)))))))
     = payment_transactions (db (site (hooked confirmed_world))).
Proof.
  apply (late_failure_event_forfeits_the_refund no_charges 1780000700000000 "evt_2" "pi_a"
           ada_intent (hooked confirmed_world) "booking-a"
           (confirmed_row 1780000600000000 ada_intent ada_reserved_row) later None);
    vm_compute; reflexivity.
Defined.

(** Ada cancels her confirmed stay 68 days ahead: one refund, of the whole
    price. *)
Lemma refund_is_within_the_price_witness :
  exists added,
    refunds (stripe (snd (cancel_booking later "booking-a" None confirmed_world)))
    = refunds (stripe confirmed_world) ++ added
    /\ (length added <= 1)%nat
    /\ Forall (fun r =>
                 refund_payment_intent r
                 = default "" (stripe_payment_intent_id
                                 (confirmed_row 1780000600000000 ada_intent ada_reserved_row))
                 /\ 0 <= refund_cents r
                    <= to_cents (total_price
                                   (confirmed_row 1780000600000000 ada_intent
                                      ada_reserved_row)))
              added.
Proof.
  apply (refund_is_within_the_price later "booking-a" None confirmed_world
           (confirmed_row 1780000600000000 ada_intent ada_reserved_row)).
  - vm_compute. reflexivity.
  - vm_compute. discriminate.
Defined.

Example refund_in_figures :
  refunds (stripe (snd (cancel_booking later "booking-a" None confirmed_world)))
  = [ {| refund_id := "re_t"; refund_payment_intent := "pi_a"; refund_cents := 59546;
         refund_status := "succeeded" |} ].
Proof. vm_compute. reflexivity. Qed.

End BookingFacts.
